(** * Batch orchestration and recovery controller

    A shallow embedding of [run_batches_simple.py] and
    [merge_batch_results.py]: the batch splitter, the result classifier,
    the process supervisor, the fallback selector, the escalation loop of
    [main], and the result merger.

    Python integers are [Z]; Python lists are [list]; dictionaries with
    optional keys are [gmap]s or association lists; exceptions and
    [sys.exit] are explicit results. *)

From Stdlib Require Import ZArith String Ascii List Lia Bool.
From Stdlib Require Import Floats.SpecFloat.
From stdpp Require Import base option list gmap strings pretty.

Import ListNotations.
#[local] Set Warnings "-register-all".
Local Open Scope string_scope.
Local Open Scope list_scope.

(** ** Python exceptions and fallible results *)

Inductive exn : Type :=
| ValueError
| IndexError
| TypeError
| AttributeError
| KeyError
| OSError
| JSONDecodeError
| YAMLError
| UnboundLocalError.

Inductive pyres (A : Type) : Type :=
| Ok (a : A)
| Raise (e : exn).
Arguments Ok {A} a.
Arguments Raise {A} e.

#[global] Instance pyres_ret : MRet pyres := fun A a => Ok a.
#[global] Instance pyres_bind : MBind pyres := fun A B k r =>
  match r with
  | Ok a => k a
  | Raise e => Raise e
  end.

(** ** Python builtins used by the splitter *)

Module Py.

(** [range(start, stop, step)] iterates [i = start; while i < stop: i += step]
    for a positive step (and downwards for a negative one); a zero step is
    a [ValueError].  The fuel is the distance to cover, which is enough
    because every step moves by at least one. *)
Fixpoint range_up (fuel : nat) (i stop step : Z) : list Z :=
  match fuel with
  | O => []
  | S fuel' =>
      if (i <? stop)%Z then i :: range_up fuel' (i + step) stop step else []
  end.

Fixpoint range_down (fuel : nat) (i stop step : Z) : list Z :=
  match fuel with
  | O => []
  | S fuel' =>
      if (stop <? i)%Z then i :: range_down fuel' (i + step) stop step else []
  end.

Definition range (start stop step : Z) : pyres (list Z) :=
  if (step =? 0)%Z then Raise ValueError
  else if (0 <? step)%Z
       then Ok (range_up (Z.to_nat (stop - start)) start stop step)
       else Ok (range_down (Z.to_nat (start - stop)) start stop step).

(** A slice bound [k] of [l[lo:hi]]: negative bounds count from the end,
    and every bound is clamped to [0 .. len]. *)
Definition slice_bound (len k : Z) : Z :=
  if (k <? 0)%Z then Z.max 0 (k + len) else Z.min k len.

Definition slice {A} (l : list A) (lo hi : Z) : list A :=
  let len := Z.of_nat (length l) in
  let lo' := slice_bound len lo in
  let hi' := slice_bound len hi in
  take (Z.to_nat (hi' - lo')) (drop (Z.to_nat lo') l).

(** [l[i]]: a negative index counts from the end; out of range raises. *)
Definition index {A} (l : list A) (i : Z) : pyres A :=
  let len := Z.of_nat (length l) in
  let j := if (i <? 0)%Z then (i + len)%Z else i in
  if ((0 <=? j) && (j <? len))%Z
  then match l !! Z.to_nat j with
       | Some x => Ok x
       | None => Raise IndexError
       end
  else Raise IndexError.

End Py.

(** ** Batch Splitter *)

Module Splitter.

(** [split_into_batches(tests, batch_size)]:
    [for i in range(0, len(tests), batch_size): batches.append(tests[i:i+batch_size])]. *)
Definition split_into_batches {A} (tests : list A) (batch_size : Z)
  : pyres (list (list A)) :=
  idxs ← Py.range 0 (Z.of_nat (length tests)) batch_size;
  mret (map (fun i => Py.slice tests i (i + batch_size)%Z) idxs).

(** The least [c] with [n <= c * b], for [b > 0]. *)
Definition ceil_div (n b : Z) : Z := ((n + b - 1) / b)%Z.

End Splitter.


(** ** Result Classifier *)

Module Classifier.

(** What [json.load] returns: [None], a bool, an int, a float, a str, a
    list or a dict.  A dict is kept as its ordered list of items (keys
    are distinct after parsing). *)
Inductive pyval : Type :=
| PyNone
| PyBool (b : bool)
| PyInt (z : Z)
| PyFloat (f : spec_float)
| PyStr (s : string)
| PyList (xs : list pyval)
| PyDict (items : list (string * pyval)).

(** The text [str()] gives for a float, a list or a dict.  It is a Python
    builtin and is left open; the classifier holds for every choice. *)
Class PyRepr := repr_other : pyval -> string.

(** [str(v)]. *)
Definition py_str `{PyRepr} (v : pyval) : string :=
  match v with
  | PyStr s => s
  | PyNone => "None"
  | PyBool true => "True"
  | PyBool false => "False"
  | PyInt z => pretty z
  | PyFloat _ | PyList _ | PyDict _ => repr_other v
  end.

Fixpoint assoc (key : string) (items : list (string * pyval)) : option pyval :=
  match items with
  | [] => None
  | (k, v) :: rest => if String.eqb k key then Some v else assoc key rest
  end.

(** [v.get(key, default)]: only a dict has [get]. *)
Definition py_get (v : pyval) (key : string) (default : pyval) : pyres pyval :=
  match v with
  | PyDict items => Ok (from_option id default (assoc key items))
  | _ => Raise AttributeError
  end.

(** A str is kept as the bytes of its UTF-8 encoding.  A byte of the
    form 10xxxxxx continues the character begun before it. *)
Definition is_continuation (c : ascii) : bool :=
  let n := nat_of_ascii c in
  ((128 <=? n) && (n <? 192))%nat.

(** The str goes on with a continuation byte. *)
Definition continues (s : string) : bool :=
  match s with
  | String c _ => is_continuation c
  | EmptyString => false
  end.

(** The characters of a str, each with all its bytes. *)
Fixpoint chars (s : string) : list string :=
  match s with
  | EmptyString => []
  | String c rest =>
      if continues rest then
        match chars rest with
        | piece :: pieces => String c piece :: pieces
        | [] => [String c EmptyString]
        end
      else String c EmptyString :: chars rest
  end.

(** [for x in v]: a list gives its elements, a dict its keys, a str its
    characters (as one-character strs); anything else is not iterable. *)
Definition py_iter (v : pyval) : pyres (list pyval) :=
  match v with
  | PyList xs => Ok xs
  | PyDict items => Ok (map (fun kv => PyStr (fst kv)) items)
  | PyStr s => Ok (map PyStr (chars s))
  | _ => Raise TypeError
  end.

(** [needle in hay] on strs. *)
Fixpoint contains (needle hay : string) : bool :=
  String.prefix needle hay ||
  match hay with
  | EmptyString => false
  | String _ rest => contains needle rest
  end.

(** [s.lower()].  Strings are byte strings here; only [A-Z] change.  The
    needles searched in a lowered text are ASCII, so bytes of other
    characters never take part in a match. *)
Definition lower_ascii (c : ascii) : ascii :=
  let n := nat_of_ascii c in
  if ((65 <=? n) && (n <=? 90))%nat then ascii_of_nat (n + 32) else c.

Fixpoint lower (s : string) : string :=
  match s with
  | EmptyString => EmptyString
  | String c rest => String (lower_ascii c) (lower rest)
  end.

(** The [if] test of the scan loop. *)
Definition is_rate_limit (error : string) : bool :=
  contains "429" error || contains "Rate limit" (lower error)
  || contains "Too Many Requests" error.

(** The [elif] test of the scan loop. *)
Definition is_overloaded (error : string) : bool :=
  contains "503" error || contains "Service Unavailable" error
  || contains "overloaded" (lower error).

(** One iteration of [for result in results] over the two counters
    [(rate_limit_count, service_unavailable_count)]. *)
Definition scan_step `{PyRepr} (counts : Z * Z) (result : pyval) : pyres (Z * Z) :=
  response ← py_get result "response" (PyDict []);
  err ← py_get response "error" (PyStr "");
  let error := py_str err in
  if is_rate_limit error then mret (fst counts + 1, snd counts)%Z
  else if is_overloaded error then mret (fst counts, snd counts + 1)%Z
  else mret counts.

Fixpoint scan `{PyRepr} (results : list pyval) (counts : Z * Z) : pyres (Z * Z) :=
  match results with
  | [] => mret counts
  | result :: rest => counts' ← scan_step counts result; scan rest counts'
  end.

(** The artifact path as [check_api_errors] finds it. *)
Inductive artifact_file : Type :=
| FileAbsent                       (* [os.path.exists] is false *)
| FileUnreadable                   (* [open] raises *)
| FileMalformed                    (* [json.load] raises *)
| FileJson (data : pyval).

Definition classification : Type := option string * Z * Z.

(** The body of the [try]. *)
Definition check_api_errors_try `{PyRepr} (output_json : artifact_file)
  : pyres classification :=
  match output_json with
  | FileAbsent => mret (None, 0, 0)%Z
  | FileUnreadable => Raise OSError
  | FileMalformed => Raise JSONDecodeError
  | FileJson data =>
      outer ← py_get data "results" (PyDict []);
      inner ← py_get outer "results" (PyList []);
      results ← py_iter inner;
      counts ← scan results (0, 0)%Z;
      let '(rate_limit_count, service_unavailable_count) := counts in
      if (0 <? rate_limit_count)%Z
      then mret (Some "429_rate_limit", rate_limit_count, 0%Z)
      else if (0 <? service_unavailable_count)%Z
      then mret (Some "503_overloaded", 0%Z, service_unavailable_count)
      else mret (None, 0, 0)%Z
  end.

(** [check_api_errors(output_json)]: [except Exception] answers
    [(None, 0, 0)]. *)
Definition check_api_errors `{PyRepr} (output_json : artifact_file) : classification :=
  match check_api_errors_try output_json with
  | Ok c => c
  | Raise _ => (None, 0, 0)%Z
  end.

End Classifier.


(** ** The batch configuration ([create_batch_config])

    What [create_batch_config] writes, as a function of what
    [yaml.safe_load] read from the base configuration.  The loaded value
    is a [pyval] tree (mapping keys are strs, no node is shared through a
    YAML alias); [config_dir] stands for
    [os.path.dirname(os.path.abspath(base_config))] and [batch_file_abs]
    for [os.path.abspath(batch_file)]. *)

Module Materializer.
Import Classifier.

(** [s.startswith(prefix)]. *)
Definition startswith (s prefix : string) : bool := String.prefix prefix s.

(** [s[n:]]. *)
Fixpoint str_drop (n : nat) (s : string) : string :=
  match n, s with
  | O, _ => s
  | S _, EmptyString => EmptyString
  | S n', String _ rest => str_drop n' rest
  end.

(** [key in d]. *)
Definition dict_has (key : string) (items : list (string * pyval)) : bool :=
  match assoc key items with
  | Some _ => true
  | None => false
  end.

(** [d.pop(key, None)]: the item of that key leaves the dict. *)
Fixpoint dict_pop (key : string) (items : list (string * pyval))
  : list (string * pyval) :=
  match items with
  | [] => []
  | (k, v) :: rest =>
      if String.eqb k key then rest else (k, v) :: dict_pop key rest
  end.

(** [d[key] = v]: a key already there keeps its place, a new key goes
    last. *)
Fixpoint dict_set (key : string) (v : pyval) (items : list (string * pyval))
  : list (string * pyval) :=
  match items with
  | [] => [(key, v)]
  | (k, w) :: rest =>
      if String.eqb k key then (k, v) :: rest else (k, w) :: dict_set key v rest
  end.

(** The [if]/[elif] on a str prompt. *)
Definition rewrite_prompt (config_dir prompt : string) : string :=
  if startswith prompt "file://prompts/" then
    "file://" ++ config_dir ++ "/prompts/"
      ++ str_drop (String.length "file://prompts/") prompt
  else if startswith prompt "file://tests/prompts/" then
    "file://" ++ config_dir ++ "/tests/prompts/"
      ++ str_drop (String.length "file://tests/prompts/") prompt
  else prompt.

(** One iteration of [for prompt in config['prompts']]: what is appended
    to [new_prompts]. *)
Definition rewrite_entry (config_dir : string) (prompt : pyval) : pyval :=
  match prompt with
  | PyStr s => PyStr (rewrite_prompt config_dir s)
  | _ => prompt
  end.

(** One iteration of [for provider in config['providers']]: the provider
    as the loop leaves it.  [provider['id'].startswith] exists on a str
    only. *)
Definition switch_provider (fallback_model : string) (provider : pyval)
  : pyres pyval :=
  match provider with
  | PyDict items =>
      match assoc "id" items with
      | Some (PyStr id) =>
          if startswith id "google:gemini-"
          then Ok (PyDict (dict_set "id" (PyStr fallback_model) items))
          else Ok provider
      | Some _ => Raise AttributeError
      | None => Ok provider
      end
  | _ => Ok provider
  end.

Fixpoint switch_each (fallback_model : string) (providers : list pyval)
  : pyres (list pyval) :=
  match providers with
  | [] => mret []
  | provider :: rest =>
      provider' ← switch_provider fallback_model provider;
      rest' ← switch_each fallback_model rest;
      mret (provider' :: rest')
  end.

(** The loop over [config['providers']]: the elements of a list are
    changed in place; the keys of a dict and the characters of a str are
    never dicts, so such a value stays as it is. *)
Definition switch_providers (fallback_model : string) (providers : pyval)
  : pyres pyval :=
  xs ← py_iter providers;
  xs' ← switch_each fallback_model xs;
  mret (match providers with
        | PyList _ => PyList xs'
        | _ => providers
        end).

(** [if fallback_model]. *)
Definition truthy_model (fallback_model : option string) : bool :=
  match fallback_model with
  | Some s => negb (String.eqb s "")
  | None => false
  end.

(** The dict that [create_batch_config] dumps into the temporary
    configuration file.  [config.pop] exists on a dict; a list has a
    [pop] of at most one argument; no other loaded value has one. *)
Definition create_batch_config (config : pyval) (config_dir batch_file_abs : string)
  (fallback_model : option string) : pyres pyval :=
  match config with
  | PyDict items =>
      let items := dict_pop "tests" items in
      items ←
        match assoc "prompts" items with
        | Some prompts =>
            xs ← py_iter prompts;
            mret (dict_set "prompts" (PyList (map (rewrite_entry config_dir) xs)) items)
        | None => mret items
        end;
      items ←
        (if truthy_model fallback_model && dict_has "providers" items then
           match assoc "providers" items with
           | Some providers =>
               providers' ← switch_providers (default "" fallback_model) providers;
               mret (dict_set "providers" providers' items)
           | None => mret items
           end
         else mret items);
      mret (PyDict (dict_set "tests" (PyStr ("file://" ++ batch_file_abs)) items))
  | PyList _ => Raise TypeError
  | _ => Raise AttributeError
  end.

End Materializer.

(** ** Process Supervisor *)

Module Status.
(** The values of a BatchOutcome's ["status"] key. *)
Inductive t : Type :=
| success
| failed
| timeout
| rate_limited
| service_overloaded
| error.

Definition eqb (a b : t) : bool :=
  match a, b with
  | success, success | failed, failed | timeout, timeout
  | rate_limited, rate_limited | service_overloaded, service_overloaded
  | error, error => true
  | _, _ => false
  end.
End Status.

Module Supervisor.
Import Classifier.

(** The dict [run_batch] returns; optional keys are [option]s.  Times are
    readings of the clock, in milliseconds. *)
Record batch_result : Type := {
  batch_num : Z;
  status : Status.t;
  elapsed : option Z;
  error_count : option Z;
  error_type : option string;
  error_message : option string;          (* key ["error"] *)
}.

(** What the external tool does in one invocation, as [run_batch] sees it. *)
Inductive tool_run : Type :=
| SpawnFails (message : string)
    (* [subprocess.Popen] raises *)
| TimesOut (elapsed_ms : Z) (kill_error : option string)
    (* [process.wait] raises [TimeoutExpired]; killing the group may raise
       something other than [ProcessLookupError] *)
| Exits (return_code : Z) (elapsed_ms : Z) (output_json : artifact_file).
    (* the process ends in time, leaving the artifact path in this state *)

(** The outcome [run_batch] reports for one invocation. *)
Definition report `{PyRepr} (batch_num : Z) (run : tool_run) : batch_result :=
  match run with
  | SpawnFails message =>
      {| batch_num := batch_num; status := Status.error; elapsed := None;
         error_count := None; error_type := None; error_message := Some message |}
  | TimesOut elapsed_ms None =>
      {| batch_num := batch_num; status := Status.timeout; elapsed := Some elapsed_ms;
         error_count := None; error_type := None; error_message := None |}
  | TimesOut _ (Some message) =>
      {| batch_num := batch_num; status := Status.error; elapsed := None;
         error_count := None; error_type := None; error_message := Some message |}
  | Exits return_code elapsed_ms output_json =>
      let '(kind, rate_limit_count, service_503_count) := check_api_errors output_json in
      if bool_decide (kind = Some "429_rate_limit") then
        {| batch_num := batch_num; status := Status.rate_limited;
           elapsed := Some elapsed_ms; error_count := Some rate_limit_count;
           error_type := Some "429"; error_message := None |}
      else if bool_decide (kind = Some "503_overloaded") then
        {| batch_num := batch_num; status := Status.service_overloaded;
           elapsed := Some elapsed_ms; error_count := Some service_503_count;
           error_type := Some "503"; error_message := None |}
      else if (return_code =? 0)%Z then
        {| batch_num := batch_num; status := Status.success;
           elapsed := Some elapsed_ms; error_count := None; error_type := None;
           error_message := None |}
      else
        {| batch_num := batch_num; status := Status.failed;
           elapsed := Some elapsed_ms; error_count := None; error_type := None;
           error_message := None |}
  end.

End Supervisor.

(** ** Escalation Controller: the loop of [main] *)

Module Orchestrator.
Import Classifier Supervisor.

Definition FALLBACK_MODELS : list (string * string) :=
  [ ("google:gemini-2.5-flash-lite", "Gemini 2.5 Flash Lite (Fastest, lower load)");
    ("google:gemini-3-pro-preview", "Gemini 3 Pro Preview (More heavy capacity)");
    ("google:gemini-2.5-pro", "Gemini 2.5 Pro (More capacity)") ].

Definition MAX_CONSECUTIVE_FAILURES : Z := 2.

(** The parsed command line. *)
Record args : Type := {
  batch_size : Z;
  delay : Z;
  timeout : Z;
  config : string;
  tests : option string;
  start : option Z;
  end_ : option Z;
  no_fallback : bool;
  model : option string;
}.

(** What the run does to the outside, in order. *)
Inductive event : Type :=
| CreateBatchFile (batch_num : Z)
| CreateBatchConfig (batch_num : Z) (fallback_model : option string)
| RunTool (batch_num : Z) (timeout_seconds : Z)
| Sleep (seconds : Z)
| PrintRateLimitStop (batch_num : Z) (error_count : Z)
| WritePartialSummary (results : list batch_result)
| PrintResumeHint (batch_num : Z) (config : string)
| WriteSummary (results : list batch_result)
| MergeBatchResults.

(** The locals of [main] that the loop updates, and the outside world:
    how many times the tool was invoked, whether [reports/batches]
    exists, and the events so far. *)
Record run_state : Type := {
  results : list batch_result;
  consecutive_api_errors : Z;
  current_model : option string;
  tool_calls : nat;
  batches_dir : bool;
  trace : list event;
}.

(** How a computation ends: normally, by [sys.exit(code)], or by an
    exception nobody catches. *)
Inductive outcome (A : Type) : Type :=
| Done (a : A)
| Exit (code : Z)
| Crash (e : exn).
Arguments Done {A} a.
Arguments Exit {A} code.
Arguments Crash {A} e.

Definition M (A : Type) : Type := run_state -> outcome A * run_state.

#[global] Instance M_ret : MRet M := fun A a st => (Done a, st).
#[global] Instance M_bind : MBind M := fun A B k m st =>
  match m st with
  | (Done a, st') => k a st'
  | (Exit code, st') => (Exit code, st')
  | (Crash e, st') => (Crash e, st')
  end.

Definition sys_exit {A} (code : Z) : M A := fun st => (Exit code, st).
Definition crash {A} (e : exn) : M A := fun st => (Crash e, st).
Definition lift {A} (r : pyres A) : M A :=
  match r with
  | Ok a => mret a
  | Raise e => crash e
  end.
Definition gets {A} (f : run_state -> A) : M A := fun st => (Done (f st), st).
Definition modify (f : run_state -> run_state) : M unit := fun st => (Done tt, f st).

Definition with_results (rs : list batch_result) (st : run_state) : run_state :=
  {| results := rs; consecutive_api_errors := consecutive_api_errors st;
     current_model := current_model st; tool_calls := tool_calls st;
     batches_dir := batches_dir st; trace := trace st |}.
Definition with_counter (n : Z) (st : run_state) : run_state :=
  {| results := results st; consecutive_api_errors := n;
     current_model := current_model st; tool_calls := tool_calls st;
     batches_dir := batches_dir st; trace := trace st |}.
Definition with_model (m : option string) (st : run_state) : run_state :=
  {| results := results st; consecutive_api_errors := consecutive_api_errors st;
     current_model := m; tool_calls := tool_calls st;
     batches_dir := batches_dir st; trace := trace st |}.
Definition with_call (st : run_state) : run_state :=
  {| results := results st; consecutive_api_errors := consecutive_api_errors st;
     current_model := current_model st; tool_calls := S (tool_calls st);
     batches_dir := batches_dir st; trace := trace st |}.
Definition with_dir (st : run_state) : run_state :=
  {| results := results st; consecutive_api_errors := consecutive_api_errors st;
     current_model := current_model st; tool_calls := tool_calls st;
     batches_dir := true; trace := trace st |}.
Definition with_event (ev : event) (st : run_state) : run_state :=
  {| results := results st; consecutive_api_errors := consecutive_api_errors st;
     current_model := current_model st; tool_calls := tool_calls st;
     batches_dir := batches_dir st; trace := trace st ++ [ev] |}.

Definition emit (ev : event) : M unit := modify (with_event ev).
(** [os.makedirs("reports/batches", exist_ok=True)]. *)
Definition makedirs : M unit := modify with_dir.

(** Truth value of an optional str ([None] and [""] are false) and of an
    optional int ([None] and [0] are false). *)
Definition truthy_str (o : option string) : bool :=
  match o with
  | Some s => negb (String.eqb s "")
  | None => false
  end.
Definition truthy_int (o : option Z) : bool :=
  match o with
  | Some z => negb (z =? 0)%Z
  | None => false
  end.

(** [time.sleep(seconds)] refuses a negative length. *)
Definition sleep (seconds : Z) : M unit :=
  if (seconds <? 0)%Z then crash ValueError else emit (Sleep seconds).

(** [results[-1] = r]. *)
Definition set_last (r : batch_result) : M unit :=
  rs ← gets results;
  match rs with
  | [] => crash IndexError
  | _ :: _ => modify (with_results (removelast rs ++ [r]))
  end.

Definition create_batch_file (batch_num : Z) : M unit :=
  emit (CreateBatchFile batch_num).

(** The base configuration file as [open] and [yaml.safe_load] find it. *)
Inductive config_source : Type :=
| ConfigUnreadable                 (* [open] raises *)
| ConfigMalformed                  (* [yaml.safe_load] raises *)
| ConfigYaml (config : pyval).

(** What the run finds on the disk beside the artifacts of the tool: the
    base configuration (the same at every reading), the two absolute paths
    [create_batch_config] computes, and whether the [glob] at the end of
    [main] finds a result artifact in [reports/batches] (one of this run
    or an older one). *)
Class Disk : Type := {
  base_config : config_source;
  config_dir : string;
  batch_file_abs : Z -> string;
  batch_files_found : bool;
}.

(** [create_batch_config] from the reading of the base configuration to
    the dict it is about to dump. *)
Definition materialize {D : Disk} (batch_num : Z) (fallback_model : option string)
  : pyres pyval :=
  match base_config with
  | ConfigUnreadable => Raise OSError
  | ConfigMalformed => Raise YAMLError
  | ConfigYaml config =>
      Materializer.create_batch_config config config_dir (batch_file_abs batch_num)
        fallback_model
  end.

(** [create_batch_config]: nothing catches what it raises. *)
Definition create_batch_config {D : Disk} (batch_num : Z)
    (fallback_model : option string) : M unit :=
  makedirs;;
  _ ← lift (materialize batch_num fallback_model);
  emit (CreateBatchConfig batch_num fallback_model).

(** The control flow of [for x in xs: body(x)]. *)
Fixpoint for_each {A} (xs : list A) (body : A -> M unit) : M unit :=
  match xs with
  | [] => mret tt
  | x :: rest => body x;; for_each rest body
  end.

Section WithTool.
(** [tool k] is what the external tool does on its [k]-th invocation
    (counting from zero) in this run. *)
Context `{PyRepr} {D : Disk} (tool : nat -> tool_run).

Definition run_batch (batch_num timeout_seconds : Z) : M batch_result :=
  makedirs;;
  emit (RunTool batch_num timeout_seconds);;
  k ← gets tool_calls;
  modify with_call;;
  mret (report batch_num (tool k)).

(** The [for] loop of [_try_fallback_models] over the roster. *)
Fixpoint try_models (roster : list (string * string)) (batch_num timeout_seconds : Z)
    (current : option string) : M (option string) :=
  match roster with
  | [] => mret None
  | (fallback_model_id, fallback_desc) :: rest =>
      if bool_decide (Some fallback_model_id = current)
      then try_models rest batch_num timeout_seconds current
      else
        create_batch_config batch_num (Some fallback_model_id);;
        retry_result ← run_batch batch_num timeout_seconds;
        match status retry_result with
        | Status.success | Status.failed =>
            set_last retry_result;;
            mret (Some fallback_model_id)
        | _ => try_models rest batch_num timeout_seconds current
        end
  end.

Definition _try_fallback_models (batch_num timeout_seconds : Z)
    (current : option string) : M (option string) :=
  try_models FALLBACK_MODELS batch_num timeout_seconds current.

Definition _save_partial_and_exit {A} (a : args) (batch_num : Z) : M A :=
  makedirs;;
  rs ← gets results;
  emit (WritePartialSummary rs);;
  emit (PrintResumeHint batch_num (config a));;
  sys_exit 1.

(** [if consecutive_api_errors >= MAX_CONSECUTIVE_FAILURES: _save_partial_and_exit(...)]. *)
Definition circuit_breaker (a : args) (batch_num : Z) : M unit :=
  n ← gets consecutive_api_errors;
  if (MAX_CONSECUTIVE_FAILURES <=? n)%Z
  then _save_partial_and_exit a batch_num
  else mret tt.

Definition increment_errors : M unit :=
  modify (fun st => with_counter (consecutive_api_errors st + 1) st).

(** The [timeout] branch; the [service_overloaded] branch has the same
    statements. *)
Definition fallback_or_break (a : args) (batch_num : Z) : M unit :=
  increment_errors;;
  if no_fallback a then circuit_breaker a batch_num
  else
    current ← gets current_model;
    retry_success ← _try_fallback_models batch_num (timeout a) current;
    if truthy_str retry_success
    then modify (with_counter 0);; modify (with_model retry_success)
    else circuit_breaker a batch_num.

(** The block "SMART ERROR HANDLING": the [if]/[elif] chain on
    [result["status"]]. *)
Definition handle_result (a : args) (batch_num : Z) (result : batch_result) : M unit :=
  match status result with
  | Status.success => modify (with_counter 0)
  | Status.timeout => fallback_or_break a batch_num
  | Status.rate_limited =>
      emit (PrintRateLimitStop batch_num (from_option id 0%Z (error_count result)));;
      _save_partial_and_exit a batch_num
  | Status.service_overloaded => fallback_or_break a batch_num
  | Status.failed => mret tt
  | Status.error => increment_errors;; circuit_breaker a batch_num
  end.

(** The block "Cooling delay": [result] is still the outcome of the
    first run of the batch, whatever a fallback put in [results]. *)
Definition cooling_delay (a : args) (end_idx i : Z) (result : batch_result) : M unit :=
  if (i <? end_idx - 1)%Z
     && (Status.eqb (status result) Status.success
         || Status.eqb (status result) Status.failed)
  then sleep (delay a)
  else mret tt.

(** One iteration of [for i in range(start_idx, end_idx)]. *)
Definition process_batch {A} (a : args) (batches : list (list A))
    (end_idx i : Z) : M unit :=
  let batch_num := (i + 1)%Z in
  _ ← lift (Py.index batches i);
  create_batch_file batch_num;;
  current ← gets current_model;
  create_batch_config batch_num current;;
  result ← run_batch batch_num (timeout a);
  modify (fun st => with_results (results st ++ [result]) st);;
  handle_result a batch_num result;;
  cooling_delay a end_idx i result.

(** What loading the tests gives: an exception, or the list. *)
Inductive loaded (A : Type) : Type :=
| LoadError
| Loaded (tests : list A).
Arguments LoadError {A}.
Arguments Loaded {A} tests.

(** The first part of [main]: the tests come from the file [--tests]
    names, or else from the config's inline [tests].  In the inline branch
    the two calls [sys.exit(1)] read the name [sys], which the
    [import sys] further down in [main] makes a local of [main], not yet
    bound there: the call raises. *)
Definition load_and_check {A} (a : args) (source : loaded A) : M (list A) :=
  if truthy_str (tests a) then
    match source with
    | LoadError => crash OSError
    | Loaded ts => mret ts
    end
  else
    match source with
    | LoadError => crash UnboundLocalError
    | Loaded [] => crash UnboundLocalError
    | Loaded ts => mret ts
    end.

Definition count_status (s : Status.t) (rs : list batch_result) : Z :=
  Z.of_nat (length (filter (fun r => Status.eqb (status r) s = true) rs)).

Definition main {A} (a : args) (source : loaded A) : M unit :=
  ts ← load_and_check a source;
  batches ← lift (Splitter.split_into_batches ts (batch_size a));
  let total_batches := Z.of_nat (length batches) in
  let start_idx := if truthy_int (start a)
                   then (from_option id 0 (start a) - 1)%Z else 0%Z in
  let end_idx := if truthy_int (end_ a)
                 then from_option id 0%Z (end_ a) else total_batches in
  modify (fun st => with_model (model a) (with_counter 0 (with_results [] st)));;
  idxs ← lift (Py.range start_idx end_idx 1);
  for_each idxs (process_batch a batches end_idx);;
  rs ← gets results;
  have_dir ← gets batches_dir;
  (if have_dir : bool then emit (WriteSummary rs) else crash OSError);;
  if (0 <? count_status Status.success rs)%Z
  then if batch_files_found then emit MergeBatchResults else mret tt
  else mret tt.

(** The state [main] starts from: its locals are set in [main] itself; the
    world has seen no call and no event, and [reports/batches] may exist. *)
Definition initial_state (a : args) (dir_exists : bool) : run_state :=
  {| results := []; consecutive_api_errors := 0; current_model := model a;
     tool_calls := 0; batches_dir := dir_exists; trace := [] |}.

End WithTool.
Arguments LoadError {A}.
Arguments Loaded {A} tests.

End Orchestrator.


(** ** Result Merger *)

Module Merger.
Import Classifier.

(** The numbers of an artifact that are not counters (scores, latencies):
    Python adds them with [+], whatever they are. *)
Class PyNumber (num : Type) : Type := {
  num_zero : num;                      (* the literal [0] *)
  num_add : num -> num -> num;
}.

Definition TOKEN_KEYS : list string := ["prompt"; "completion"; "cached"; "total"].

Definition sum_list (l : list Z) : Z := foldr Z.add 0%Z l.

(** [results.stats]. *)
Record stats : Type := {
  successes : Z;
  failures : Z;
  errors : Z;
  tokenUsage : gmap string Z;
}.

(** [tokenUsage.get(key, 0)]. *)
Definition usage (key : string) (s : stats) : Z :=
  from_option id 0%Z (tokenUsage s !! key).

(** The inner [for key in [...]] loop: a key the batch has is added to the
    merged counter (taken as 0 when the base lacks it). *)
Definition merge_token_usage (mine theirs : gmap string Z) : gmap string Z :=
  foldl (fun acc key =>
           match theirs !! key with
           | Some v => <[key := (from_option id 0 (acc !! key) + v)%Z]> acc
           | None => acc
           end) mine TOKEN_KEYS.

Section WithNumbers.
Context {num : Type} `{PyNumber num}.

(** One per-test record, with the keys the merger reads. *)
Record test_record : Type := {
  promptId : option string;
  score : option num;
  success : bool;                    (* truth of [result.get('success')] *)
  error : option string;
  latencyMs : option num;
  namedScores : list (string * num); (* items of [result.get('namedScores', {})] *)
}.

(** The per-prompt aggregate the merger builds. *)
Record metrics : Type := {
  metrics_score : num;
  testPassCount : Z;
  testFailCount : Z;
  testErrorCount : Z;
  assertPassCount : Z;
  assertFailCount : Z;
  totalLatencyMs : num;
  metrics_namedScores : gmap string num;
  namedScoresCount : gmap string Z;
}.

(** A prompt entry keeps the tool's own metrics until the merger
    replaces them. *)
Inductive prompt_metrics : Type :=
| FromTool (payload : pyval)
| Recomputed (m : metrics).

Record prompt : Type := {
  prompt_id : option string;
  prompt_metrics_of : prompt_metrics;
}.

(** A loaded batch result file. *)
Record artifact : Type := {
  evalId : string;
  results : list test_record;        (* [results.results] *)
  stats_of : stats;                  (* [results.stats] *)
  prompts : list prompt;             (* [results.prompts] *)
  exportedAt : string;               (* [metadata.exportedAt] *)
}.

(** The variables of the merging loop. *)
Record merge_acc : Type := {
  merged : artifact;
  total_successes : Z;
  total_failures : Z;
  total_errors : Z;
  last_batch_data : artifact;
}.

Definition start_acc (base : artifact) : merge_acc :=
  {| merged := base;
     total_successes := successes (stats_of base);
     total_failures := failures (stats_of base);
     total_errors := errors (stats_of base);
     last_batch_data := base |}.

(** The body of [for batch_file in batch_files[1:]]. *)
Definition merge_step (acc : merge_acc) (batch_data : artifact) : merge_acc :=
  let m := merged acc in
  {| merged :=
       {| evalId := evalId m;
          results := results m ++ results batch_data;
          stats_of :=
            {| successes := successes (stats_of m);
               failures := failures (stats_of m);
               errors := errors (stats_of m);
               tokenUsage := merge_token_usage (tokenUsage (stats_of m))
                               (tokenUsage (stats_of batch_data)) |};
          prompts := prompts m;
          exportedAt := exportedAt m |};
     total_successes := (total_successes acc + successes (stats_of batch_data))%Z;
     total_failures := (total_failures acc + failures (stats_of batch_data))%Z;
     total_errors := (total_errors acc + errors (stats_of batch_data))%Z;
     last_batch_data := batch_data |}.

Definition truthy (o : option string) : bool :=
  match o with
  | Some s => negb (String.eqb s "")
  | None => false
  end.

Definition fresh_metrics : metrics :=
  {| metrics_score := num_zero; testPassCount := 0; testFailCount := 0;
     testErrorCount := 0; assertPassCount := 0; assertFailCount := 0;
     totalLatencyMs := num_zero; metrics_namedScores := ∅; namedScoresCount := ∅ |}.

(** The loop over [result.get('namedScores', {}).items()]. *)
Definition add_named (acc : gmap string num * gmap string Z) (item : string * num)
  : gmap string num * gmap string Z :=
  let '(score_name, score_value) := item in
  (<[score_name := num_add (from_option id num_zero (fst acc !! score_name)) score_value]> (fst acc),
   <[score_name := (from_option id 0 (snd acc !! score_name) + 1)%Z]> (snd acc)).

Definition add_result (m : metrics) (r : test_record) : metrics :=
  let named := foldl add_named (metrics_namedScores m, namedScoresCount m) (namedScores r) in
  {| metrics_score := num_add (metrics_score m) (from_option id num_zero (score r));
     testPassCount := (testPassCount m + if success r then 1 else 0)%Z;
     testFailCount :=
       (testFailCount m + if negb (success r) && negb (truthy (error r)) then 1 else 0)%Z;
     testErrorCount := (testErrorCount m + if truthy (error r) then 1 else 0)%Z;
     assertPassCount := assertPassCount m;
     assertFailCount := assertFailCount m;
     totalLatencyMs := num_add (totalLatencyMs m) (from_option id num_zero (latencyMs r));
     metrics_namedScores := fst named;
     namedScoresCount := snd named |}.

(** The body of [for result in merged['results']['results']]. *)
Definition group_step (by_prompt : gmap string metrics) (r : test_record)
  : gmap string metrics :=
  match promptId r with
  | Some pid =>
      if String.eqb pid "" then by_prompt
      else <[pid := add_result (from_option id fresh_metrics (by_prompt !! pid)) r]> by_prompt
  | None => by_prompt
  end.

Definition update_prompt (by_prompt : gmap string metrics) (p : prompt) : prompt :=
  match prompt_id p with
  | Some pid =>
      match by_prompt !! pid with
      | Some m => {| prompt_id := prompt_id p; prompt_metrics_of := Recomputed m |}
      | None => p
      end
  | None => p
  end.

(** What is written once the loop is over. *)
Definition finish (acc : merge_acc) : artifact :=
  let m := merged acc in
  let by_prompt := foldl group_step ∅ (results m) in
  {| evalId := "merged-" ++ evalId m;
     results := results m;
     stats_of :=
       {| successes := total_successes acc;
          failures := total_failures acc;
          errors := total_errors acc;
          tokenUsage := tokenUsage (stats_of m) |};
     prompts := map (update_prompt by_prompt) (prompts m);
     exportedAt := exportedAt (last_batch_data acc) |}.

(** [merge_results(batch_files, output_file)] on the loaded files: the
    artifact written to [output_file], or nothing written (and [False]
    returned) when there is no file. *)
Definition merge_results (batch_files : list artifact) : option artifact :=
  match batch_files with
  | [] => None
  | base :: others => Some (finish (foldl merge_step (start_acc base) others))
  end.

End WithNumbers.
Arguments test_record num : clear implicits.
Arguments metrics num : clear implicits.
Arguments prompt_metrics num : clear implicits.
Arguments prompt num : clear implicits.
Arguments artifact num : clear implicits.
Arguments merge_acc num : clear implicits.

End Merger.




(** ** Notions used in the statements *)

Module Notions.
Import Classifier Supervisor Orchestrator.

(** The roster without the current model, in roster order. *)
Definition candidates (current : option string) : list string :=
  filter (fun id => Some id <> current) (map fst FALLBACK_MODELS).

(** A candidate is adopted when its outcome is success or failed. *)
Definition adopted (r : batch_result) : bool :=
  match status r with
  | Status.success | Status.failed => true
  | _ => false
  end.

(** The events of trying these candidates on a batch. *)
Definition attempts (batch_num timeout_seconds : Z) (ids : list string) : list event :=
  flat_map (fun id => [CreateBatchConfig batch_num (Some id);
                       RunTool batch_num timeout_seconds]) ids.

Definition is_sleep (ev : event) : bool :=
  match ev with
  | Sleep _ => true
  | _ => false
  end.

(** The state of an iteration once the batch has been run for the first
    time and its outcome appended. *)
Definition after_first_run (a : args) (i : Z) (result : batch_result)
    (st : run_state) : run_state :=
  with_results (results st ++ [result])
    (with_call
       (with_event (RunTool (i + 1) (timeout a))
          (with_dir
             (with_event (CreateBatchConfig (i + 1) (current_model st))
                (with_dir (with_event (CreateBatchFile (i + 1)) st)))))).

(** The state [_save_partial_and_exit] leaves. *)
Definition halted (a : args) (batch_num : Z) (st : run_state) : run_state :=
  with_event (PrintResumeHint batch_num (config a))
    (with_event (WritePartialSummary (results st)) (with_dir st)).

(** An infrastructure failure that no fallback will be tried for: an
    error outcome, or a timeout or overload with fallback disabled. *)
Definition unresolved (a : args) (r : batch_result) : Prop :=
  status r = Status.error
  \/ ((status r = Status.timeout \/ status r = Status.service_overloaded)
      /\ no_fallback a = true).

(** The command line with another [--start] or [--end]. *)
Definition with_start (v : option Z) (a : args) : args :=
  {| batch_size := batch_size a; delay := delay a; timeout := timeout a;
     config := config a; tests := tests a; start := v; end_ := end_ a;
     no_fallback := no_fallback a; model := model a |}.

Definition with_end (v : option Z) (a : args) : args :=
  {| batch_size := batch_size a; delay := delay a; timeout := timeout a;
     config := config a; tests := tests a; start := start a; end_ := v;
     no_fallback := no_fallback a; model := model a |}.

(** The error text the scan loop reads from one per-test record. *)
Definition error_text_of `{PyRepr} (result : pyval) : pyres string :=
  response ← py_get result "response" (PyDict []);
  err ← py_get response "error" (PyStr "");
  mret (py_str err).

(** The error texts of all records, when every record has one. *)
Fixpoint error_texts `{PyRepr} (results : list pyval) : pyres (list string) :=
  match results with
  | [] => mret []
  | result :: rest =>
      text ← error_text_of result;
      texts ← error_texts rest;
      mret (text :: texts)
  end.

(** The per-test records of an artifact, when it has the expected shape. *)
Definition records_of (data : pyval) : pyres (list pyval) :=
  outer ← py_get data "results" (PyDict []);
  inner ← py_get outer "results" (PyList []);
  py_iter inner.

(** A text that is counted as an overload: the [elif] is reached and holds. *)
Definition counts_as_overload (text : string) : bool :=
  negb (is_rate_limit text) && is_overloaded text.

(** How many of the records satisfy a test. *)
Definition count_records {num} (test : Merger.test_record num -> bool)
    (rs : list (Merger.test_record num)) : Z :=
  Z.of_nat (length (filter (fun r => test r = true) rs)).

(** The records of one prompt, in order. *)
Definition records_of_prompt {num} (pid : string) (rs : list (Merger.test_record num))
  : list (Merger.test_record num) :=
  filter (fun r => Merger.promptId r = Some pid) rs.

(** Two states of the merging loop that hold the same records, token
    counters and totals, the first built on an already merged base. *)
Definition same_totals {num} `{Merger.PyNumber num} (acc acc' : Merger.merge_acc num) : Prop :=
  Merger.results (Merger.merged acc) = Merger.results (Merger.merged acc') /\
  Merger.tokenUsage (Merger.stats_of (Merger.merged acc))
  = Merger.tokenUsage (Merger.stats_of (Merger.merged acc')) /\
  Merger.total_successes acc = Merger.total_successes acc' /\
  Merger.total_failures acc = Merger.total_failures acc' /\
  Merger.total_errors acc = Merger.total_errors acc' /\
  Merger.exportedAt (Merger.last_batch_data acc)
  = Merger.exportedAt (Merger.last_batch_data acc').

(** An artifact has one record per counted test. *)
Definition counts_match {num} (x : Merger.artifact num) : Prop :=
  Z.of_nat (length (Merger.results x)) =
  (Merger.successes (Merger.stats_of x) + Merger.failures (Merger.stats_of x)
   + Merger.errors (Merger.stats_of x))%Z.

(** How many of the texts satisfy a test. *)
Definition count_where (test : string -> bool) (texts : list string) : Z :=
  Z.of_nat (length (filter (fun t => test t = true) texts)).

(** A value [for x in v] accepts. *)
Definition iterable (v : pyval) : bool :=
  match v with
  | PyList _ | PyDict _ | PyStr _ => true
  | _ => false
  end.

(** The id of a provider entry that is a dict with a str id. *)
Definition provider_id (provider : pyval) : option string :=
  match provider with
  | PyDict items =>
      match assoc "id" items with
      | Some (PyStr id) => Some id
      | _ => None
      end
  | _ => None
  end.

(** A provider entry on which the switch loop does not raise: anything
    but a dict whose id is not a str. *)
Definition id_usable (provider : pyval) : bool :=
  match provider with
  | PyDict items =>
      match assoc "id" items with
      | Some (PyStr _) | None => true
      | Some _ => false
      end
  | _ => true
  end.

(** A providers value on which the switch loop does not raise. *)
Definition providers_usable (providers : pyval) : bool :=
  match py_iter providers with
  | Ok xs => forallb id_usable xs
  | Raise _ => false
  end.

(** The base configuration can be rewritten for a batch with this
    fallback model: it is a dict, its prompts (if any) can be iterated
    and, when a fallback model is given, its providers (if any) can be
    iterated and hold no dict whose id is not a str. *)
Definition writable {D : Disk} (fallback_model : option string) : bool :=
  match base_config with
  | ConfigYaml (PyDict items) =>
      from_option iterable true (assoc "prompts" items)
      && (negb (Materializer.truthy_model fallback_model)
          || from_option providers_usable true (assoc "providers" items))
  | _ => false
  end.

(** The batch numbers the tool was invoked for, in order. *)
Definition runs_of (evs : list event) : list Z :=
  flat_map (fun ev => match ev with
                      | RunTool batch_num _ => [batch_num]
                      | _ => []
                      end) evs.

(** A dict provider whose id starts with the Gemini prefix. *)
Definition on_gemini (provider : pyval) : bool :=
  match provider_id provider with
  | Some id => Materializer.startswith id "google:gemini-"
  | None => false
  end.

(** The switched provider has the keys of the old one, in the same
    order, and the same value under every key but the id. *)
Definition others_kept (provider provider' : pyval) : Prop :=
  match provider, provider' with
  | PyDict items, PyDict items' =>
      map fst items' = map fst items /\
      forall k, k <> "id" -> assoc k items' = assoc k items
  | _, _ => False
  end.

(** What the switch to [fallback_model] makes of one provider entry. *)
Definition switched (fallback_model : string) (provider provider' : pyval) : Prop :=
  if on_gemini provider
  then provider_id provider' = Some fallback_model /\ others_kept provider provider'
  else provider' = provider.

End Notions.

(** ** Concrete inputs used by the examples *)

Module Examples.
Import Classifier Supervisor Orchestrator Notions.

(** A rendering of compound values, for the examples. *)
Definition plain_repr : PyRepr := fun _ => "<object>".

(** A per-test record whose response carries this error text. *)
Definition record_with_error (text : string) : pyval :=
  PyDict [("response", PyDict [("error", PyStr text)])].

(** An artifact with one record per error text. *)
Definition artifact_with_errors (texts : list string) : pyval :=
  PyDict [("results", PyDict [("results", PyList (map record_with_error texts))])].

(** A base configuration with inline tests, two file prompts and an
    inline one, and three providers: a Gemini dict, another dict and a
    Gemini id given as a plain str. *)
Definition base_config_items : list (string * pyval) :=
  [ ("description", PyStr "eval");
    ("tests", PyList [PyDict [("vars", PyDict [])]]);
    ("prompts", PyList [PyStr "file://prompts/a.txt";
                        PyStr "file://tests/prompts/b.txt";
                        PyStr "Answer {{question}}"]);
    ("providers", PyList [PyDict [("id", PyStr "google:gemini-2.5-flash");
                                  ("config", PyDict [])];
                          PyDict [("id", PyStr "openai:gpt-4o")];
                          PyStr "google:gemini-2.5-flash"]);
    ("defaultTest", PyDict []) ].

(** A configuration whose prompts entry is one path, not a list, and
    whose provider has a number as id. *)
Definition one_prompt_items : list (string * pyval) :=
  [ ("prompts", PyStr "file://prompts/a.txt");
    ("providers", PyList [PyDict [("id", PyInt 7)]]) ].

(** [{n:02d}]. *)
Definition two_digits (n : Z) : string :=
  if (0 <=? n)%Z && (n <? 10)%Z then ("0" ++ pretty n)%string else pretty n.

(** The disk of the examples: the base configuration above in [/work],
    and result artifacts for the final [glob] to find. *)
Definition usual_disk : Disk :=
  {| base_config := ConfigYaml (PyDict base_config_items);
     config_dir := "/work";
     batch_file_abs :=
       fun bn => ("/work/_generated/batch_" ++ two_digits bn ++ "_temp.yaml")%string;
     batch_files_found := true |}.

(** The same disk when the tool leaves no artifact and none is there from
    an older run. *)
Definition disk_without_artifacts : Disk :=
  {| base_config := ConfigYaml (PyDict base_config_items);
     config_dir := "/work";
     batch_file_abs :=
       fun bn => ("/work/_generated/batch_" ++ two_digits bn ++ "_temp.yaml")%string;
     batch_files_found := false |}.

(** A disk whose base configuration has a provider with a number as id:
    it can be rewritten as long as no fallback model is given. *)
Definition disk_with_numbered_provider : Disk :=
  {| base_config := ConfigYaml (PyDict one_prompt_items);
     config_dir := "/work";
     batch_file_abs :=
       fun bn => ("/work/_generated/batch_" ++ two_digits bn ++ "_temp.yaml")%string;
     batch_files_found := true |}.

(** A disk whose base configuration is an empty file. *)
Definition disk_with_empty_config : Disk :=
  {| base_config := ConfigYaml PyNone;
     config_dir := "/work";
     batch_file_abs :=
       fun bn => ("/work/_generated/batch_" ++ two_digits bn ++ "_temp.yaml")%string;
     batch_files_found := true |}.

(** Unless another disk is named, the examples run on [usual_disk]. *)
#[local] Existing Instance usual_disk.

(** Command lines for the examples: the defaults, with and without
    fallback, and one with a negative batch size. *)
Definition default_args : args :=
  {| batch_size := 2; delay := 60; timeout := 120;
     config := "promptfooconfig_gemini_free_tier.yaml"; tests := None;
     start := None; end_ := None; no_fallback := false; model := None |}.

Definition no_fallback_args : args :=
  {| batch_size := 2; delay := 60; timeout := 120;
     config := "promptfooconfig_gemini_free_tier.yaml"; tests := None;
     start := None; end_ := None; no_fallback := true; model := None |}.

Definition negative_size_args : args :=
  {| batch_size := -2; delay := 60; timeout := 120;
     config := "promptfooconfig_gemini_free_tier.yaml"; tests := None;
     start := None; end_ := None; no_fallback := false; model := None |}.

Definition zero_size_args : args :=
  {| batch_size := 0; delay := 60; timeout := 120;
     config := "promptfooconfig_gemini_free_tier.yaml"; tests := None;
     start := None; end_ := None; no_fallback := false; model := None |}.

(** A clean exit with code 0 and a clean artifact. *)
Definition clean_run : tool_run :=
  Exits 0 1500 (FileJson (artifact_with_errors [""; ""])).

(** The tool cannot be started, then times out, then runs cleanly. *)
Definition error_then_timeout (k : nat) : tool_run :=
  match k with
  | 0%nat => SpawnFails "npx: command not found"
  | 1%nat => TimesOut 120000 None
  | _ => clean_run
  end.

(** The tool times out once, then runs cleanly. *)
Definition timeout_once (k : nat) : tool_run :=
  match k with
  | 0%nat => TimesOut 120000 None
  | _ => clean_run
  end.

(** The first run is rate limited. *)
Definition rate_limited_first (k : nat) : tool_run :=
  match k with
  | 0%nat => Exits 0 900 (FileJson (artifact_with_errors ["429 Too Many Requests"; ""]))
  | _ => clean_run
  end.

(** The first run of a batch and the first candidate time out, the
    second candidate runs with some tests failing. *)
Definition second_candidate_works (k : nat) : tool_run :=
  match k with
  | 0%nat | 1%nat => TimesOut 120000 None
  | _ => Exits 1 2000 (FileJson (artifact_with_errors [""; ""]))
  end.

(** The run state after the first of two batches when the tool could not
    be started: one error is counted and the run goes on. *)
Definition state_after_error : run_state :=
  snd (process_batch (H:=plain_repr) error_then_timeout default_args
         [[1; 2]; [3; 4]]%nat 2 0 (initial_state default_args false)).

(** The run state when the first run of batch 1 has timed out and its
    outcome has been recorded. *)
Definition state_after_timeout : run_state :=
  after_first_run default_args 0
    (report (H:=plain_repr) 1 (second_candidate_works 0))
    (initial_state default_args false).

(** The tool times out on every invocation. *)
Definition always_timeout (k : nat) : tool_run := TimesOut 120000 None.

(** The tool runs cleanly on every invocation. *)
Definition always_clean (k : nat) : tool_run := clean_run.

(** The run state when the first of two batches was rate limited and the
    loop has stopped. *)
Definition state_after_rate_limit : run_state :=
  snd (for_each [0; 1]%Z
         (process_batch (H:=plain_repr) rate_limited_first default_args
            [[1; 2]; [3]]%nat 2)
         (initial_state default_args false)).

(** The run state after two clean batches. *)
Definition state_after_clean_loop : run_state :=
  snd (for_each [0; 1]%Z
         (process_batch (H:=plain_repr) always_clean default_args
            [[1; 2]; [3]]%nat 2)
         (initial_state default_args false)).

(** Command lines with an [--end] beyond the batches and with a negative
    [--delay]. *)
Definition end_beyond_args : args := with_end (Some 5%Z) default_args.


(** The run state at the end of a clean run of three tests in two batches. *)
Definition state_after_clean_main : run_state :=
  snd (main (H:=plain_repr) always_clean default_args (Loaded [1; 2; 3]%nat)
         (initial_state default_args false)).

(** An artifact in which a rate-limited record is followed by a record
    whose response is null. *)
Definition artifact_with_null_response : pyval :=
  PyDict [("results",
           PyDict [("results",
                    PyList [record_with_error "429 Too Many Requests";
                            PyDict [("response", PyNone)]])])].

(** Integers as the numbers of an artifact. *)
Definition Z_number : Merger.PyNumber Z :=
  {| Merger.num_zero := 0%Z; Merger.num_add := Z.add |}.

(** A per-test record of prompt "p1" that passed or failed. *)
Definition record_of (passed : bool) : Merger.test_record Z :=
  {| Merger.promptId := Some "p1"; Merger.score := Some (if passed then 1 else 0)%Z;
     Merger.success := passed; Merger.error := None;
     Merger.latencyMs := Some 250%Z; Merger.namedScores := [] |}.

(** The two batch artifacts of the merge scenario. *)
Definition batch_one : Merger.artifact Z :=
  {| Merger.evalId := "eval-1";
     Merger.results := [record_of true; record_of true];
     Merger.stats_of :=
       {| Merger.successes := 2; Merger.failures := 0; Merger.errors := 0;
          Merger.tokenUsage := {["total" := 100%Z]} |};
     Merger.prompts := [];
     Merger.exportedAt := "2025-01-01T10:00:00Z" |}.

Definition batch_two : Merger.artifact Z :=
  {| Merger.evalId := "eval-2";
     Merger.results := [record_of true; record_of false];
     Merger.stats_of :=
       {| Merger.successes := 1; Merger.failures := 1; Merger.errors := 0;
          Merger.tokenUsage := {["total" := 80%Z; "prompt" := 30%Z]} |};
     Merger.prompts := [];
     Merger.exportedAt := "2025-01-01T10:05:00Z" |}.

(** The same two artifacts with a count of requests beside the token
    counters. *)
Definition counted_one : Merger.artifact Z :=
  {| Merger.evalId := "eval-1";
     Merger.results := [record_of true; record_of true];
     Merger.stats_of :=
       {| Merger.successes := 2; Merger.failures := 0; Merger.errors := 0;
          Merger.tokenUsage := {["total" := 100%Z; "numRequests" := 2%Z]} |};
     Merger.prompts := [];
     Merger.exportedAt := "2025-01-01T10:00:00Z" |}.

Definition counted_two : Merger.artifact Z :=
  {| Merger.evalId := "eval-2";
     Merger.results := [record_of true; record_of false];
     Merger.stats_of :=
       {| Merger.successes := 1; Merger.failures := 1; Merger.errors := 0;
          Merger.tokenUsage := {["total" := 80%Z; "numRequests" := 2%Z]} |};
     Merger.prompts := [];
     Merger.exportedAt := "2025-01-01T10:05:00Z" |}.

End Examples.

(** ** Splitter proofs *)

Module SplitterFacts.
Import Splitter.

Lemma ceil_div_spec (n b : Z) :
  (0 < b)%Z -> ((ceil_div n b - 1) * b < n <= ceil_div n b * b)%Z.
Proof.
  intros Hb. unfold ceil_div.
  pose proof (Z.div_mod (n + b - 1) b ltac:(lia)) as Hdm.
  pose proof (Z.mod_pos_bound (n + b - 1) b Hb) as Hmod.
  nia.
Qed.

Lemma ceil_div_step (n b : Z) :
  (0 < b)%Z -> (0 < n)%Z -> ceil_div n b = (1 + ceil_div (n - b) b)%Z.
Proof.
  intros Hb Hn. unfold ceil_div.
  replace (n + b - 1)%Z with ((n - b + b - 1) + 1 * b)%Z by lia.
  rewrite Z.div_add by lia. lia.
Qed.

Lemma ceil_div_nonpos (n b : Z) :
  (0 < b)%Z -> (n <= 0)%Z -> (ceil_div n b <= 0)%Z.
Proof.
  intros Hb Hn. unfold ceil_div.
  destruct (Z.eq_dec n 0%Z) as [->|Hne].
  - rewrite Z.div_small by lia. lia.
  - assert ((n + b - 1) / b < 1)%Z; [|lia].
    apply Z.div_lt_upper_bound; lia.
Qed.

(** The fuel given to [range] is enough: more fuel lists the same indices,
    and the listed indices stop only when the next one reaches the end. *)
Lemma range_up_enough_fuel (step : Z) (f1 f2 : nat) (i stop : Z) :
  (0 < step)%Z -> (stop - i <= Z.of_nat f1)%Z -> (stop - i <= Z.of_nat f2)%Z ->
  Py.range_up f1 i stop step = Py.range_up f2 i stop step.
Proof.
  intros Hstep. revert f2 i.
  induction f1 as [|f1 IH]; intros [|f2] i H1 H2; cbn [Py.range_up];
    try reflexivity;
    destruct (Z.ltb_spec i stop) as [Hlt|Hge]; try reflexivity; try lia.
  f_equal. apply IH; lia.
Qed.

(** Within the loop the slice has non-negative bounds, so it is a plain
    take-after-drop. *)
Lemma slice_window {A} (l : list A) (i b : Z) :
  (0 <= i)%Z -> (0 < b)%Z ->
  Py.slice l i (i + b) = take (Z.to_nat b) (drop (Z.to_nat i) l).
Proof.
  intros Hi Hb. unfold Py.slice, Py.slice_bound.
  destruct (Z.ltb_spec i 0); [lia|].
  destruct (Z.ltb_spec (i + b) 0); [lia|].
  set (n := Z.of_nat (length l)).
  destruct (Z.le_gt_cases n i) as [Hge|Hlt].
  - rewrite !drop_ge by lia. by rewrite !take_nil.
  - rewrite (Z.min_l i n) by lia.
    destruct (Z.le_gt_cases (i + b) n) as [Hin|Hout].
    + rewrite Z.min_l by lia. f_equal. lia.
    + rewrite Z.min_r by lia.
      rewrite !take_ge; [done | rewrite length_drop; lia | rewrite length_drop; lia].
Qed.

Section Chunks.
Context {A : Type} (tests : list A) (b : Z) (Hb : (0 < b)%Z).

Let n : Z := Z.of_nat (length tests).
Let chunk (i : Z) : list A := Py.slice tests i (i + b).

Lemma chunks_concat (fuel : nat) (i : Z) :
  (0 <= i)%Z -> (n - i <= Z.of_nat fuel)%Z ->
  concat (map chunk (Py.range_up fuel i n b)) = drop (Z.to_nat i) tests.
Proof using Hb.
  revert i. induction fuel as [|fuel IH]; intros i Hi Hfuel; simpl.
  - rewrite drop_ge; [done | subst n; lia].
  - destruct (Z.ltb_spec i n) as [Hlt|Hge].
    + simpl. rewrite IH by lia. unfold chunk.
      rewrite slice_window by lia.
      replace (Z.to_nat (i + b)) with (Z.to_nat i + Z.to_nat b)%nat by lia.
      rewrite <- drop_drop. apply take_drop.
    + rewrite drop_ge; [done | subst n; lia].
Qed.

Lemma chunks_count (fuel : nat) (i : Z) :
  (0 <= i)%Z -> (n - i <= Z.of_nat fuel)%Z ->
  Z.of_nat (length (Py.range_up fuel i n b)) = Z.max 0 (ceil_div (n - i) b).
Proof using Hb.
  revert i. induction fuel as [|fuel IH]; intros i Hi Hfuel; simpl.
  - pose proof (ceil_div_nonpos (n - i) b Hb ltac:(lia)). lia.
  - destruct (Z.ltb_spec i n) as [Hlt|Hge].
    + simpl length. rewrite Nat2Z.inj_succ, IH by lia.
      rewrite (ceil_div_step (n - i) b) by lia.
      replace (n - (i + b))%Z with (n - i - b)%Z by lia.
      destruct (Z.le_gt_cases (n - i - b) 0) as [Hlast|Hmore].
      * pose proof (ceil_div_nonpos (n - i - b) b Hb Hlast).
        pose proof (ceil_div_spec (n - i) b Hb).
        rewrite (ceil_div_step (n - i) b) in H0 by lia. nia.
      * pose proof (ceil_div_spec (n - i - b) b Hb). nia.
    + pose proof (ceil_div_nonpos (n - i) b Hb ltac:(lia)). simpl. lia.
Qed.

Lemma chunks_full (fuel : nat) (i : Z) :
  (0 <= i)%Z ->
  forall (k : nat) (batch : list A),
    map chunk (Py.range_up fuel i n b) !! k = Some batch ->
    (S k < length (map chunk (Py.range_up fuel i n b)))%nat ->
    Z.of_nat (length batch) = b.
Proof using Hb.
  revert i. induction fuel as [|fuel IH]; intros i Hi k batch; simpl.
  - intros Hk; by destruct k.
  - destruct (Z.ltb_spec i n) as [Hlt|Hge]; [|intros Hk; by destruct k].
    destruct k as [|k]; simpl.
    + intros [= <-] Hk.
      assert (i + b < n)%Z as Hnext.
      { destruct fuel as [|fuel']; simpl in Hk; [lia|].
        destruct (Z.ltb_spec (i + b) n); [done | simpl in Hk; lia]. }
      unfold chunk. rewrite slice_window by lia.
      rewrite length_take, length_drop. subst n. lia.
    + intros Hk Hlen. apply (IH (i + b)%Z ltac:(lia) k batch Hk). lia.
Qed.
End Chunks.

End SplitterFacts.

Module SplitterTheorems.
Import Splitter SplitterFacts.

(** C5: for a positive batch size the splitter returns ceil(|T|/b)
    batches, their concatenation is T, and every batch but the last has
    exactly b elements. *)
Theorem split_into_batches_partition {A} (tests : list A) (b : Z) :
  (0 < b)%Z ->
  exists batches,
    split_into_batches tests b = Ok batches /\
    Z.of_nat (length batches) = ceil_div (Z.of_nat (length tests)) b /\
    concat batches = tests /\
    (forall (k : nat) (batch : list A),
        batches !! k = Some batch -> (S k < length batches)%nat ->
        Z.of_nat (length batch) = b).
Proof.
  intros Hb. unfold split_into_batches, Py.range.
  destruct (Z.eqb_spec b 0) as [Hz|_]; [lia|].
  destruct (Z.ltb_spec 0 b) as [_|Hneg]; [|lia].
  eexists. split; [reflexivity|].
  set (n := Z.of_nat (length tests)).
  set (fuel := Z.to_nat (n - 0)).
  repeat split.
  - rewrite length_map.
    pose proof (chunks_count tests b Hb fuel 0%Z ltac:(lia) ltac:(lia)) as Hc.
    cbv zeta in Hc. fold n in Hc. rewrite Hc, Z.sub_0_r.
    pose proof (ceil_div_spec n b Hb). nia.
  - pose proof (chunks_concat tests b Hb fuel 0%Z ltac:(lia) ltac:(lia)) as Hc.
    cbv zeta in Hc. fold n in Hc. rewrite Hc. reflexivity.
  - intros k batch. apply (chunks_full tests b Hb fuel 0%Z). lia.
Qed.

Lemma split_into_batches_partition_witness :
  exists batches,
    split_into_batches [1; 2; 3; 4; 5]%nat 2 = Ok batches /\
    Z.of_nat (length batches) = ceil_div (Z.of_nat (length [1; 2; 3; 4; 5]%nat)) 2 /\
    concat batches = [1; 2; 3; 4; 5]%nat /\
    (forall (k : nat) (batch : list nat),
        batches !! k = Some batch -> (S k < length batches)%nat ->
        Z.of_nat (length batch) = 2%Z).
Proof. apply split_into_batches_partition. lia. Defined.

Example split_five_by_two :
  split_into_batches [1; 2; 3; 4; 5]%nat 2 = Ok [[1; 2]; [3; 4]; [5]]%nat.
Proof. reflexivity. Qed.

(** A zero batch size makes [range] raise; a negative one gives no batch. *)
Lemma split_zero {A} (tests : list A) :
  split_into_batches tests 0 = Raise ValueError.
Proof. reflexivity. Qed.

Lemma split_negative {A} (tests : list A) (b : Z) :
  (b < 0)%Z -> split_into_batches tests b = Ok [].
Proof.
  intros Hb. unfold split_into_batches, Py.range.
  destruct (Z.eqb_spec b 0); [lia|].
  destruct (Z.ltb_spec 0 b); [lia|].
  replace (Z.to_nat (0 - Z.of_nat (length tests))) with 0%nat by lia.
  reflexivity.
Qed.

End SplitterTheorems.

(** ** Classifier proofs *)

Module ClassifierFacts.
Import Classifier Notions Examples.

Lemma lower_ascii_not_R (c : ascii) : lower_ascii c <> "R"%char.
Proof.
  destruct c as [[] [] [] [] [] [] [] []]; vm_compute; discriminate.
Qed.

(** The middle test of the rate-limit condition looks for a capital R in
    a lowered text: it never succeeds. *)
Lemma rate_limit_phrase_dead (s : string) :
  contains "Rate limit" (lower s) = false.
Proof.
  induction s as [|c s IH]; [reflexivity|].
  cbn [lower contains]. rewrite IH, orb_false_r.
  cbn [String.prefix].
  destruct (Ascii.ascii_dec "R" (lower_ascii c)) as [Heq|Hne]; [|reflexivity].
  exfalso. exact (lower_ascii_not_R c (eq_sym Heq)).
Qed.

Lemma is_rate_limit_markers (s : string) :
  is_rate_limit s = contains "429" s || contains "Too Many Requests" s.
Proof.
  unfold is_rate_limit. by rewrite rate_limit_phrase_dead, orb_false_r.
Qed.

Section Scan.
Context `{PyRepr}.

Lemma scan_step_record (counts : Z * Z) (text : string) :
  scan_step counts (record_with_error text) =
  Ok (if is_rate_limit text then (fst counts + 1, snd counts)%Z
      else if is_overloaded text then (fst counts, snd counts + 1)%Z
      else counts).
Proof.
  unfold scan_step, record_with_error. cbn.
  destruct (is_rate_limit text); [reflexivity|].
  destruct (is_overloaded text); reflexivity.
Qed.

Lemma scan_records (texts : list string) (counts : Z * Z) :
  scan (map record_with_error texts) counts =
  Ok (fst counts + count_where is_rate_limit texts,
      snd counts
      + count_where (fun t => negb (is_rate_limit t) && is_overloaded t) texts)%Z.
Proof.
  revert counts. unfold count_where.
  induction texts as [|t texts IH]; intros [r o]; cbn [map scan].
  - cbn. f_equal. f_equal; lia.
  - rewrite scan_step_record. cbn [mbind pyres_bind].
    rewrite IH. rewrite !filter_cons.
    destruct (is_rate_limit t) eqn:Hr; cbn [fst snd negb andb].
    + rewrite decide_True by done. rewrite decide_False by done.
      cbn [length]. f_equal. f_equal; lia.
    + destruct (is_overloaded t) eqn:Ho; cbn [fst snd].
      * rewrite decide_False by done. rewrite decide_True by done.
        cbn [length]. f_equal. f_equal; lia.
      * rewrite !decide_False by done. reflexivity.
Qed.

Lemma count_where_pos (test : string -> bool) (texts : list string) (t : string) :
  t ∈ texts -> test t = true -> (0 < count_where test texts)%Z.
Proof.
  intros Hin Ht. unfold count_where.
  assert (t ∈ filter (fun t => test t = true) texts) as Hf
    by (apply list_elem_of_filter; done).
  destruct (filter _ texts); [by apply elem_of_nil in Hf | cbn; lia].
Qed.

(** On an artifact whose records carry these error texts, one text with
    "429" or "Too Many Requests" makes the answer the rate-limit one,
    with the number of such texts, whatever overload texts there are. *)
Lemma rate_limit_takes_priority (texts : list string) (t : string) :
  t ∈ texts ->
  contains "429" t || contains "Too Many Requests" t = true ->
  check_api_errors (FileJson (artifact_with_errors texts)) =
  (Some "429_rate_limit", count_where is_rate_limit texts, 0%Z).
Proof.
  intros Hin Ht. rewrite <- is_rate_limit_markers in Ht.
  pose proof (count_where_pos is_rate_limit texts t Hin Ht) as Hpos.
  unfold check_api_errors, check_api_errors_try, artifact_with_errors.
  cbn [py_get assoc String.eqb Ascii.eqb Bool.eqb from_option id mbind pyres_bind py_iter].
  rewrite scan_records. cbn [fst snd mbind pyres_bind]. rewrite !Z.add_0_l.
  destruct (Z.ltb_spec 0 (count_where is_rate_limit texts)); [reflexivity | lia].
Qed.

(** The thrown cases and every other case end in a well-formed answer. *)
Lemma check_api_errors_answers (f : artifact_file) :
  check_api_errors f = (None, 0, 0)%Z \/
  (exists n, (0 < n)%Z /\ check_api_errors f = (Some "429_rate_limit", n, 0%Z)) \/
  (exists n, (0 < n)%Z /\ check_api_errors f = (Some "503_overloaded", 0%Z, n)).
Proof.
  unfold check_api_errors, check_api_errors_try.
  destruct f as [| | |data]; try (left; reflexivity).
  destruct (py_get data "results" (PyDict [])) as [outer|]; [|left; reflexivity].
  cbn [mbind pyres_bind].
  destruct (py_get outer "results" (PyList [])) as [inner|]; [|left; reflexivity].
  cbn [mbind pyres_bind].
  destruct (py_iter inner) as [results|]; [|left; reflexivity].
  cbn [mbind pyres_bind].
  destruct (scan results (0, 0)%Z) as [[r o]|]; [|left; reflexivity].
  cbn [mbind pyres_bind].
  destruct (Z.ltb_spec 0 r).
  - right. left. exists r. done.
  - destruct (Z.ltb_spec 0 o).
    + right. right. exists o. done.
    + left. reflexivity.
Qed.
End Scan.

End ClassifierFacts.

Module ClassifierTheorems.
Import Classifier Notions Examples ClassifierFacts.

(** C10: the classifier always answers; an absent, unreadable or
    malformed artifact, and any exception raised while scanning, gives
    (None, 0, 0), never a rate-limit or overload answer. *)
Theorem check_api_errors_total `{PyRepr} :
  check_api_errors FileAbsent = (None, 0, 0)%Z /\
  check_api_errors FileUnreadable = (None, 0, 0)%Z /\
  check_api_errors FileMalformed = (None, 0, 0)%Z /\
  (forall f : artifact_file,
      match check_api_errors_try f with
      | Raise _ => check_api_errors f = (None, 0, 0)%Z
      | Ok c => check_api_errors f = c
      end) /\
  (forall f : artifact_file,
      check_api_errors f = (None, 0, 0)%Z \/
      (exists n, (0 < n)%Z /\ check_api_errors f = (Some "429_rate_limit", n, 0%Z)) \/
      (exists n, (0 < n)%Z /\ check_api_errors f = (Some "503_overloaded", 0%Z, n))).
Proof.
  repeat split; try reflexivity.
  - intros f. unfold check_api_errors. destruct (check_api_errors_try f); reflexivity.
  - apply check_api_errors_answers.
Qed.

(** The stated scenario holds: one record with "429 Too Many Requests"
    and one with "503 overloaded" is rate-limited with count 1. *)
Example scenario_429_and_503 `{PyRepr} :
  check_api_errors
    (FileJson (artifact_with_errors ["429 Too Many Requests"; "503 overloaded"]))
  = (Some "429_rate_limit", 1%Z, 0%Z).
Proof. reflexivity. Qed.

(** C3: an error text that carries only the rate-limit phrase is not
    counted, and the artifact is answered as clean. *)
Theorem rate_limit_phrase_missed `{PyRepr} :
  is_rate_limit "Rate limit exceeded" = false /\
  check_api_errors (FileJson (artifact_with_errors ["Rate limit exceeded"]))
  = (None, 0, 0)%Z /\
  check_api_errors
    (FileJson (artifact_with_errors ["Rate limit exceeded"; "503 overloaded"]))
  = (Some "503_overloaded", 0%Z, 1%Z).
Proof. repeat split; reflexivity. Qed.

End ClassifierTheorems.

(** ** Supervisor proofs *)

Module SupervisorTheorems.
Import Classifier Supervisor Notions Examples.

(** C4 as stated fails: the tool exits with code 0 and leaves no
    artifact, and the outcome is success. *)
Lemma absent_artifact_reported_success :
  status (@report plain_repr 3 (Exits 0 1500 FileAbsent)) = Status.success /\
  status (@report plain_repr 3 (Exits 0 1500 FileAbsent)) <> Status.error.
Proof. split; [reflexivity | discriminate]. Qed.

(** C4, amended: when the tool exits without an artifact the outcome
    follows the exit code alone, success for 0 and failed otherwise; it is
    never error. *)
Theorem absent_artifact_follows_exit_code `{PyRepr}
    (batch_num return_code elapsed_ms : Z) :
  let r := report batch_num (Exits return_code elapsed_ms FileAbsent) in
  status r = (if (return_code =? 0)%Z then Status.success else Status.failed) /\
  status r <> Status.error /\
  error_count r = None.
Proof.
  cbn. destruct (return_code =? 0)%Z; repeat split; discriminate.
Qed.

(** The same holds for an artifact that cannot be read or parsed. *)
Lemma unusable_artifact_follows_exit_code `{PyRepr}
    (batch_num return_code elapsed_ms : Z) (f : artifact_file) :
  f = FileUnreadable \/ f = FileMalformed ->
  status (report batch_num (Exits return_code elapsed_ms f)) =
  (if (return_code =? 0)%Z then Status.success else Status.failed).
Proof.
  intros [-> | ->]; cbn; destruct (return_code =? 0)%Z; reflexivity.
Qed.

(** The status of an outcome is error only when the process could not be
    started or could not be killed. *)
Lemma error_only_from_process `{PyRepr} (batch_num : Z) (run : tool_run) :
  status (report batch_num run) = Status.error ->
  (exists m, run = SpawnFails m) \/ (exists t m, run = TimesOut t (Some m)).
Proof.
  destruct run as [m | t [m|] | rc t f]; cbn; intros Hs;
    [left; eauto | right; eauto | discriminate |].
  exfalso. destruct (check_api_errors f) as [[k r] o].
  repeat case_bool_decide; try discriminate.
  destruct (rc =? 0)%Z; discriminate.
Qed.

End SupervisorTheorems.

(** ** The batch configuration: facts *)

Module MaterializerFacts.
Import Classifier Materializer Notions Examples.

Lemma prefix_split (pre s : string) :
  String.prefix pre s = true -> s = (pre ++ str_drop (String.length pre) s)%string.
Proof.
  revert s. induction pre as [|a pre IH]; intros s Hpre; [reflexivity|].
  destruct s as [|b s]; [discriminate|]. cbn in Hpre.
  destruct (Ascii.ascii_dec a b) as [->|]; [|discriminate].
  change (String b s = String b (pre +:+ str_drop (String.length pre) s)).
  f_equal. by apply IH.
Qed.

Lemma rewrite_prompt_inserts (config_dir prompt : string) :
  rewrite_prompt config_dir prompt =
  if startswith prompt "file://prompts/" || startswith prompt "file://tests/prompts/"
  then ("file://" ++ config_dir ++ "/" ++ str_drop (String.length "file://") prompt)%string
  else prompt.
Proof.
  unfold rewrite_prompt, startswith.
  destruct (String.prefix "file://prompts/" prompt) eqn:Ha; cbn [orb].
  - apply prefix_split in Ha.
    remember (str_drop (String.length "file://prompts/") prompt) as rest eqn:Hrest.
    clear Hrest. subst prompt. reflexivity.
  - destruct (String.prefix "file://tests/prompts/" prompt) eqn:Hb; [|reflexivity].
    apply prefix_split in Hb.
    remember (str_drop (String.length "file://tests/prompts/") prompt) as rest eqn:Hrest.
    clear Hrest. subst prompt. reflexivity.
Qed.

Lemma rewritten_matches_no_prefix (config_dir tail : string) :
  startswith config_dir "/" = true ->
  let q := ("file://" ++ config_dir ++ "/" ++ tail)%string in
  startswith q "file://prompts/" || startswith q "file://tests/prompts/" = false.
Proof.
  intros Habs q. apply prefix_split in Habs.
  remember (str_drop (String.length "/") config_dir) as d eqn:Hd. clear Hd.
  subst config_dir q. reflexivity.
Qed.

Lemma assoc_dict_set (k key : string) (v : pyval) (items : list (string * pyval)) :
  assoc k (dict_set key v items) = if String.eqb k key then Some v else assoc k items.
Proof.
  induction items as [|[k0 w] items IH]; cbn [dict_set assoc].
  - rewrite (String.eqb_sym key k). by destruct (String.eqb k key).
  - destruct (String.eqb_spec k0 key) as [->|Hne]; cbn [assoc].
    + rewrite (String.eqb_sym key k). by destruct (String.eqb k key).
    + rewrite IH. destruct (String.eqb_spec k0 k) as [->|Hk]; [|done].
      by destruct (String.eqb_spec k key).
Qed.

Lemma dict_set_absent (key : string) (v : pyval) (items : list (string * pyval)) :
  assoc key items = None -> dict_set key v items = items ++ [(key, v)].
Proof.
  induction items as [|[k0 w] items IH]; cbn [dict_set assoc]; [done|].
  destruct (String.eqb k0 key); [discriminate|]. intros Hnone. by rewrite IH.
Qed.

Lemma dict_set_present (key : string) (v : pyval) (items : list (string * pyval)) :
  dict_has key items = true -> map fst (dict_set key v items) = map fst items.
Proof.
  unfold dict_has.
  induction items as [|[k0 w] items IH]; cbn [dict_set assoc]; [discriminate|].
  destruct (String.eqb k0 key); [done|]. intros Hsome. cbn. by rewrite IH.
Qed.

Lemma assoc_dict_pop_ne (k key : string) (items : list (string * pyval)) :
  k <> key -> assoc k (dict_pop key items) = assoc k items.
Proof.
  intros Hne. induction items as [|[k0 w] items IH]; cbn [dict_pop assoc]; [done|].
  destruct (String.eqb_spec k0 key) as [->|Hk0]; cbn [assoc].
  - by destruct (String.eqb_spec key k).
  - by rewrite IH.
Qed.





Lemma keys_dict_set (key : string) (v : pyval) (items : list (string * pyval)) :
  map fst (dict_set key v items) =
  if dict_has key items then map fst items else map fst items ++ [key].
Proof.
  destruct (dict_has key items) eqn:Hhas.
  - by apply dict_set_present.
  - unfold dict_has in Hhas. rewrite dict_set_absent.
    + by rewrite map_app.
    + by destruct (assoc key items).
Qed.

(** What one step of the switch loop does to a provider. *)
Lemma switch_provider_spec (fallback_model : string) (provider : pyval) :
  match switch_provider fallback_model provider with
  | Ok provider' =>
      id_usable provider = true /\
      switched fallback_model provider provider'
  | Raise e => id_usable provider = false /\ e = AttributeError
  end.
Proof.
  unfold switch_provider, switched, id_usable, on_gemini, provider_id.
  destruct provider as [| | | | |xs|items]; try done.
  destruct (assoc "id" items) as [[| | | |id| |]|] eqn:Hid; try done.
  destruct (startswith id "google:gemini-"); [|done].
  split; [done|]. split; [by rewrite assoc_dict_set|].
  split.
  - apply dict_set_present. unfold dict_has. by rewrite Hid.
  - intros k Hk. rewrite assoc_dict_set. by destruct (String.eqb_spec k "id").
Qed.

Lemma switch_each_spec (fallback_model : string) (providers : list pyval) :
  match switch_each fallback_model providers with
  | Ok providers' =>
      forallb id_usable providers = true /\
      Forall2 (switched fallback_model) providers providers'
  | Raise e => forallb id_usable providers = false /\ e = AttributeError
  end.
Proof.
  induction providers as [|p ps IH]; cbn [switch_each forallb]; [by split|].
  pose proof (switch_provider_spec fallback_model p) as Hp.
  destruct (switch_provider fallback_model p) as [p'|e];
    cbn [mbind pyres_bind]; [|destruct Hp as [-> ->]; done].
  destruct Hp as [-> Hp]. cbn [andb].
  destruct (switch_each fallback_model ps) as [ps'|e]; cbn [mbind pyres_bind]; [|done].
  destruct IH as [IHu IHf]. split; [done|]. by constructor.
Qed.

Lemma switch_providers_spec (fallback_model : string) (providers : pyval) :
  match switch_providers fallback_model providers with
  | Ok providers' =>
      providers_usable providers = true /\
      match providers with
      | PyList xs =>
          exists xs', providers' = PyList xs' /\
          Forall2 (switched fallback_model) xs xs'
      | _ => providers' = providers
      end
  | Raise e => providers_usable providers = false
  end.
Proof.
  unfold switch_providers, providers_usable.
  destruct (py_iter providers) as [xs|e] eqn:Hiter; cbn [mbind pyres_bind]; [|done].
  pose proof (switch_each_spec fallback_model xs) as Hxs.
  destruct (switch_each fallback_model xs) as [xs'|e]; cbn [mbind pyres_bind];
    [|by destruct Hxs].
  destruct Hxs as [Hu Hf]. split; [done|].
  destruct providers; try done. cbn in Hiter. injection Hiter as <-. eauto.
Qed.

(** The three stages of [create_batch_config] on a dict. *)
Lemma create_batch_config_stages (items : list (string * pyval))
  (config_dir batch_file_abs : string) (fallback_model : option string) :
  let popped := dict_pop "tests" items in
  let pointer := PyStr ("file://" ++ batch_file_abs) in
  match create_batch_config (PyDict items) config_dir batch_file_abs fallback_model with
  | Ok out =>
      exists with_prompts with_providers,
        match assoc "prompts" items with
        | Some prompts =>
            exists xs, py_iter prompts = Ok xs /\
              with_prompts
              = dict_set "prompts" (PyList (map (rewrite_entry config_dir) xs)) popped
        | None => with_prompts = popped
        end /\
        match assoc "providers" items with
        | Some providers =>
            if truthy_model fallback_model then
              exists providers',
                switch_providers (default "" fallback_model) providers = Ok providers' /\
                with_providers = dict_set "providers" providers' with_prompts
            else with_providers = with_prompts
        | None => with_providers = with_prompts
        end /\
        out = PyDict (dict_set "tests" pointer with_providers)
  | Raise e =>
      from_option iterable true (assoc "prompts" items) = false \/
      (truthy_model fallback_model = true /\
       from_option providers_usable true (assoc "providers" items) = false)
  end.
Proof.
  intros popped pointer. unfold create_batch_config. fold popped.
  assert (assoc "prompts" popped = assoc "prompts" items) as ->
    by (by apply assoc_dict_pop_ne).
  assert (forall with_prompts,
             assoc "providers" with_prompts = assoc "providers" items ->
             match
               (items0 ← (if truthy_model fallback_model && dict_has "providers" with_prompts
                          then match assoc "providers" with_prompts with
                               | Some providers =>
                                   providers' ← switch_providers (default "" fallback_model)
                                                  providers;
                                   mret (dict_set "providers" providers' with_prompts)
                               | None => mret with_prompts
                               end
                          else mret with_prompts);
                mret (PyDict (dict_set "tests" (PyStr ("file://" ++ batch_file_abs)) items0)))
             with
             | Ok out =>
                 exists with_providers,
                   match assoc "providers" items with
                   | Some providers =>
                       if truthy_model fallback_model then
                         exists providers',
                           switch_providers (default "" fallback_model) providers
                           = Ok providers' /\
                           with_providers = dict_set "providers" providers' with_prompts
                       else with_providers = with_prompts
                   | None => with_providers = with_prompts
                   end /\
                   out = PyDict (dict_set "tests" pointer with_providers)
             | Raise e =>
                 truthy_model fallback_model = true /\
                 from_option providers_usable true (assoc "providers" items) = false
             end) as Hproviders.
  { intros with_prompts Hsame. unfold dict_has. rewrite Hsame.
    destruct (assoc "providers" items) as [providers|]; cbn [from_option];
      destruct (truthy_model fallback_model); cbn [andb mbind pyres_bind mret pyres_ret];
      eauto.
    pose proof (switch_providers_spec (default "" fallback_model) providers) as Hsw.
    destruct (switch_providers (default "" fallback_model) providers) as [providers'|e];
      cbn [mbind pyres_bind mret pyres_ret]; [|done].
    eauto. }
  destruct (assoc "prompts" items) as [prompts|] eqn:Hprompts; cbn [from_option].
  - destruct (py_iter prompts) as [xs|e] eqn:Hiter; cbn [mbind pyres_bind mret pyres_ret].
    + set (with_prompts := dict_set "prompts" _ popped).
      specialize (Hproviders with_prompts).
      destruct (_ ≫= _) as [out|e].
      * destruct Hproviders as (with_providers & Hp & ->).
        { unfold with_prompts. rewrite assoc_dict_set. cbn.
          by apply assoc_dict_pop_ne. }
        exists with_prompts, with_providers. eauto.
      * right. apply Hproviders. unfold with_prompts. rewrite assoc_dict_set. cbn.
        by apply assoc_dict_pop_ne.
    + left. by destruct prompts.
  - specialize (Hproviders popped (assoc_dict_pop_ne "providers" "tests" items ltac:(done))).
    destruct (_ ≫= _) as [out|e].
    + destruct Hproviders as (with_providers & Hp & ->).
      exists popped, with_providers. eauto.
    + by right.
Qed.

Lemma assoc_dict_set_ne (k key : string) (v : pyval) (items : list (string * pyval)) :
  k <> key -> assoc k (dict_set key v items) = assoc k items.
Proof. intros Hne. rewrite assoc_dict_set. by destruct (String.eqb_spec k key). Qed.

Lemma py_iter_iterable (v : pyval) :
  match py_iter v with
  | Ok _ => iterable v = true
  | Raise _ => iterable v = false
  end.
Proof. by destruct v. Qed.

(** A character is one byte followed by continuation bytes only. *)
Lemma chars_pieces (s : string) :
  Forall (fun piece => exists c tail,
            piece = String c tail /\ (tail = EmptyString \/ continues tail = true))
         (chars s) /\
  (forall c rest, s = String c rest -> exists tail more, chars s = String c tail :: more).
Proof.
  induction s as [|c rest [IHall IHhead]]; [split; [constructor | discriminate]|].
  cbn [chars]. destruct (continues rest) eqn:Hcont.
  - destruct rest as [|c' rest']; [discriminate|].
    destruct (IHhead c' rest' eq_refl) as (tail & more & Hchars).
    rewrite Hchars in *. apply Forall_cons in IHall as [_ IHall]. split.
    + constructor; [|exact IHall]. exists c, (String c' tail). split; [done|]. by right.
    + intros c0 rest0 [= <- _]. eauto.
  - split.
    + constructor; [|exact IHall]. exists c, EmptyString. split; [done|]. by left.
    + intros c0 rest0 [= <- _]. eauto.
Qed.

(** The characters of a str, put together again, give the str. *)
Lemma chars_join (s : string) : foldr String.append EmptyString (chars s) = s.
Proof.
  induction s as [|c rest IH]; [reflexivity|].
  cbn [chars]. destruct (continues rest).
  - destruct (chars rest) as [|piece pieces].
    + cbn in IH. by subst rest.
    + cbn [foldr] in *. by rewrite <- IH.
  - cbn [foldr]. by rewrite IH.
Qed.

(** No single character is a path the rewriting changes. *)
Lemma character_kept (config_dir s piece : string) :
  piece ∈ chars s -> rewrite_entry config_dir (PyStr piece) = PyStr piece.
Proof.
  intros Hin. destruct (chars_pieces s) as [Hall _].
  rewrite Forall_forall in Hall. destruct (Hall piece Hin) as (c & tail & -> & Htail).
  unfold rewrite_entry, rewrite_prompt, startswith. cbn [String.prefix].
  destruct (Ascii.ascii_dec "f" c) as [_|_]; [|reflexivity].
  destruct tail as [|c' tail']; [reflexivity|].
  destruct Htail as [Htail|Htail]; [discriminate|]. cbn [continues] in Htail.
  cbn [String.prefix].
  destruct (Ascii.ascii_dec "i" c') as [<-|_]; [discriminate | reflexivity].
Qed.

(** Whether [create_batch_config] gets to write, as a test on the loaded
    dict. *)
Lemma create_batch_config_decided (items : list (string * pyval))
  (config_dir batch_file_abs : string) (fallback_model : option string) :
  let usable :=
    from_option iterable true (assoc "prompts" items)
    && (negb (truthy_model fallback_model)
        || from_option providers_usable true (assoc "providers" items)) in
  match create_batch_config (PyDict items) config_dir batch_file_abs fallback_model with
  | Ok _ => usable = true
  | Raise _ => usable = false
  end.
Proof.
  intros usable.
  pose proof (create_batch_config_stages items config_dir batch_file_abs fallback_model)
    as Hst. cbv zeta in Hst.
  destruct (create_batch_config _ _ _ _) as [out|e].
  - destruct Hst as (with_prompts & with_providers & Hp & Hv & _).
    unfold usable. apply andb_true_intro. split.
    + destruct (assoc "prompts" items) as [prompts|]; [|done].
      destruct Hp as (xs & Hiter & _). cbn [from_option].
      pose proof (py_iter_iterable prompts) as Hi. by rewrite Hiter in Hi.
    + destruct (truthy_model fallback_model); [|done]. cbn [negb orb].
      destruct (assoc "providers" items) as [providers|]; [|done].
      destruct Hv as (providers' & Hsw & _). cbn [from_option].
      pose proof (switch_providers_spec (default "" fallback_model) providers) as Hs.
      rewrite Hsw in Hs. by destruct Hs.
  - unfold usable. destruct Hst as [->|[-> ->]]; [done|].
    cbn [negb orb]. apply andb_false_r.
Qed.

End MaterializerFacts.

(** ** Orchestrator proofs *)

Module OrchestratorFacts.
Import Classifier Supervisor Orchestrator Notions Examples MaterializerFacts.

Lemma adopted_status (r : batch_result) :
  adopted r = true <-> status r = Status.success \/ status r = Status.failed.
Proof.
  unfold adopted. destruct (status r); split; intros Hs;
    try discriminate; try reflexivity; eauto;
    destruct Hs as [Hs|Hs]; discriminate.
Qed.

Lemma not_adopted_status (r : batch_result) :
  adopted r = false <->
  status r ∈ [Status.timeout; Status.rate_limited; Status.service_overloaded; Status.error].
Proof.
  unfold adopted. destruct (status r); split; intros Hs;
    try discriminate; try reflexivity;
    try (repeat (apply elem_of_cons; first [left; reflexivity | right]); fail);
    repeat (apply elem_of_cons in Hs as [Hs|Hs]; [discriminate|]);
    by apply elem_of_nil in Hs.
Qed.

(** A run whose outcome is known ends in the state it ends in. *)
Lemma run_pair {A} (m : M A) (st : run_state) (o : outcome A) :
  fst (m st) = o -> m st = (o, snd (m st)).
Proof. destruct (m st) as [o' st']. cbn. by intros ->. Qed.

Lemma roster_truthy (id : string) :
  id ∈ map fst FALLBACK_MODELS -> Materializer.truthy_model (Some id) = true.
Proof.
  cbn. intros Hin.
  repeat (apply elem_of_cons in Hin as [->|Hin]; [reflexivity|]).
  by apply elem_of_nil in Hin.
Qed.

Lemma candidates_roster (current : option string) (id : string) :
  id ∈ candidates current -> id ∈ map fst FALLBACK_MODELS.
Proof. intros Hin. by apply list_elem_of_filter in Hin as [_ Hin]. Qed.

Lemma candidates_nonempty (current : option string) : candidates current <> [].
Proof.
  unfold candidates. cbn [map fst FALLBACK_MODELS].
  rewrite !filter_cons, filter_nil.
  repeat case_decide; try discriminate. congruence.
Qed.

Section WithTool.
Context `{PyRepr} {D : Disk} (tool : nat -> tool_run).

Lemma run_batch_eq (bn tmo : Z) (st : run_state) :
  run_batch tool bn tmo st =
  (Done (report bn (tool (tool_calls st))),
   with_call (with_event (RunTool bn tmo) (with_dir st))).
Proof. reflexivity. Qed.

Lemma bind_eq {A B} (m : M A) (k : A -> M B) (st : run_state) :
  (m ≫= k) st =
  match m st with
  | (Done x, st') => k x st'
  | (Exit code, st') => (Exit code, st')
  | (Crash e, st') => (Crash e, st')
  end.
Proof. reflexivity. Qed.

Lemma bind_modify {B} (f : run_state -> run_state) (k : unit -> M B) (st : run_state) :
  (modify f ≫= k) st = k tt (f st).
Proof. reflexivity. Qed.

Lemma set_last_eq (r : batch_result) (st : run_state) :
  results st <> [] ->
  set_last r st = (Done tt, with_results (removelast (results st) ++ [r]) st).
Proof.
  intros Hne. unfold set_last. rewrite bind_eq. cbn [gets].
  destruct (results st) as [|x rs] eqn:Hrs; [done|]. reflexivity.
Qed.

(** Whether the configuration of a batch gets written is a test on the
    base configuration. *)
Lemma materialize_writable (bn : Z) (fallback_model : option string) :
  match materialize bn fallback_model with
  | Ok _ => writable fallback_model = true
  | Raise _ => writable fallback_model = false
  end.
Proof.
  unfold materialize, writable.
  destruct base_config as [| |config]; try reflexivity.
  destruct config as [| | | | | |items]; try reflexivity.
  exact (create_batch_config_decided items config_dir (batch_file_abs bn) fallback_model).
Qed.

Lemma create_batch_config_written (bn : Z) (fallback_model : option string)
    (st : run_state) :
  writable fallback_model = true ->
  create_batch_config bn fallback_model st =
  (Done tt, with_event (CreateBatchConfig bn fallback_model) (with_dir st)).
Proof.
  intros Hw. unfold create_batch_config.
  pose proof (materialize_writable bn fallback_model) as Hm.
  destruct (materialize bn fallback_model) as [out|e]; [reflexivity | congruence].
Qed.

Lemma create_batch_config_refused (bn : Z) (fallback_model : option string)
    (st : run_state) :
  writable fallback_model = false ->
  exists e, create_batch_config bn fallback_model st = (Crash e, with_dir st).
Proof.
  intros Hw. unfold create_batch_config.
  pose proof (materialize_writable bn fallback_model) as Hm.
  destruct (materialize bn fallback_model) as [out|e]; [congruence | by exists e].
Qed.

Lemma writable_alike (fb fb' : option string) :
  Materializer.truthy_model fb = Materializer.truthy_model fb' ->
  writable fb = writable fb'.
Proof. unfold writable. by intros ->. Qed.

(** A configuration that can be rewritten with a model can be rewritten
    without. *)
Lemma writable_weaken (fb fb' : option string) :
  Materializer.truthy_model fb' = true -> writable fb' = true -> writable fb = true.
Proof.
  unfold writable. intros ->. destruct base_config as [| |[]]; try done.
  cbn [negb orb]. intros Hw. apply andb_prop in Hw as [-> ->].
  by rewrite orb_true_r.
Qed.

(** The candidates are all writable or all refused, and there is one. *)
Lemma candidates_writable (current : option string) :
  Forall (fun id => writable (Some id) = true) (candidates current)
  \/ exists id more, candidates current = id :: more /\ writable (Some id) = false.
Proof.
  destruct (candidates current) as [|id more] eqn:Hc;
    [by apply candidates_nonempty in Hc|].
  assert (forall id', id' ∈ candidates current ->
                      writable (Some id') = writable (Some id)) as Hsame.
  { intros id' Hin. apply writable_alike.
    rewrite !roster_truthy; [done| |];
      apply (candidates_roster current); [rewrite Hc; apply list_elem_of_here | done]. }
  destruct (writable (Some id)) eqn:Hw; [left | right; eauto].
  rewrite <- Hc. apply Forall_forall. intros id' Hin. by rewrite Hsame.
Qed.

Lemma try_models_spec (roster : list (string * string)) (bn tmo : Z)
    (current : option string) (st : run_state) :
  results st <> [] ->
  let cands := filter (fun id => Some id <> current) (map fst roster) in
  Forall (fun id => writable (Some id) = true) cands ->
  let outcome k := report bn (tool (tool_calls st + k)) in
  exists res st',
    try_models tool roster bn tmo current st = (Done res, st') /\
    consecutive_api_errors st' = consecutive_api_errors st /\
    current_model st' = current_model st /\
    (batches_dir st = true -> batches_dir st' = true) /\
    ((exists k id,
         cands !! k = Some id /\ adopted (outcome k) = true /\
         (forall j, (j < k)%nat -> adopted (outcome j) = false) /\
         res = Some id /\
         results st' = removelast (results st) ++ [outcome k] /\
         tool_calls st' = (tool_calls st + S k)%nat /\
         trace st' = trace st ++ attempts bn tmo (take (S k) cands))
     \/ ((forall j, (j < length cands)%nat -> adopted (outcome j) = false) /\
         res = None /\ results st' = results st /\
         tool_calls st' = (tool_calls st + length cands)%nat /\
         trace st' = trace st ++ attempts bn tmo cands)).
Proof.
  revert st. induction roster as [|[id desc] roster IH]; intros st Hne; cbv zeta.
  - intros _. exists None, st. split; [reflexivity|]. do 3 (split; [done|]). right.
    cbn. split; [intros j Hj; lia|]. do 2 (split; [done|]).
    split; [lia | by rewrite app_nil_r].
  - cbn [try_models map fst]. rewrite filter_cons.
    case_bool_decide as Hcur.
    + rewrite decide_False by (intros Hx; by apply Hx).
      apply (IH st Hne).
    + rewrite decide_True by done. intros Hw.
      apply Forall_cons in Hw as [Hwid Hw].
      rewrite bind_eq, (create_batch_config_written bn (Some id) st Hwid).
      rewrite bind_eq, run_batch_eq.
      set (st1 := with_call (with_event (RunTool bn tmo)
                    (with_dir (with_event (CreateBatchConfig bn (Some id)) (with_dir st))))).
      change (tool_calls (with_event (CreateBatchConfig bn (Some id)) (with_dir st)))
        with (tool_calls st).
      set (r := report bn (tool (tool_calls st))).
      assert (r = report bn (tool (tool_calls st + 0))) as Hr0
        by (subst r; by rewrite Nat.add_0_r).
      destruct (adopted r) eqn:Had.
      * (* this candidate is adopted *)
        exists (Some id), (with_results (removelast (results st) ++ [r]) st1).
        split.
        { transitivity ((set_last r ≫= λ _, mret (Some id)) st1).
          - unfold adopted in Had. destruct (status r); done.
          - rewrite bind_eq, set_last_eq by done. reflexivity. }
        do 3 (split; [done|]). left. exists 0%nat, id.
        split; [done|]. rewrite <- Hr0. split; [done|].
        split; [intros j Hj; lia|]. split; [done|]. split; [done|].
        split; [cbn; lia|]. cbn. by rewrite <- app_assoc.
      * (* not adopted: go on with the rest of the roster *)
        destruct (IH st1 Hne Hw) as (res & st' & Hrun & Hc & Hm & Hd & Hcases).
        exists res, st'. split.
        { rewrite <- Hrun. unfold adopted in Had. destruct (status r); done. }
        do 2 (split; [done|]). split; [intros _; by apply Hd|].
        assert (forall k, report bn (tool (tool_calls st1 + k)) =
                          report bn (tool (tool_calls st + S k))) as Hshift
          by (intros k; cbn; do 2 f_equal; lia).
        destruct Hcases as [(k & id' & Hk & Hadk & Hbefore & Hres & Hrs & Hcalls & Htr)
                           |(Hall & Hres & Hrs & Hcalls & Htr)].
        -- left. exists (S k), id'. rewrite Hshift in Hadk, Hrs.
           split; [done|]. split; [done|]. split.
           { intros [|j] Hj; [by rewrite <- Hr0|].
             rewrite <- Hshift. apply Hbefore. lia. }
           split; [done|]. split; [done|]. split; [cbn in Hcalls; lia|].
           rewrite Htr. cbn. rewrite <- !app_assoc. reflexivity.
        -- right. split.
           { intros [|j] Hj; [by rewrite <- Hr0|].
             rewrite <- Hshift. apply Hall. cbn in Hj. lia. }
           split; [done|]. split; [done|]. split; [cbn in Hcalls; cbn; lia|].
           rewrite Htr. cbn. rewrite <- !app_assoc. reflexivity.
Qed.

(** When the configuration cannot be rewritten for the first candidate,
    the selection raises before any run. *)
Lemma try_models_refused (roster : list (string * string)) (bn tmo : Z)
    (current : option string) (st : run_state) (id : string) (more : list string) :
  filter (fun id => Some id <> current) (map fst roster) = id :: more ->
  writable (Some id) = false ->
  exists e, try_models tool roster bn tmo current st = (Crash e, with_dir st).
Proof.
  induction roster as [|[id0 desc] roster IH]; [discriminate|].
  cbn [try_models map fst]. rewrite filter_cons.
  case_bool_decide as Hcur.
  - rewrite decide_False by (intros Hx; by apply Hx). exact IH.
  - rewrite decide_True by done. intros [= -> _] Hw.
    destruct (create_batch_config_refused bn (Some id) st Hw) as [e He].
    exists e. by rewrite bind_eq, He.
Qed.

Lemma save_partial_eq {A} (a : args) (bn : Z) (st : run_state) :
  _save_partial_and_exit (A:=A) a bn st = (Exit 1, halted a bn st).
Proof. reflexivity. Qed.

Lemma circuit_breaker_eq (a : args) (bn : Z) (st : run_state) :
  circuit_breaker a bn st =
  if (2 <=? consecutive_api_errors st)%Z
  then (Exit 1, halted a bn st) else (Done tt, st).
Proof.
  unfold circuit_breaker. rewrite bind_eq. cbn [gets].
  change MAX_CONSECUTIVE_FAILURES with 2%Z.
  destruct (2 <=? consecutive_api_errors st)%Z; reflexivity.
Qed.

Lemma cooling_delay_eq (a : args) (end_idx i : Z) (r : batch_result) (st : run_state) :
  cooling_delay a end_idx i r st =
  if (i <? end_idx - 1)%Z
     && (Status.eqb (status r) Status.success || Status.eqb (status r) Status.failed)
  then if (delay a <? 0)%Z then (Crash ValueError, st)
       else (Done tt, with_event (Sleep (delay a)) st)
  else (Done tt, st).
Proof.
  unfold cooling_delay, sleep.
  destruct ((i <? end_idx - 1)%Z && _); [|reflexivity].
  destruct (delay a <? 0)%Z; reflexivity.
Qed.

Lemma process_batch_eq {A} (a : args) (batches : list (list A)) (end_idx i : Z)
    (st : run_state) (batch : list A) :
  Py.index batches i = Ok batch ->
  writable (current_model st) = true ->
  let r := report (i + 1) (tool (tool_calls st)) in
  process_batch tool a batches end_idx i st =
  (handle_result tool a (i + 1) r ≫= λ _, cooling_delay a end_idx i r)
    (after_first_run a i r st).
Proof.
  intros Hidx Hw r. unfold process_batch. rewrite Hidx.
  cbn [lift]. rewrite bind_eq. cbn [mret M_ret].
  unfold create_batch_file. rewrite bind_eq. cbn [emit modify].
  rewrite bind_eq. cbn [gets]. rewrite bind_eq.
  change (current_model (with_event (CreateBatchFile (i + 1)) st))
    with (current_model st).
  rewrite (create_batch_config_written (i + 1) _ _ Hw).
  reflexivity.
Qed.

Lemma process_batch_bad_index {A} (a : args) (batches : list (list A))
    (end_idx i : Z) (st : run_state) (e : exn) :
  Py.index batches i = Raise e ->
  process_batch tool a batches end_idx i st = (Crash e, st).
Proof.
  intros Hidx. unfold process_batch. rewrite Hidx. reflexivity.
Qed.

(** When the configuration of the batch cannot be written, the iteration
    raises before the tool is invoked: the batch file is all there is. *)
Lemma process_batch_unwritable {A} (a : args) (batches : list (list A))
    (end_idx i : Z) (st : run_state) (batch : list A) :
  Py.index batches i = Ok batch ->
  writable (current_model st) = false ->
  exists e,
    process_batch tool a batches end_idx i st =
    (Crash e, with_dir (with_event (CreateBatchFile (i + 1)) st)).
Proof.
  intros Hidx Hw. unfold process_batch. rewrite Hidx.
  cbn [lift]. rewrite bind_eq. cbn [mret M_ret].
  unfold create_batch_file. rewrite bind_eq. cbn [emit modify].
  rewrite bind_eq. cbn [gets]. rewrite bind_eq.
  change (current_model (with_event (CreateBatchFile (i + 1)) st))
    with (current_model st).
  destruct (create_batch_config_refused (i + 1) _
              (with_event (CreateBatchFile (i + 1)) st) Hw) as [e He].
  exists e. by rewrite He.
Qed.

Lemma attempts_no_sleep (bn tmo : Z) (ids : list string) :
  Forall (fun ev => is_sleep ev = false) (attempts bn tmo ids).
Proof.
  induction ids as [|id ids IH]; cbn; [constructor|].
  constructor; [done|]. constructor; done.
Qed.

Lemma attempts_runs (bn tmo : Z) (ids : list string) (bn' : Z) :
  bn' ∈ runs_of (attempts bn tmo ids) -> bn' = bn.
Proof.
  induction ids as [|id ids IH]; cbn; [by intros ?%elem_of_nil|].
  intros [->|Hin]%elem_of_cons; [done | by apply IH].
Qed.

Lemma runs_of_app (evs evs' : list event) :
  runs_of (evs ++ evs') = runs_of evs ++ runs_of evs'.
Proof. unfold runs_of. by rewrite flat_map_app. Qed.

Lemma roster_ids_truthy (current : option string) (k : nat) (id : string) :
  candidates current !! k = Some id -> truthy_str (Some id) = true.
Proof.
  intros Hk. apply list_elem_of_lookup_2 in Hk.
  apply list_elem_of_filter in Hk as [_ Hin].
  cbn in Hin.
  repeat (apply elem_of_cons in Hin as [->|Hin]; [reflexivity|]).
  by apply elem_of_nil in Hin.
Qed.

(** The [timeout] and [service_overloaded] branches: the counter goes up
    by one and the breaker may halt, unless fallback is enabled and a
    candidate is adopted, which resets the counter and changes the
    current model; when the configuration cannot be rewritten for a
    candidate, the selection raises with the counter gone up. *)
Lemma fallback_or_break_spec (a : args) (bn : Z) (st : run_state) :
  results st <> [] ->
  let c := consecutive_api_errors st in
  let cands := candidates (current_model st) in
  let outcome k := report bn (tool (tool_calls st + k)) in
  exists o st' evs,
    fallback_or_break tool a bn st = (o, st') /\
    trace st' = trace st ++ evs /\
    Forall (fun ev => is_sleep ev = false) evs /\
    (batches_dir st = true -> batches_dir st' = true) /\
    ((consecutive_api_errors st' = (c + 1)%Z /\
      results st' = results st /\
      current_model st' = current_model st /\
      (no_fallback a = true -> tool_calls st' = tool_calls st) /\
      (no_fallback a = false ->
         Forall (fun id => writable (Some id) = true) cands /\
         (forall j, (j < length cands)%nat -> adopted (outcome j) = false) /\
         tool_calls st' = (tool_calls st + length cands)%nat) /\
      ((o = Done tt /\ (c + 1 < 2)%Z) \/ (o = Exit 1 /\ (2 <= c + 1)%Z)))
     \/ (no_fallback a = false /\ o = Done tt /\
         Forall (fun id => writable (Some id) = true) cands /\
         consecutive_api_errors st' = 0%Z /\
         exists k id,
           cands !! k = Some id /\ adopted (outcome k) = true /\
           (forall j, (j < k)%nat -> adopted (outcome j) = false) /\
           current_model st' = Some id /\
           results st' = removelast (results st) ++ [outcome k] /\
           tool_calls st' = (tool_calls st + S k)%nat /\
           evs = attempts bn (timeout a) (take (S k) cands))
     \/ (no_fallback a = false /\ (exists e, o = Crash e) /\
         (exists id more, cands = id :: more /\ writable (Some id) = false) /\
         consecutive_api_errors st' = (c + 1)%Z /\
         results st' = results st /\
         current_model st' = current_model st /\
         tool_calls st' = tool_calls st /\
         evs = [])).
Proof.
  intros Hne c cands outcome.
  set (st1 := with_counter (c + 1) st).
  unfold fallback_or_break.
  destruct (no_fallback a) eqn:Hnf.
  - (* fallback disabled *)
    change ((increment_errors ≫= λ _, circuit_breaker a bn) st)
      with (circuit_breaker a bn st1).
    rewrite circuit_breaker_eq. change (consecutive_api_errors st1) with (c + 1)%Z.
    destruct (Z.leb_spec 2 (c + 1)) as [Hge|Hlt].
    + exists (Exit 1), (halted a bn st1), [WritePartialSummary (results st); PrintResumeHint bn (config a)].
      split; [done|]. split; [cbn; by rewrite <- app_assoc|].
      split; [repeat constructor|]. split; [done|]. left.
      repeat split; try done. right. done.
    + exists (Done tt), st1, []. split; [done|]. split; [cbn; by rewrite app_nil_r|].
      split; [constructor|]. split; [done|]. left.
      repeat split; try done. left. done.
  - (* fallback enabled *)
    match goal with
    | |- context [(increment_errors ≫= ?k) st] =>
        change ((increment_errors ≫= k) st)
          with ((_try_fallback_models tool bn (timeout a) (current_model st)
                  ≫= λ retry_success,
                if truthy_str retry_success
                then modify (with_counter 0) ≫= λ _, modify (with_model retry_success)
                else circuit_breaker a bn) st1)
    end.
    rewrite bind_eq. unfold _try_fallback_models.
    destruct (candidates_writable (current_model st))
      as [Hready | (id0 & more & Hcands & Hrefused)].
    + destruct (try_models_spec FALLBACK_MODELS bn (timeout a) (current_model st) st1
                  Hne Hready)
        as (res & st' & Hrun & Hc & Hm & Hd & Hcases).
      rewrite Hrun.
      destruct Hcases as [(k & id & Hk & Hadk & Hbefore & -> & Hrs & Hcalls & Htr)
                         |(Hall & -> & Hrs & Hcalls & Htr)].
      * rewrite (roster_ids_truthy _ _ _ Hk).
        exists (Done tt), (with_model (Some id) (with_counter 0 st')),
               (attempts bn (timeout a) (take (S k) cands)).
        split; [reflexivity|]. split; [done|]. split; [apply attempts_no_sleep|].
        split; [done|]. right. left. do 4 (split; [done|]). exists k, id.
        repeat split; done.
      * cbn [truthy_str]. rewrite circuit_breaker_eq, Hc.
        change (consecutive_api_errors st1) with (c + 1)%Z.
        destruct (Z.leb_spec 2 (c + 1)) as [Hge|Hlt].
        -- exists (Exit 1), (halted a bn st'),
                  (attempts bn (timeout a) cands
                   ++ [WritePartialSummary (results st); PrintResumeHint bn (config a)]).
           split; [done|]. split.
           { cbn. rewrite Htr, Hrs. cbn. by rewrite <- !app_assoc. }
           split; [apply Forall_app; split; [apply attempts_no_sleep | repeat constructor]|].
           split; [done|]. left.
           repeat split; try done. right. done.
        -- exists (Done tt), st', (attempts bn (timeout a) cands).
           split; [done|]. split; [done|]. split; [apply attempts_no_sleep|].
           split; [done|]. left.
           repeat split; try done. left. done.
    + destruct (try_models_refused FALLBACK_MODELS bn (timeout a) (current_model st) st1
                  id0 more Hcands Hrefused) as [e He].
      rewrite He. exists (Crash e), (with_dir st1), [].
      split; [done|]. split; [cbn; by rewrite app_nil_r|]. split; [constructor|].
      split; [done|]. right. right.
      split; [done|]. split; [by exists e|]. split; [by exists id0, more|]. done.
Qed.

Lemma then_cooling (m : M unit) (a : args) (end_idx i : Z) (r : batch_result)
    (st st1 : run_state) (o1 : outcome unit) :
  m st = (o1, st1) ->
  exists o st',
    (m ≫= λ _, cooling_delay a end_idx i r) st = (o, st') /\
    consecutive_api_errors st' = consecutive_api_errors st1 /\
    results st' = results st1 /\
    current_model st' = current_model st1 /\
    tool_calls st' = tool_calls st1 /\
    (o1 <> Done tt -> o = o1 /\ st' = st1) /\
    (o1 = Done tt ->
       cooling_delay a end_idx i r st1 = (o, st')).
Proof.
  intros Hm. rewrite bind_eq, Hm.
  destruct o1 as [[]|code|e].
  - rewrite cooling_delay_eq.
    destruct ((i <? end_idx - 1)%Z && _);
      [destruct (delay a <? 0)%Z|]; eexists _, _; repeat split; done.
  - eexists _, _; repeat split; done.
  - eexists _, _; repeat split; done.
Qed.

Lemma index_nil {A} (i : Z) : Py.index (@nil A) i = Raise IndexError.
Proof.
  unfold Py.index. destruct (_ && _); [|reflexivity].
  by rewrite lookup_nil.
Qed.


End WithTool.
End OrchestratorFacts.

Module OrchestratorTheorems.
Import Classifier Supervisor Orchestrator Notions Examples OrchestratorFacts.

Section WithTool.
Context `{PyRepr} {D : Disk} (tool : nat -> tool_run).

(** C2: a rate-limited outcome halts the run at once, whatever the
    failure counter and the fallback setting: the tool is not invoked
    again (no fallback, no further batch), the outcomes so far are
    written to the partial summary, the resume hint names this batch,
    and the exit code is 1.  The batch is one that is run: its
    configuration gets written. *)
Theorem rate_limited_halts {A} (a : args) (batches : list (list A))
    (end_idx i : Z) (rest : list Z) (st : run_state) (batch : list A) :
  Py.index batches i = Ok batch ->
  writable (current_model st) = true ->
  status (report (i + 1) (tool (tool_calls st))) = Status.rate_limited ->
  let r := report (i + 1) (tool (tool_calls st)) in
  exists st',
    for_each (i :: rest) (process_batch tool a batches end_idx) st = (Exit 1, st') /\
    tool_calls st' = S (tool_calls st) /\
    results st' = results st ++ [r] /\
    consecutive_api_errors st' = consecutive_api_errors st /\
    current_model st' = current_model st /\
    trace st' =
      trace st ++
      [CreateBatchFile (i + 1);
       CreateBatchConfig (i + 1) (current_model st);
       RunTool (i + 1) (timeout a);
       PrintRateLimitStop (i + 1) (from_option id 0%Z (error_count r));
       WritePartialSummary (results st ++ [r]);
       PrintResumeHint (i + 1) (config a)].
Proof.
  intros Hidx Hw Hs r.
  exists (halted a (i + 1)
            (with_event (PrintRateLimitStop (i + 1) (from_option id 0%Z (error_count r)))
               (after_first_run a i r st))).
  split.
  - cbn [for_each].
    rewrite bind_eq, (process_batch_eq tool a batches end_idx i st batch Hidx Hw).
    cbv zeta. rewrite bind_eq. unfold handle_result. rewrite Hs. reflexivity.
  - repeat split; try reflexivity.
    cbn. rewrite <- !app_assoc. reflexivity.
Qed.

(** C9: the selector tries the roster in order with the current model
    left out; the first candidate whose outcome is success or failed is
    returned and its outcome takes the place of the last entry of the
    results; when every candidate ends in timeout, rate_limited,
    service_overloaded or error, it returns None.  In the loop, the
    adopted candidate becomes the current model.  A candidate has an
    outcome when the base configuration can be rewritten for it; when it
    cannot, the rewriting for the first candidate raises, no candidate is
    run and nothing is adopted. *)
Theorem fallback_selection (a : args) (bn : Z) (st : run_state) :
  results st <> [] ->
  let cands := candidates (current_model st) in
  let outcome k := report bn (tool (tool_calls st + k)) in
  (Forall (fun id => writable (Some id) = true) cands ->
   exists res st',
      _try_fallback_models tool bn (timeout a) (current_model st) st = (Done res, st') /\
      ((exists k id,
           cands !! k = Some id /\ adopted (outcome k) = true /\
           (forall j, (j < k)%nat -> adopted (outcome j) = false) /\
           res = Some id /\
           results st' = removelast (results st) ++ [outcome k] /\
           length (results st') = length (results st) /\
           tool_calls st' = (tool_calls st + S k)%nat /\
           trace st' = trace st ++ attempts bn (timeout a) (take (S k) cands))
       \/ ((forall j, (j < length cands)%nat ->
               status (outcome j) ∈ [Status.timeout; Status.rate_limited;
                                     Status.service_overloaded; Status.error]) /\
           res = None /\ results st' = results st /\
           tool_calls st' = (tool_calls st + length cands)%nat /\
           trace st' = trace st ++ attempts bn (timeout a) cands)))
  /\ (no_fallback a = false ->
      Forall (fun id => writable (Some id) = true) cands ->
      forall k id,
        cands !! k = Some id -> adopted (outcome k) = true ->
        (forall j, (j < k)%nat -> adopted (outcome j) = false) ->
        exists st',
          fallback_or_break tool a bn st = (Done tt, st') /\
          current_model st' = Some id /\
          consecutive_api_errors st' = 0%Z /\
          results st' = removelast (results st) ++ [outcome k])
  /\ (forall id more,
        cands = id :: more -> writable (Some id) = false ->
        (exists e st',
            _try_fallback_models tool bn (timeout a) (current_model st) st
            = (Crash e, st') /\
            results st' = results st /\ tool_calls st' = tool_calls st /\
            trace st' = trace st)
        /\ (no_fallback a = false ->
            exists e st',
              fallback_or_break tool a bn st = (Crash e, st') /\
              results st' = results st /\ current_model st' = current_model st /\
              tool_calls st' = tool_calls st)).
Proof.
  intros Hne cands outcome. split; [|split].
  - intros Hready.
    destruct (try_models_spec tool FALLBACK_MODELS bn (timeout a) (current_model st) st
                Hne Hready)
      as (res & st' & Hrun & _ & _ & _ & Hcases).
    exists res, st'. split; [exact Hrun|].
    destruct Hcases as [(k & id & Hk & Hadk & Hbefore & Hres & Hrs & Hcalls & Htr)
                       |(Hall & Hres & Hrs & Hcalls & Htr)].
    + left. exists k, id. repeat split; try done.
      rewrite Hrs, length_app. cbn.
      destruct (results st) as [|x rs] using rev_ind; [done|].
      rewrite removelast_last, length_app. cbn. lia.
    + right. repeat split; try done.
      intros j Hj. apply not_adopted_status. by apply Hall.
  - intros Hnf Hready k id Hk Hadk Hbefore.
    destruct (fallback_or_break_spec tool a bn st Hne)
      as (o & st' & evs & Hrun & _ & _ & _ & Hcases).
    destruct Hcases
      as [(_ & _ & _ & _ & Hnone & _)
         |[(_ & -> & _ & Hc & k' & id' & Hk' & Hadk' & Hbefore' & Hm & Hrs & _)
          |(_ & _ & (id0 & more & Hcands & Hrefused) & _)]].
    + exfalso. destruct (Hnone Hnf) as (_ & Hall & _).
      apply lookup_lt_Some in Hk. specialize (Hall k Hk).
      unfold outcome in Hadk. cbv beta zeta in Hall. congruence.
    + assert (k' = k) as ->.
      { destruct (Nat.lt_trichotomy k' k) as [Hlt|[Heq|Hgt]]; [|done|].
        - specialize (Hbefore k' Hlt). unfold outcome in Hbefore.
          cbv beta zeta in Hadk'. congruence.
        - specialize (Hbefore' k Hgt). unfold outcome in Hadk.
          cbv beta zeta in Hbefore'. congruence. }
      assert (id' = id) as -> by (unfold cands in Hk; congruence).
      exists st'. repeat split; done.
    + exfalso. unfold cands in Hready. rewrite Hcands in Hready.
      apply Forall_cons in Hready as [Hready _]. congruence.
  - intros id more Hcands Hrefused. split.
    + destruct (try_models_refused tool FALLBACK_MODELS bn (timeout a) (current_model st)
                  st id more Hcands Hrefused) as [e He].
      exists e, (with_dir st). done.
    + intros Hnf.
      destruct (fallback_or_break_spec tool a bn st Hne)
        as (o & st' & evs & Hrun & _ & _ & _ & Hcases).
      destruct Hcases
        as [(_ & _ & _ & _ & Hnone & _)
           |[(_ & _ & Hready & _)
            |(_ & [e ->] & _ & _ & Hrs & Hm & Hcalls & _)]].
      * exfalso. destruct (Hnone Hnf) as (Hready & _).
        unfold cands in Hcands. rewrite Hcands in Hready.
        apply Forall_cons in Hready as [Hready _]. congruence.
      * exfalso. unfold cands in Hcands. rewrite Hcands in Hready.
        apply Forall_cons in Hready as [Hready _]. congruence.
      * exists e, st'. done.
Qed.

(** C1, amended: success resets the counter; failed and rate_limited
    leave it as it is; error adds one; timeout and service_overloaded add
    one, unless fallback is enabled and a candidate is adopted for the
    batch, in which case the counter is reset to zero.  The batch is one
    that is run: its configuration gets written. *)
Theorem failure_counter_step {A} (a : args) (batches : list (list A))
    (end_idx i : Z) (st : run_state) (batch : list A) :
  Py.index batches i = Ok batch ->
  writable (current_model st) = true ->
  let r := report (i + 1) (tool (tool_calls st)) in
  let c := consecutive_api_errors st in
  exists o st',
    process_batch tool a batches end_idx i st = (o, st') /\
    match status r with
    | Status.success => consecutive_api_errors st' = 0%Z
    | Status.failed | Status.rate_limited => consecutive_api_errors st' = c
    | Status.error => consecutive_api_errors st' = (c + 1)%Z
    | Status.timeout | Status.service_overloaded =>
        (consecutive_api_errors st' = (c + 1)%Z /\ results st' = results st ++ [r])
        \/ (no_fallback a = false /\ consecutive_api_errors st' = 0%Z /\
            exists r', adopted r' = true /\ results st' = results st ++ [r'])
    end.
Proof.
  intros Hidx Hw r c.
  rewrite (process_batch_eq tool a batches end_idx i st batch Hidx Hw). cbv zeta. fold r.
  set (st0 := after_first_run a i r st).
  assert (results st0 <> []) as Hne by (cbn; by destruct (results st)).
  assert (removelast (results st0) = results st) as Hrm by (cbn; apply removelast_last).
  assert (forall o1 st1,
             fallback_or_break tool a (i + 1) st0 = (o1, st1) ->
             (consecutive_api_errors st1 = (c + 1)%Z /\ results st1 = results st ++ [r])
             \/ (no_fallback a = false /\ consecutive_api_errors st1 = 0%Z /\
                 exists r', adopted r' = true /\ results st1 = results st ++ [r']))
    as Hfb.
  { intros o1 st1 Hrun.
    destruct (fallback_or_break_spec tool a (i + 1) st0 Hne)
      as (o & st' & evs & Hrun' & _ & _ & _ & Hcases).
    rewrite Hrun in Hrun'. injection Hrun' as <- <-.
    destruct Hcases
      as [(Hc & Hrs & _)
         |[(Hnf & _ & _ & Hc & k & id & _ & Hadk & _ & _ & Hrs & _)
          |(_ & _ & _ & Hc & Hrs & _)]].
    - left. split; [exact Hc | exact Hrs].
    - right. split; [done|]. split; [done|]. eexists. split; [exact Hadk|].
      by rewrite Hrs, Hrm.
    - left. split; [exact Hc | exact Hrs]. }
  unfold handle_result.
  destruct (status r) eqn:Hs.
  - destruct (then_cooling (modify (with_counter 0)) a end_idx i r st0 _ _ eq_refl)
      as (o & st' & Hrun & Hc & _). exists o, st'. split; [exact Hrun | by rewrite Hc].
  - destruct (then_cooling (mret tt) a end_idx i r st0 _ _ eq_refl)
      as (o & st' & Hrun & Hc & _). exists o, st'. split; [exact Hrun | by rewrite Hc].
  - destruct (fallback_or_break tool a (i + 1) st0) as [o1 st1] eqn:Hrun1.
    destruct (then_cooling _ a end_idx i r st0 _ _ Hrun1)
      as (o & st' & Hrun & Hc & Hrs & _). exists o, st'. split; [exact Hrun|].
    rewrite Hc, Hrs. by apply (Hfb o1).
  - destruct (then_cooling
                (emit (PrintRateLimitStop (i + 1) (from_option id 0%Z (error_count r)))
                   ≫= λ _, _save_partial_and_exit a (i + 1))
                a end_idx i r st0 _ _ eq_refl)
      as (o & st' & Hrun & Hc & _). exists o, st'. split; [exact Hrun | by rewrite Hc].
  - destruct (fallback_or_break tool a (i + 1) st0) as [o1 st1] eqn:Hrun1.
    destruct (then_cooling _ a end_idx i r st0 _ _ Hrun1)
      as (o & st' & Hrun & Hc & Hrs & _). exists o, st'. split; [exact Hrun|].
    rewrite Hc, Hrs. by apply (Hfb o1).
  - assert ((increment_errors ≫= λ _, circuit_breaker a (i + 1)) st0 =
            circuit_breaker a (i + 1) (with_counter (c + 1) st0)) as Hinc by reflexivity.
    rewrite circuit_breaker_eq in Hinc.
    destruct (2 <=? _)%Z;
      destruct (then_cooling _ a end_idx i r st0 _ _ Hinc)
        as (o & st' & Hrun & Hc & _); exists o, st'; (split; [exact Hrun | by rewrite Hc]).
Qed.


(** C6, amended: an empty or unloadable inline test collection ends the
    run at once, before anything is run or written, and not normally:
    the call of [sys.exit] raises.  The batch size is not validated: 0
    makes the splitter's range raise, and the run ends in that uncaught
    ValueError with nothing run or written; a negative size makes the
    splitter return no batch and no batch is run; with the default range
    the run then writes an empty summary and ends normally when the
    directory of the reports exists, and ends in the error of opening the
    summary file when it does not. *)
Theorem input_checks {A} (a : args) (source : loaded A) (dir_exists : bool) :
  let st := initial_state a dir_exists in
  (truthy_str (tests a) = false ->
   source = LoadError \/ source = Loaded [] ->
   main tool a source st = (Crash UnboundLocalError, st))
  /\ (forall ts,
         load_and_check a source st = (Done ts, st) ->
         batch_size a = 0%Z ->
         main tool a source st = (Crash ValueError, st))
  /\ (forall ts,
         load_and_check a source st = (Done ts, st) ->
         (batch_size a < 0)%Z ->
         exists o st',
           main tool a source st = (o, st') /\
           tool_calls st' = 0%nat /\ results st' = [] /\
           ((o = Done tt /\ trace st' = [WriteSummary []])
            \/ (exists e, o = Crash e /\ trace st' = [])) /\
           (start a = None -> end_ a = None ->
            if dir_exists
            then o = Done tt /\ trace st' = [WriteSummary []]
            else o = Crash OSError /\ trace st' = [])).
Proof.
  intros st. split; [|split].
  - intros Hinline Hsrc. unfold main. rewrite bind_eq.
    unfold load_and_check. rewrite Hinline.
    destruct Hsrc as [-> | ->]; reflexivity.
  - intros ts Hload Hzero. unfold main. rewrite bind_eq, Hload, Hzero. reflexivity.
  - intros ts Hload Hneg. unfold main. rewrite bind_eq, Hload.
    rewrite (SplitterTheorems.split_negative ts (batch_size a) Hneg).
    cbn [lift]. rewrite bind_eq. cbn [mret M_ret length Z.of_nat].
    set (start_idx := if truthy_int (start a) then _ else _).
    set (end_idx := if truthy_int (end_ a) then _ else _).
    rewrite bind_modify.
    change (with_model (model a) (with_counter 0 (with_results [] st))) with st.
    unfold Py.range. cbn [Z.eqb Z.ltb Z.compare lift]. rewrite bind_eq. cbn [mret M_ret].
    destruct (Py.range_up (Z.to_nat (end_idx - start_idx)) start_idx end_idx 1)
      as [|i idxs] eqn:Hidxs.
    + cbn [for_each]. rewrite bind_eq. cbn [mret M_ret].
      destruct dir_exists.
      * eexists (Done tt), _. split; [reflexivity|].
        repeat split; try reflexivity. left. split; reflexivity.
      * eexists (Crash OSError), _. split; [reflexivity|].
        repeat split; try reflexivity.
        right. exists OSError. split; reflexivity.
    + cbn [for_each]. rewrite !bind_eq.
      rewrite (process_batch_bad_index tool a [] end_idx i st IndexError (index_nil i)).
      eexists (Crash IndexError), _. split; [reflexivity|].
      repeat split; try reflexivity.
      * right. exists IndexError. split; reflexivity.
      * intros Hs He. exfalso.
        subst start_idx end_idx. rewrite Hs, He in Hidxs. discriminate.
Qed.

End WithTool.
End OrchestratorTheorems.

(** ** Runs of the orchestrator on concrete inputs *)

Module OrchestratorExamples.
Import Classifier Supervisor Orchestrator Notions Examples OrchestratorTheorems.

(** Unless another disk is named, the runs are on [usual_disk]. *)
#[local] Existing Instance usual_disk.

(** C1 as stated fails: with one error counted, a batch times out, a
    fallback candidate is adopted, and the counter drops from 1 to 0. *)
Lemma counter_drops_on_adopted_fallback :
  consecutive_api_errors state_after_error = 1%Z /\
  status (report (H:=plain_repr) 2 (error_then_timeout (tool_calls state_after_error)))
    = Status.timeout /\
  fst (process_batch (H:=plain_repr) error_then_timeout default_args
         [[1; 2]; [3; 4]]%nat 2 1 state_after_error) = Done tt /\
  consecutive_api_errors
    (snd (process_batch (H:=plain_repr) error_then_timeout default_args
            [[1; 2]; [3; 4]]%nat 2 1 state_after_error)) = 0%Z.
Proof. vm_compute. repeat split. Qed.

Lemma failure_counter_step_witness :
  exists o st',
    process_batch (H:=plain_repr) error_then_timeout default_args
      [[1; 2]; [3; 4]]%nat 2 1 state_after_error = (o, st') /\
    ((consecutive_api_errors st' = 2%Z /\
      results st' = results state_after_error
                    ++ [report (H:=plain_repr) 2 (TimesOut 120000 None)])
     \/ (no_fallback default_args = false /\ consecutive_api_errors st' = 0%Z /\
         exists r', adopted r' = true /\
                    results st' = results state_after_error ++ [r'])).
Proof.
  exact (failure_counter_step (H:=plain_repr) (D:=usual_disk) error_then_timeout default_args
           [[1; 2]; [3; 4]]%nat 2 1 state_after_error [3; 4]%nat eq_refl eq_refl).
Defined.

Lemma rate_limited_halts_witness :
  exists st',
    for_each [0; 1]%Z
      (process_batch (H:=plain_repr) rate_limited_first default_args
         [[1; 2]; [3]]%nat 2)
      (initial_state default_args false) = (Exit 1, st') /\
    tool_calls st' = 1%nat.
Proof.
  destruct (rate_limited_halts (H:=plain_repr) (D:=usual_disk) rate_limited_first default_args
              [[1; 2]; [3]]%nat 2 0 [1%Z] (initial_state default_args false)
              [1; 2]%nat eq_refl eq_refl eq_refl)
    as (st' & Hrun & Hcalls & _).
  exists st'. split; [exact Hrun | exact Hcalls].
Defined.



Lemma fallback_selection_witness :
  (exists res st',
      _try_fallback_models (H:=plain_repr) second_candidate_works 1 120 None
        state_after_timeout = (Done res, st')) /\
  (exists st',
      fallback_or_break (H:=plain_repr) second_candidate_works default_args 1
        state_after_timeout = (Done tt, st') /\
      current_model st' = Some "google:gemini-3-pro-preview" /\
      consecutive_api_errors st' = 0%Z).
Proof.
  assert (Forall (fun id => writable (Some id) = true)
            (candidates (current_model state_after_timeout))) as Hready
    by (repeat (constructor; [reflexivity|]); constructor).
  destruct (fallback_selection (H:=plain_repr) (D:=usual_disk) second_candidate_works default_args 1
              state_after_timeout ltac:(discriminate))
    as (Hselect & Hadopt & _).
  destruct (Hselect Hready) as (res & st' & Hrun & _).
  split; [exists res, st'; exact Hrun|].
  destruct (Hadopt eq_refl Hready 1%nat "google:gemini-3-pro-preview" eq_refl eq_refl)
    as (st'' & Hrun' & Hmodel & Hcount & _).
  { intros [|j] Hj; [reflexivity | lia]. }
  exists st''. split; [exact Hrun'|]. split; [exact Hmodel | exact Hcount].
Defined.

Example second_candidate_adopted :
  fst (_try_fallback_models (H:=plain_repr) second_candidate_works 1 120 None
         state_after_timeout) = Done (Some "google:gemini-3-pro-preview") /\
  map status
    (results (snd (_try_fallback_models (H:=plain_repr) second_candidate_works 1 120 None
                     state_after_timeout))) = [Status.failed].
Proof. vm_compute. split; reflexivity. Qed.

(** On a base configuration with a provider whose id is a number, the
    first run of a batch goes through and the rewriting for the first
    fallback candidate raises: no candidate is run. *)
Example fallback_rewriting_raises :
  fst (process_batch (H:=plain_repr) (D:=disk_with_numbered_provider) timeout_once
         default_args [[1; 2]; [3]]%nat 2 0 (initial_state default_args false))
  = Crash AttributeError /\
  tool_calls
    (snd (process_batch (H:=plain_repr) (D:=disk_with_numbered_provider) timeout_once
            default_args [[1; 2]; [3]]%nat 2 0 (initial_state default_args false)))
  = 1%nat.
Proof. vm_compute. split; reflexivity. Qed.

(** On an empty base configuration the batch file is written and the
    rewriting of the configuration raises: the tool is never invoked. *)
Example empty_config_stops_before_run :
  process_batch (H:=plain_repr) (D:=disk_with_empty_config) always_clean
    default_args [[1; 2]; [3]]%nat 2 0 (initial_state default_args false)
  = (Crash AttributeError,
     with_dir (with_event (CreateBatchFile 1) (initial_state default_args false))).
Proof. reflexivity. Qed.

(** C6 as stated fails: a batch size of -2 is accepted, no batch is run,
    an empty summary is written and the run ends normally. *)
Lemma negative_batch_size_accepted :
  fst (main (H:=plain_repr) (fun _ => clean_run) negative_size_args
         (Loaded [1; 2; 3]%nat) (initial_state negative_size_args true)) = Done tt /\
  trace (snd (main (H:=plain_repr) (fun _ => clean_run) negative_size_args
                (Loaded [1; 2; 3]%nat) (initial_state negative_size_args true)))
  = [WriteSummary []].
Proof. vm_compute. split; reflexivity. Qed.

Example zero_batch_size_crashes :
  main (H:=plain_repr) (fun _ => clean_run) zero_size_args
    (Loaded [1; 2; 3]%nat) (initial_state zero_size_args true)
  = (Crash ValueError, initial_state zero_size_args true).
Proof. reflexivity. Qed.

Lemma input_checks_witness :
  main (H:=plain_repr) (fun _ => clean_run) default_args (@Loaded nat [])
    (initial_state default_args false)
  = (Crash UnboundLocalError, initial_state default_args false) /\
  main (H:=plain_repr) (fun _ => clean_run) zero_size_args (Loaded [1; 2; 3]%nat)
    (initial_state zero_size_args false)
  = (Crash ValueError, initial_state zero_size_args false) /\
  (exists o st',
      main (H:=plain_repr) (fun _ => clean_run) negative_size_args
        (Loaded [1; 2; 3]%nat) (initial_state negative_size_args true) = (o, st') /\
      tool_calls st' = 0%nat /\ o = Done tt) /\
  (exists o st',
      main (H:=plain_repr) (fun _ => clean_run) negative_size_args
        (Loaded [1; 2; 3]%nat) (initial_state negative_size_args false) = (o, st') /\
      tool_calls st' = 0%nat /\ o = Crash OSError).
Proof.
  split; [|split; [|split]].
  - destruct (input_checks (H:=plain_repr) (D:=usual_disk) (fun _ => clean_run) default_args
                (@Loaded nat []) false) as [Hempty _].
    exact (Hempty eq_refl (or_intror eq_refl)).
  - destruct (input_checks (H:=plain_repr) (D:=usual_disk) (fun _ => clean_run) zero_size_args
                (Loaded [1; 2; 3]%nat) false) as (_ & Hzero & _).
    exact (Hzero [1; 2; 3]%nat eq_refl eq_refl).
  - destruct (input_checks (H:=plain_repr) (D:=usual_disk) (fun _ => clean_run) negative_size_args
                (Loaded [1; 2; 3]%nat) true) as (_ & _ & Hneg).
    destruct (Hneg [1; 2; 3]%nat eq_refl ltac:(reflexivity))
      as (o & st' & Hrun & Hcalls & _ & _ & Hdone).
    exists o, st'. split; [exact Hrun|]. split; [exact Hcalls|].
    exact (proj1 (Hdone eq_refl eq_refl)).
  - destruct (input_checks (H:=plain_repr) (D:=usual_disk) (fun _ => clean_run) negative_size_args
                (Loaded [1; 2; 3]%nat) false) as (_ & _ & Hneg).
    destruct (Hneg [1; 2; 3]%nat eq_refl ltac:(reflexivity))
      as (o & st' & Hrun & Hcalls & _ & _ & Hdone).
    exists o, st'. split; [exact Hrun|]. split; [exact Hcalls|].
    exact (proj1 (Hdone eq_refl eq_refl)).
Defined.

End OrchestratorExamples.

(** ** Merger proofs *)

Module MergerFacts.
Import Merger.

Lemma sum_list_cons (x : Z) (l : list Z) : sum_list (x :: l) = (x + sum_list l)%Z.
Proof. reflexivity. Qed.

(** The token loop adds the batch's counter for each listed key and
    leaves every other key alone. *)
Lemma fold_token_keys (theirs : gmap string Z) (keys : list string) :
  NoDup keys ->
  forall (mine : gmap string Z) (key : string),
    foldl (fun acc k =>
             match theirs !! k with
             | Some v => <[k := (from_option id 0 (acc !! k) + v)%Z]> acc
             | None => acc
             end) mine keys !! key =
    if decide (key ∈ keys)
    then match theirs !! key with
         | Some v => Some (from_option id 0 (mine !! key) + v)%Z
         | None => mine !! key
         end
    else mine !! key.
Proof.
  induction 1 as [|k keys Hnotin Hnodup IH]; intros mine key; cbn [foldl].
  - rewrite decide_False by apply not_elem_of_nil. reflexivity.
  - rewrite IH. destruct (decide (key = k)) as [->|Hne].
    + rewrite decide_False by done.
      rewrite decide_True by apply list_elem_of_here.
      destruct (theirs !! k); [by rewrite lookup_insert_eq | reflexivity].
    + assert (key ∈ k :: keys <-> key ∈ keys) as Hiff.
      { rewrite elem_of_cons. split; [intros [Heq|Hin]; [contradiction | exact Hin]|].
        intros Hin. right. exact Hin. }
      assert ((match theirs !! k with
               | Some v => <[k := (from_option id 0 (mine !! k) + v)%Z]> mine
               | None => mine
               end) !! key = mine !! key) as Hsame
        by (destruct (theirs !! k); [by rewrite lookup_insert_ne | reflexivity]).
      destruct (decide (key ∈ keys)) as [Hin|Hnin].
      * rewrite decide_True by (by apply Hiff). by rewrite Hsame.
      * rewrite decide_False by (by rewrite Hiff). exact Hsame.
Qed.

Lemma token_keys_nodup : NoDup TOKEN_KEYS.
Proof.
  unfold TOKEN_KEYS.
  repeat (apply NoDup_cons; split;
          [rewrite ?elem_of_cons, ?elem_of_nil; intuition discriminate|]).
  apply NoDup_nil_2.
Qed.

Lemma merge_token_usage_listed (mine theirs : gmap string Z) (key : string) :
  key ∈ TOKEN_KEYS ->
  from_option id 0%Z (merge_token_usage mine theirs !! key) =
  (from_option id 0 (mine !! key) + from_option id 0 (theirs !! key))%Z.
Proof.
  intros Hin. unfold merge_token_usage.
  rewrite (fold_token_keys theirs TOKEN_KEYS token_keys_nodup).
  rewrite decide_True by done.
  destruct (theirs !! key); cbn; lia.
Qed.

Lemma merge_token_usage_other (mine theirs : gmap string Z) (key : string) :
  key ∉ TOKEN_KEYS -> merge_token_usage mine theirs !! key = mine !! key.
Proof.
  intros Hnin. unfold merge_token_usage.
  rewrite (fold_token_keys theirs TOKEN_KEYS token_keys_nodup).
  by rewrite decide_False.
Qed.

Section Loop.
Context {num : Type} `{PyNumber num}.

(** What the merging loop has accumulated after any number of batches. *)
Lemma merge_loop (others : list (artifact num)) (acc : merge_acc num) :
  let acc' := foldl merge_step acc others in
  results (merged acc') = results (merged acc) ++ concat (map results others) /\
  total_successes acc' =
    (total_successes acc + sum_list (map (fun x => successes (stats_of x)) others))%Z /\
  total_failures acc' =
    (total_failures acc + sum_list (map (fun x => failures (stats_of x)) others))%Z /\
  total_errors acc' =
    (total_errors acc + sum_list (map (fun x => errors (stats_of x)) others))%Z /\
  (forall key, key ∈ TOKEN_KEYS ->
     usage key (stats_of (merged acc')) =
     (usage key (stats_of (merged acc))
      + sum_list (map (fun x => usage key (stats_of x)) others))%Z) /\
  (forall key, key ∉ TOKEN_KEYS ->
     tokenUsage (stats_of (merged acc')) !! key
     = tokenUsage (stats_of (merged acc)) !! key) /\
  evalId (merged acc') = evalId (merged acc) /\
  prompts (merged acc') = prompts (merged acc).
Proof.
  revert acc. induction others as [|b others IH]; intros acc; cbn [foldl map concat].
  - cbn. rewrite app_nil_r. repeat split; try lia; intros; lia.
  - destruct (IH (merge_step acc b)) as (Hr & Hs & Hf & He & Hu & Ho & Hid & Hp).
    cbv zeta. rewrite Hr, Hs, Hf, He, Hid, Hp. rewrite !sum_list_cons.
    cbn [merge_step merged results total_successes total_failures total_errors
         evalId prompts].
    split; [by rewrite <- app_assoc|].
    do 3 (split; [lia|]).
    split; [|split; [|done]].
    + intros key Hin. rewrite (Hu key Hin), sum_list_cons.
      unfold usage at 1. cbn [merge_step merged stats_of tokenUsage].
      rewrite (merge_token_usage_listed _ _ key Hin). unfold usage. lia.
    + intros key Hnin. rewrite (Ho key Hnin).
      cbn [merge_step merged stats_of tokenUsage].
      by apply merge_token_usage_other.
Qed.
End Loop.

End MergerFacts.

Module MergerTheorems.
Import Merger MergerFacts Notions Examples.

(** C8, amended: for a non-empty list of artifacts the merged artifact has
    the records of all inputs in input order, and its successes, failures,
    errors and its prompt, completion, cached and total token counters
    are the sums over the inputs (a counter an input lacks counting as 0);
    every other token counter keeps the value of the first artifact.  So
    stats 2/0/0 and 1/1/0 with one record per counted test give 3/1/0 and
    four records. *)
Theorem merge_results_totals {num : Type} `{PyNumber num}
    (base : artifact num) (others : list (artifact num)) :
  exists m,
    merge_results (base :: others) = Some m /\
    results m = concat (map results (base :: others)) /\
    successes (stats_of m)
      = sum_list (map (fun x => successes (stats_of x)) (base :: others)) /\
    failures (stats_of m)
      = sum_list (map (fun x => failures (stats_of x)) (base :: others)) /\
    errors (stats_of m)
      = sum_list (map (fun x => errors (stats_of x)) (base :: others)) /\
    Forall (fun key =>
              usage key (stats_of m)
              = sum_list (map (fun x => usage key (stats_of x)) (base :: others)))
           ["prompt"; "completion"; "cached"; "total"] /\
    (forall key,
        key ∉ ["prompt"; "completion"; "cached"; "total"] ->
        tokenUsage (stats_of m) !! key = tokenUsage (stats_of base) !! key) /\
    (forall b,
        others = [b] ->
        successes (stats_of base) = 2%Z -> failures (stats_of base) = 0%Z ->
        errors (stats_of base) = 0%Z ->
        successes (stats_of b) = 1%Z -> failures (stats_of b) = 1%Z ->
        errors (stats_of b) = 0%Z ->
        counts_match base -> counts_match b ->
        successes (stats_of m) = 3%Z /\ failures (stats_of m) = 1%Z /\
        errors (stats_of m) = 0%Z /\ length (results m) = 4%nat).
Proof.
  exists (finish (foldl merge_step (start_acc base) others)).
  destruct (merge_loop others (start_acc base)) as (Hr & Hs & Hf & He & Hu & Ho & _).
  cbv zeta in *.
  assert (results (finish (foldl merge_step (start_acc base) others))
          = concat (map results (base :: others))) as Hrecords by exact Hr.
  split; [reflexivity|]. split; [exact Hrecords|].
  split; [exact Hs|]. split; [exact Hf|]. split; [exact He|]. split; [|split].
  - apply Forall_forall. intros key Hin. cbn [map]. rewrite sum_list_cons.
    exact (Hu key Hin).
  - intros key Hnin. exact (Ho key Hnin).
  - intros b -> Hs1 Hf1 He1 Hs2 Hf2 He2 Hm1 Hm2.
    cbn [finish stats_of successes failures errors].
    rewrite Hs, Hf, He. cbn [start_acc total_successes total_failures total_errors
                               map sum_list foldr].
    rewrite Hs1, Hf1, He1, Hs2, Hf2, He2.
    repeat split; try reflexivity.
    rewrite Hrecords. cbn [map concat]. rewrite app_nil_r, length_app.
    unfold counts_match in Hm1, Hm2. lia.
Qed.

Lemma merge_results_totals_witness :
  exists m,
    merge_results (H:=Z_number) [batch_one; batch_two] = Some m /\
    successes (stats_of m) = 3%Z /\ failures (stats_of m) = 1%Z /\
    errors (stats_of m) = 0%Z /\ length (results m) = 4%nat.
Proof.
  destruct (merge_results_totals (H:=Z_number) batch_one [batch_two])
    as (m & Hm & _ & _ & _ & _ & _ & _ & Hscenario).
  exists m. split; [exact Hm|].
  exact (Hscenario batch_two eq_refl eq_refl eq_refl eq_refl eq_refl eq_refl eq_refl
           eq_refl eq_refl).
Defined.

(** C8 as stated fails: two artifacts count 2 requests each, and the merged
    artifact counts 2, not 4: [numRequests] is not one of the four keys
    the merger adds up. *)
Lemma unlisted_counter_not_summed :
  usage "numRequests" (stats_of counted_one) = 2%Z /\
  usage "numRequests" (stats_of counted_two) = 2%Z /\
  exists m,
    merge_results (H:=Z_number) [counted_one; counted_two] = Some m /\
    usage "numRequests" (stats_of m) = 2%Z /\
    usage "total" (stats_of m) = 180%Z.
Proof.
  split; [reflexivity|]. split; [reflexivity|].
  eexists. split; [reflexivity|]. split; vm_compute; reflexivity.
Qed.

(** Token counters other than the four listed keep the base's value. *)
Lemma unlisted_token_counter_kept {num : Type} `{PyNumber num}
    (base : artifact num) (others : list (artifact num)) (key : string) :
  key ∉ TOKEN_KEYS ->
  tokenUsage (stats_of (finish (foldl merge_step (start_acc base) others))) !! key
  = tokenUsage (stats_of base) !! key.
Proof.
  intros Hnin.
  destruct (merge_loop others (start_acc base)) as (_ & _ & _ & _ & _ & Ho & _).
  exact (Ho key Hnin).
Qed.

End MergerTheorems.

(** ** More on the controller: every way an iteration can end *)

Module ControllerFacts.
Import Classifier Supervisor Orchestrator Notions OrchestratorFacts.

Section WithTool.
Context `{PyRepr} {D : Disk} (tool : nat -> tool_run).

(** The [timeout] / [service_overloaded] branch, with the events of each
    way out. *)
Lemma fallback_or_break_cases (a : args) (bn : Z) (st : run_state) :
  results st <> [] ->
  let c := consecutive_api_errors st in
  let cands := candidates (current_model st) in
  let outcome k := report bn (tool (tool_calls st + k)) in
  exists o st',
    fallback_or_break tool a bn st = (o, st') /\
    (batches_dir st = true -> batches_dir st' = true) /\
    ((exists tried,
         ((no_fallback a = true /\ tried = [])
          \/ (no_fallback a = false /\ tried = cands /\
              forall j, (j < length cands)%nat -> adopted (outcome j) = false)) /\
         consecutive_api_errors st' = (c + 1)%Z /\
         results st' = results st /\
         current_model st' = current_model st /\
         tool_calls st' = (tool_calls st + length tried)%nat /\
         ((o = Done tt /\ (c + 1 < 2)%Z /\
           trace st' = trace st ++ attempts bn (timeout a) tried)
          \/ (o = Exit 1 /\ (2 <= c + 1)%Z /\
              trace st' = trace st ++ attempts bn (timeout a) tried
                          ++ [WritePartialSummary (results st);
                              PrintResumeHint bn (config a)])))
     \/ (exists k id,
            no_fallback a = false /\ o = Done tt /\
            cands !! k = Some id /\ adopted (outcome k) = true /\
            (forall j, (j < k)%nat -> adopted (outcome j) = false) /\
            consecutive_api_errors st' = 0%Z /\
            current_model st' = Some id /\
            results st' = removelast (results st) ++ [outcome k] /\
            tool_calls st' = (tool_calls st + S k)%nat /\
            trace st' = trace st ++ attempts bn (timeout a) (take (S k) cands))
     \/ (exists e id more,
            no_fallback a = false /\ o = Crash e /\
            cands = id :: more /\ writable (Some id) = false /\
            consecutive_api_errors st' = (c + 1)%Z /\
            results st' = results st /\
            current_model st' = current_model st /\
            tool_calls st' = tool_calls st /\
            trace st' = trace st)).
Proof.
  intros Hne c cands outcome.
  set (st1 := with_counter (c + 1) st).
  unfold fallback_or_break.
  destruct (no_fallback a) eqn:Hnf.
  - change ((increment_errors ≫= λ _, circuit_breaker a bn) st)
      with (circuit_breaker a bn st1).
    rewrite circuit_breaker_eq. change (consecutive_api_errors st1) with (c + 1)%Z.
    destruct (Z.leb_spec 2 (c + 1)) as [Hge|Hlt].
    + exists (Exit 1), (halted a bn st1). split; [done|]. split; [done|]. left.
      exists []. split; [left; done|]. do 4 (split; [cbn; try done; lia|]).
      right. split; [done|]. split; [done|]. cbn. by rewrite <- app_assoc.
    + exists (Done tt), st1. split; [done|]. split; [done|]. left.
      exists []. split; [left; done|]. do 4 (split; [cbn; try done; lia|]).
      left. split; [done|]. split; [done|]. cbn. by rewrite app_nil_r.
  - match goal with
    | |- context [(increment_errors ≫= ?k) st] =>
        change ((increment_errors ≫= k) st)
          with ((_try_fallback_models tool bn (timeout a) (current_model st)
                  ≫= λ retry_success,
                if truthy_str retry_success
                then modify (with_counter 0) ≫= λ _, modify (with_model retry_success)
                else circuit_breaker a bn) st1)
    end.
    rewrite bind_eq. unfold _try_fallback_models.
    destruct (candidates_writable (current_model st))
      as [Hready | (id0 & more & Hcands & Hrefused)].
    2:{ destruct (try_models_refused tool FALLBACK_MODELS bn (timeout a)
                    (current_model st) st1 id0 more Hcands Hrefused) as [e He].
        rewrite He. exists (Crash e), (with_dir st1).
        split; [done|]. split; [done|]. right. right. exists e, id0, more. done. }
    destruct (try_models_spec tool FALLBACK_MODELS bn (timeout a) (current_model st) st1
                Hne Hready)
      as (res & st' & Hrun & Hc & Hm & Hd & Hcases).
    rewrite Hrun.
    destruct Hcases as [(k & id & Hk & Hadk & Hbefore & -> & Hrs & Hcalls & Htr)
                       |(Hall & -> & Hrs & Hcalls & Htr)].
    + rewrite (roster_ids_truthy _ _ _ Hk).
      exists (Done tt), (with_model (Some id) (with_counter 0 st')).
      split; [reflexivity|]. split; [done|]. right. left. exists k, id.
      repeat split; done.
    + cbn [truthy_str]. rewrite circuit_breaker_eq, Hc.
      change (consecutive_api_errors st1) with (c + 1)%Z.
      destruct (Z.leb_spec 2 (c + 1)) as [Hge|Hlt].
      * exists (Exit 1), (halted a bn st'). split; [done|]. split; [done|]. left.
        exists cands. split; [right; done|].
        split; [exact Hc|]. split; [exact Hrs|]. split; [exact Hm|]. split; [exact Hcalls|].
        right. split; [done|]. split; [done|].
        cbn. rewrite Htr, Hrs. cbn. by rewrite <- !app_assoc.
      * exists (Done tt), st'. split; [done|]. split; [done|]. left.
        exists cands. split; [right; done|].
        split; [exact Hc|]. split; [exact Hrs|]. split; [exact Hm|]. split; [exact Hcalls|].
        left. done.
Qed.

Lemma runs_of_halt (evs : list event) (rs : list batch_result) (bn : Z) (cfg : string) :
  runs_of (evs ++ [WritePartialSummary rs; PrintResumeHint bn cfg]) = runs_of evs.
Proof. rewrite runs_of_app. cbn. by rewrite app_nil_r. Qed.

(** The events of the error-handling block invoke the tool for this batch
    only. *)
Ltac runs_here :=
  let bn' := fresh "bn'" in
  let Hin := fresh "Hin" in
  intros bn' Hin;
  rewrite ?runs_of_halt in Hin;
  first [ by apply attempts_runs in Hin
        | by (cbn in Hin; apply elem_of_nil in Hin) ].


Lemma report_batch_num (bn : Z) (run : tool_run) : batch_num (report bn run) = bn.
Proof.
  destruct run as [m | t [m|] | rc t f]; try reflexivity.
  cbn. destruct (check_api_errors f) as [[k n] o].
  repeat case_bool_decide; try reflexivity.
  destruct (rc =? 0)%Z; reflexivity.
Qed.

(** Every way the error-handling block can end. *)
Lemma handle_result_summary (a : args) (bn : Z) (r : batch_result)
    (rs : list batch_result) (st0 : run_state) :
  results st0 = rs ++ [r] -> batch_num r = bn ->
  let c := consecutive_api_errors st0 in
  let cands := candidates (current_model st0) in
  exists o1 st1 r' evs,
    handle_result tool a bn r st0 = (o1, st1) /\
    results st1 = rs ++ [r'] /\
    batch_num r' = bn /\
    trace st1 = trace st0 ++ evs /\
    Forall (fun ev => is_sleep ev = false) evs /\
    (forall bn', bn' ∈ runs_of evs -> bn' = bn) /\
    (batches_dir st0 = true -> batches_dir st1 = true) /\
    (tool_calls st0 <= tool_calls st1 <= tool_calls st0 + length cands)%nat /\
    (no_fallback a = true
     \/ (status r <> Status.timeout /\ status r <> Status.service_overloaded) ->
     tool_calls st1 = tool_calls st0 /\ current_model st1 = current_model st0 /\ r' = r) /\
    ((current_model st1 = current_model st0 /\ r' = r)
     \/ (exists id, id ∈ cands /\ current_model st1 = Some id /\ adopted r' = true /\
                    consecutive_api_errors st1 = 0%Z /\ no_fallback a = false /\
                    o1 = Done tt)) /\
    (o1 = Done tt
     \/ (o1 = Exit 1 /\
         (exists evs0, evs = evs0 ++ [WritePartialSummary (results st1);
                                      PrintResumeHint bn (config a)]) /\
         (status r = Status.rate_limited \/ (2 <= c + 1)%Z))
     \/ (exists e, o1 = Crash e /\ evs = [] /\ no_fallback a = false /\
           (status r = Status.timeout \/ status r = Status.service_overloaded) /\
           consecutive_api_errors st1 = (c + 1)%Z /\
           tool_calls st1 = tool_calls st0 /\
           exists id more, cands = id :: more /\ writable (Some id) = false)) /\
    ((0 <= c < 2)%Z -> o1 = Done tt -> (0 <= consecutive_api_errors st1 < 2)%Z) /\
    (status r = Status.error
     \/ ((status r = Status.timeout \/ status r = Status.service_overloaded)
         /\ no_fallback a = true) ->
     consecutive_api_errors st1 = (c + 1)%Z /\
     ((2 <= c + 1)%Z -> o1 = Exit 1) /\ ((c + 1 < 2)%Z -> o1 = Done tt)).
Proof.
  intros Hrs Hbn c cands.
  assert (results st0 <> []) as Hne by (rewrite Hrs; by destruct rs).
  assert (removelast (results st0) = rs) as Hrm by (rewrite Hrs; apply removelast_last).
  (* the two branches that may call the fallback *)
  assert (status r = Status.timeout \/ status r = Status.service_overloaded ->
          handle_result tool a bn r st0 = fallback_or_break tool a bn st0) as Hfob.
  { unfold handle_result. intros [-> | ->]; reflexivity. }
  match goal with
  | |- ?G =>
      assert (status r = Status.timeout \/ status r = Status.service_overloaded -> G)
        as Hfallback
  end.
  { intros Hs. rewrite (Hfob Hs).
    destruct (fallback_or_break_cases a bn st0 Hne)
      as (o1 & st1 & Hrun & Hdir & Hcases).
    cbv zeta in Hcases. fold c cands in Hcases.
    destruct Hcases
      as [(tried & Htried & Hc & Hres & Hm & Hcalls & Hends)
         |[(k & id & Hnf & -> & Hk & Hadk & Hbefore & Hc & Hm & Hres & Hcalls & Htr)
          |(e & id & more & Hnf & -> & Hcands & Hrefused & Hc & Hres & Hm & Hcalls
            & Htr)]].
    - assert (length tried <= length cands)%nat as Hlen
        by (destruct Htried as [[_ ->] | (_ & -> & _)]; cbn; lia).
      assert (no_fallback a = true -> tried = []) as Hnone
        by (intros Hnf; destruct Htried as [[_ ->] | (Hnf' & _)]; [done | congruence]).
      destruct Hends as [(-> & Hlt & Htr) | (-> & Hge & Htr)].
      + exists (Done tt), st1, r, (attempts bn (timeout a) tried).
        split; [exact Hrun|]. split; [by rewrite Hres|]. split; [exact Hbn|].
        split; [exact Htr|]. split; [apply attempts_no_sleep|]. split; [runs_here|].
        split; [exact Hdir|].
        split; [lia|]. split.
        { intros [Hnf | [Hn1 Hn2]]; [|destruct Hs; contradiction].
          rewrite Hcalls, (Hnone Hnf). cbn. split; [lia | done]. }
        split; [left; done|]. split; [left; done|]. split; [intros; lia|].
        intros _. split; [exact Hc|]. split; [intros; lia | done].
      + exists (Exit 1), st1, r,
               (attempts bn (timeout a) tried
                ++ [WritePartialSummary (results st0); PrintResumeHint bn (config a)]).
        split; [exact Hrun|]. split; [by rewrite Hres|]. split; [exact Hbn|].
        split; [exact Htr|].
        split; [apply Forall_app; split; [apply attempts_no_sleep | repeat constructor]|].
        split; [runs_here|].
        split; [exact Hdir|]. split; [lia|]. split.
        { intros [Hnf | [Hn1 Hn2]]; [|destruct Hs; contradiction].
          rewrite Hcalls, (Hnone Hnf). cbn. split; [lia | done]. }
        split; [left; done|]. split.
        { right. left. split; [done|]. split; [|right; exact Hge].
          exists (attempts bn (timeout a) tried). by rewrite Hres. }
        split; [intros _ Hd; discriminate|].
        intros _. split; [exact Hc|]. split; [done | intros; lia].
    - exists (Done tt), st1, (report bn (tool (tool_calls st0 + k))),
             (attempts bn (timeout a) (take (S k) cands)).
      split; [exact Hrun|]. split; [by rewrite Hres, Hrm|].
      split; [apply report_batch_num|]. split; [exact Htr|].
      split; [apply attempts_no_sleep|]. split; [runs_here|]. split; [exact Hdir|].
      apply lookup_lt_Some in Hk as Hklt.
      split; [lia|]. split.
      { intros [Hnf' | [Hn1 Hn2]]; [congruence | destruct Hs; contradiction]. }
      split.
      { right. exists id. split; [by apply list_elem_of_lookup_2 in Hk|]. done. }
      split; [left; done|]. split; [intros; lia|].
      intros [Herr | [_ Hnf']]; [destruct Hs; congruence | congruence].
    - exists (Crash e), st1, r, [].
      split; [exact Hrun|]. split; [by rewrite Hres|]. split; [exact Hbn|].
      split; [by rewrite app_nil_r|]. split; [constructor|]. split; [runs_here|].
      split; [exact Hdir|]. split; [lia|]. split.
      { intros [Hnf' | [Hn1 Hn2]]; [congruence | destruct Hs; contradiction]. }
      split; [left; done|]. split.
      { right. right. exists e. do 6 (split; [done|]). by exists id, more. }
      split; [intros _ Hd; discriminate|].
      intros [Herr | [_ Hnf']]; [destruct Hs; congruence | congruence]. }
  destruct (status r) eqn:Hs;
    try (apply Hfallback; auto; fail).
  - (* success *)
    exists (Done tt), (with_counter 0 st0), r, [].
    unfold handle_result. rewrite Hs.
    split; [reflexivity|]. split; [exact Hrs|]. split; [exact Hbn|].
    split; [cbn; by rewrite app_nil_r|]. split; [constructor|]. split; [runs_here|].
    split; [done|].
    split; [cbn; lia|]. split; [done|]. split; [left; done|]. split; [left; done|].
    split; [intros; cbn; lia|].
    intros [Herr | [[Ht|Ht] _]]; discriminate.
  - (* failed *)
    exists (Done tt), st0, r, [].
    unfold handle_result. rewrite Hs.
    split; [reflexivity|]. split; [exact Hrs|]. split; [exact Hbn|].
    split; [by rewrite app_nil_r|]. split; [constructor|]. split; [runs_here|].
    split; [done|].
    split; [lia|]. split; [done|]. split; [left; done|]. split; [left; done|].
    split; [intros; done|].
    intros [Herr | [[Ht|Ht] _]]; discriminate.
  - (* rate_limited *)
    eexists (Exit 1), _, r, [_; _; _].
    unfold handle_result. rewrite Hs.
    split; [reflexivity|]. split; [exact Hrs|]. split; [exact Hbn|].
    split; [cbn; by rewrite <- !app_assoc|]. split; [repeat constructor|].
    split; [runs_here|]. split; [done|].
    split; [cbn; lia|]. split; [done|]. split; [left; done|]. split.
    { right. left. split; [done|]. split; [|left; done]. by eexists [_]. }
    split; [intros _ Hd; discriminate|].
    intros [Herr | [[Ht|Ht] _]]; discriminate.
  - (* error *)
    unfold handle_result. rewrite Hs.
    assert ((increment_errors ≫= λ _, circuit_breaker a bn) st0 =
            circuit_breaker a bn (with_counter (c + 1) st0)) as -> by reflexivity.
    rewrite circuit_breaker_eq.
    change (consecutive_api_errors (with_counter (c + 1) st0)) with (c + 1)%Z.
    destruct (Z.leb_spec 2 (c + 1)) as [Hge|Hlt].
    + eexists (Exit 1), _, r, [_; _].
      split; [reflexivity|]. split; [exact Hrs|]. split; [exact Hbn|].
      split; [cbn; by rewrite <- !app_assoc|]. split; [repeat constructor|].
      split; [runs_here|].
      split; [done|]. split; [cbn; lia|]. split; [done|]. split; [left; done|]. split.
      { right. left. split; [done|]. split; [|right; exact Hge]. by exists []. }
      split; [intros _ Hd; discriminate|].
      intros _. split; [done|]. split; [done | intros; lia].
    + eexists (Done tt), _, r, [].
      split; [reflexivity|]. split; [exact Hrs|]. split; [exact Hbn|].
      split; [cbn; by rewrite app_nil_r|]. split; [constructor|]. split; [runs_here|].
      split; [done|]. split; [cbn; lia|]. split; [done|]. split; [left; done|].
      split; [left; done|]. split; [intros; cbn; lia|].
      intros _. split; [done|]. split; [intros; lia | done].
Qed.

(** Every way one iteration of the loop can end once the configuration of
    the batch is written. *)
Lemma process_batch_summary {A} (a : args) (batches : list (list A))
    (end_idx i : Z) (st : run_state) (batch : list A) :
  Py.index batches i = Ok batch ->
  writable (current_model st) = true ->
  let r := report (i + 1) (tool (tool_calls st)) in
  let c := consecutive_api_errors st in
  let cands := candidates (current_model st) in
  let cools := (i <? end_idx - 1)%Z
               && (Status.eqb (status r) Status.success
                   || Status.eqb (status r) Status.failed) in
  exists o st' r' evs,
    process_batch tool a batches end_idx i st = (o, st') /\
    results st' = results st ++ [r'] /\
    batch_num r' = (i + 1)%Z /\
    trace st' = trace st
                ++ [CreateBatchFile (i + 1); CreateBatchConfig (i + 1) (current_model st);
                    RunTool (i + 1) (timeout a)] ++ evs /\
    (forall bn', bn' ∈ runs_of evs -> bn' = (i + 1)%Z) /\
    batches_dir st' = true /\
    (S (tool_calls st) <= tool_calls st' <= S (tool_calls st) + length cands)%nat /\
    (no_fallback a = true
     \/ (status r <> Status.timeout /\ status r <> Status.service_overloaded) ->
     tool_calls st' = S (tool_calls st) /\ current_model st' = current_model st /\ r' = r) /\
    ((current_model st' = current_model st /\ r' = r)
     \/ (exists id, id ∈ cands /\ current_model st' = Some id /\ adopted r' = true /\
                    consecutive_api_errors st' = 0%Z /\ no_fallback a = false /\
                    o = Done tt)) /\
    (o = Done tt
     \/ (o = Exit 1 /\
         (exists evs0, evs = evs0 ++ [WritePartialSummary (results st');
                                      PrintResumeHint (i + 1) (config a)]) /\
         (status r = Status.rate_limited \/ (2 <= c + 1)%Z))
     \/ (o = Crash ValueError /\ cools = true /\ (delay a < 0)%Z /\ evs = [])
     \/ (exists e, o = Crash e /\ evs = [] /\ no_fallback a = false /\
           (status r = Status.timeout \/ status r = Status.service_overloaded) /\
           consecutive_api_errors st' = (c + 1)%Z /\
           tool_calls st' = S (tool_calls st) /\
           exists id more, cands = id :: more /\ writable (Some id) = false)) /\
    ((0 <= c < 2)%Z -> o = Done tt -> (0 <= consecutive_api_errors st' < 2)%Z) /\
    (status r = Status.error
     \/ ((status r = Status.timeout \/ status r = Status.service_overloaded)
         /\ no_fallback a = true) ->
     consecutive_api_errors st' = (c + 1)%Z /\
     ((2 <= c + 1)%Z -> o = Exit 1) /\ ((c + 1 < 2)%Z -> o = Done tt)).
Proof.
  intros Hidx Hw r c cands cools.
  rewrite (process_batch_eq tool a batches end_idx i st batch Hidx Hw). cbv zeta. fold r.
  set (st0 := after_first_run a i r st).
  assert (trace st0 = trace st ++ [CreateBatchFile (i + 1);
                                   CreateBatchConfig (i + 1) (current_model st);
                                   RunTool (i + 1) (timeout a)]) as Htr0
    by (cbn; by rewrite <- !app_assoc).
  destruct (handle_result_summary a (i + 1) r (results st) st0 eq_refl
              (report_batch_num _ _))
    as (o1 & st1 & r' & evs & Hh & Hres & Hbn & Htr & Hns & Hruns & Hdir & Hcalls & Hsame
        & Hmodel & Hend & Hinv & Hbrk).
  change (tool_calls st0) with (S (tool_calls st)) in Hcalls, Hsame, Hend.
  change (current_model st0) with (current_model st) in Hcalls, Hsame, Hmodel, Hend.
  change (consecutive_api_errors st0) with c in Hend, Hinv, Hbrk.
  fold cands in Hcalls, Hmodel, Hend.
  specialize (Hdir eq_refl). rewrite Htr0, <- app_assoc in Htr.
  rewrite bind_eq, Hh.
  destruct Hend as [-> | [(-> & Hevs & Hwhy) | (e & -> & -> & Hcrash)]].
  - rewrite cooling_delay_eq. fold cools.
    destruct cools eqn:Hcools.
    + destruct (Z.ltb_spec (delay a) 0) as [Hneg|Hpos].
      * (* the cooldown raises *)
        assert (adopted r = true) as Hok.
        { unfold cools in Hcools. apply andb_prop in Hcools as [_ Hst].
          unfold adopted. destruct (status r); done. }
        assert (status r <> Status.timeout /\ status r <> Status.service_overloaded)
          as Hnot by (unfold adopted in Hok; destruct (status r); done).
        destruct (Hsame (or_intror Hnot)) as (Hc1 & Hm1 & ->).
        assert (evs = []) as ->.
        { unfold handle_result in Hh. unfold adopted in Hok.
          destruct (status r); try discriminate;
            injection Hh as <-; cbn [trace with_counter] in Htr; rewrite Htr0 in Htr;
            apply app_inv_head in Htr; cbn in Htr; by injection Htr. }
        exists (Crash ValueError), st1, r, [].
        split; [done|]. split; [done|]. split; [done|]. split; [done|].
        split; [done|]. split; [done|]. split; [lia|]. split; [done|].
        split; [left; done|]. split; [right; right; left; done|].
        split; [intros _ Hd; discriminate|].
        intros [Herr | [[Ht|Ht] _]]; destruct Hnot; unfold adopted in Hok;
          try rewrite Herr in Hok; try contradiction; discriminate.
      * exists (Done tt), (with_event (Sleep (delay a)) st1), r', (evs ++ [Sleep (delay a)]).
        split; [done|]. split; [done|]. split; [done|].
        split; [cbn; rewrite Htr; by rewrite <- !app_assoc|].
        split.
        { intros bn' Hin. rewrite runs_of_app in Hin. cbn in Hin.
          rewrite app_nil_r in Hin. by apply Hruns. }
        split; [done|]. split; [done|]. split; [done|].
        split; [destruct Hmodel as [Hm|(id & Hm)]; [left; done | right; exists id; done]|].
        split; [left; done|]. split; [intros; by apply Hinv|].
        intros Hpre. destruct (Hbrk Hpre) as (Hc' & Hge & Hlt). done.
    + exists (Done tt), st1, r', evs.
      split; [done|]. split; [done|]. split; [done|]. split; [done|].
      split; [done|]. split; [done|]. split; [done|]. split; [done|]. split; [done|].
      split; [left; done|]. split; [done|]. done.
  - exists (Exit 1), st1, r', evs.
    split; [done|]. split; [done|]. split; [done|]. split; [done|].
    split; [done|]. split; [done|]. split; [done|]. split; [done|]. split; [done|].
    split; [right; left; done|]. split; [done|]. done.
  - exists (Crash e), st1, r', [].
    split; [done|]. split; [done|]. split; [done|]. split; [done|].
    split; [done|]. split; [done|]. split; [done|]. split; [done|]. split; [done|].
    split; [right; right; right; exists e; done|]. split; [done|]. done.
Qed.

Lemma candidates_length (current : option string) :
  (length (candidates current) <= length FALLBACK_MODELS)%nat.
Proof.
  unfold candidates. etransitivity; [apply length_filter|]. by rewrite length_map.
Qed.

Lemma index_raises_index_error {A} (l : list A) (i : Z) (e : exn) :
  Py.index l i = Raise e -> e = IndexError.
Proof.
  unfold Py.index. destruct (_ && _); [|by intros [= <-]].
  destruct (l !! _); [discriminate | by intros [= <-]].
Qed.

(** Every way the loop over a list of indices can end. *)
Lemma for_each_summary {A} (a : args) (batches : list (list A)) (end_idx : Z)
    (idxs : list Z) (st : run_state) :
  exists o st' rs' evs,
    for_each idxs (process_batch tool a batches end_idx) st = (o, st') /\
    results st' = results st ++ rs' /\
    map batch_num rs' = map (fun i => (i + 1)%Z) (take (length rs') idxs) /\
    (length rs' <= length idxs)%nat /\
    (o = Done tt -> length rs' = length idxs) /\
    trace st' = trace st ++ evs /\
    (forall bn, bn ∈ runs_of evs <-> bn ∈ map batch_num rs') /\
    (tool_calls st + length rs' <= tool_calls st'
     <= tool_calls st + length rs' * S (length FALLBACK_MODELS))%nat /\
    (no_fallback a = true ->
     tool_calls st' = (tool_calls st + length rs')%nat /\
     current_model st' = current_model st) /\
    ((0 <= consecutive_api_errors st < 2)%Z -> o = Done tt ->
     (0 <= consecutive_api_errors st' < 2)%Z) /\
    (forall code, o = Exit code ->
       code = 1%Z /\
       exists rs0 r i evs0,
         rs' = rs0 ++ [r] /\ idxs !! length rs0 = Some i /\ batch_num r = (i + 1)%Z /\
         evs = evs0 ++ [WritePartialSummary (results st');
                        PrintResumeHint (i + 1) (config a)]).
Proof.
  revert st. induction idxs as [|i idxs IH]; intros st.
  - exists (Done tt), st, [], []. cbn.
    split; [done|]. split; [by rewrite app_nil_r|]. split; [done|]. split; [lia|].
    split; [done|]. split; [by rewrite app_nil_r|]. split; [done|]. split; [lia|].
    split; [intros; split; [lia | done]|]. split; [done|].
    intros code Hc; discriminate.
  - cbn [for_each]. rewrite bind_eq.
    destruct (Py.index batches i) as [batch|e] eqn:Hidx.
    2:{ rewrite (process_batch_bad_index tool a batches end_idx i st e Hidx).
        exists (Crash e), st, [], []. cbn.
        split; [done|]. split; [by rewrite app_nil_r|]. split; [done|]. split; [lia|].
        split; [intros Hd; discriminate|]. split; [by rewrite app_nil_r|].
        split; [done|]. split; [lia|].
        split; [intros; split; [lia | done]|]. split; [intros _ Hd; discriminate|].
        intros code Hc; discriminate. }
    destruct (writable (current_model st)) eqn:Hw.
    2:{ destruct (process_batch_unwritable tool a batches end_idx i st batch Hidx Hw)
          as [e He].
        rewrite He.
        exists (Crash e), (with_dir (with_event (CreateBatchFile (i + 1)) st)), [],
               [CreateBatchFile (i + 1)]. cbn.
        split; [done|]. split; [by rewrite app_nil_r|]. split; [done|]. split; [lia|].
        split; [intros Hd; discriminate|]. split; [done|].
        split; [done|]. split; [lia|].
        split; [intros; split; [lia | done]|]. split; [intros _ Hd; discriminate|].
        intros code Hc; discriminate. }
    destruct (process_batch_summary a batches end_idx i st batch Hidx Hw)
      as (o & st1 & r' & evs & Hrun & Hres & Hbn & Htr & Hruns & _ & Hcalls & Hsame & _
          & Hend & Hinv & _).
    cbv zeta in *. rewrite Hrun.
    pose proof (candidates_length (current_model st)) as Hcl.
    set (first_run := [CreateBatchFile (i + 1);
                       CreateBatchConfig (i + 1) (current_model st);
                       RunTool (i + 1) (timeout a)]) in *.
    assert (forall bn more,
               bn ∈ runs_of (first_run ++ evs ++ more)
               <-> bn = (i + 1)%Z \/ bn ∈ runs_of more) as Hfirst.
    { intros bn more. rewrite !runs_of_app. cbn [runs_of first_run flat_map app].
      rewrite elem_of_cons, elem_of_app. split.
      - intros [->|[Hin|Hin]]; [by left | left; by apply Hruns | by right].
      - intros [->|Hin]; [by left | right; by right]. }
    assert (forall bn, bn ∈ runs_of (first_run ++ evs) <-> bn ∈ map batch_num [r'])
      as Honly.
    { intros bn. rewrite <- (app_nil_r evs), Hfirst. cbn. rewrite Hbn, elem_of_cons.
      split; [intros [->|Hin]; [by left | by apply elem_of_nil in Hin] | intros [->|Hin];
              [by left | by apply elem_of_nil in Hin]]. }
    destruct Hend as [-> | [(-> & (evs0 & Hevs) & _) | [(-> & _) | (e & -> & _)]]].
    + destruct (IH st1)
        as (o & st' & rs' & evs' & Hrun' & Hres' & Hbn' & Hlen' & Hdone' & Htr' & Hruns'
            & Hcalls' & Hsame' & Hinv' & Hexit').
      exists o, st', (r' :: rs'), (first_run ++ evs ++ evs').
      split; [exact Hrun'|].
      split; [rewrite Hres', Hres, <- app_assoc; done|].
      split; [cbn; by rewrite Hbn, Hbn'|]. split; [cbn; lia|].
      split; [intros Hd; cbn; by rewrite (Hdone' Hd)|].
      split; [rewrite Htr', Htr; by rewrite <- !app_assoc|].
      split.
      { intros bn. rewrite Hfirst. cbn [map]. rewrite elem_of_cons, Hbn, Hruns'. done. }
      split; [cbn [length]; lia|].
      split.
      { intros Hnf. destruct (Hsame (or_introl Hnf)) as (Hc1 & Hm1 & _).
        destruct (Hsame' Hnf) as (Hc2 & Hm2). cbn [length]. split; [lia | congruence]. }
      split; [intros Hc Hd; apply Hinv'; [by apply Hinv | done]|].
      intros code Hcode.
      destruct (Hexit' code Hcode) as (-> & rs0 & r & j & evs0 & -> & Hj & Hbnr & ->).
      split; [done|]. exists (r' :: rs0), r, j, ((first_run ++ evs) ++ evs0).
      split; [done|]. split; [exact Hj|]. split; [exact Hbnr|].
      by rewrite <- !app_assoc.
    + exists (Exit 1), st1, [r'], (first_run ++ evs).
      split; [done|]. split; [done|]. split; [cbn; by rewrite Hbn|]. split; [cbn; lia|].
      split; [intros Hd; discriminate|]. split; [done|]. split; [exact Honly|].
      split; [cbn [length]; lia|].
      split; [intros Hnf; destruct (Hsame (or_introl Hnf)) as (Hc1 & Hm1 & _);
              cbn [length]; split; [lia | done]|].
      split; [intros _ Hd; discriminate|].
      intros code [= <-]. split; [done|].
      exists [], r', i, (first_run ++ evs0).
      split; [done|]. split; [done|]. split; [exact Hbn|].
      rewrite Hevs. by rewrite <- !app_assoc.
    + exists (Crash ValueError), st1, [r'], (first_run ++ evs).
      split; [done|]. split; [done|]. split; [cbn; by rewrite Hbn|]. split; [cbn; lia|].
      split; [intros Hd; discriminate|]. split; [done|]. split; [exact Honly|].
      split; [cbn [length]; lia|].
      split; [intros Hnf; destruct (Hsame (or_introl Hnf)) as (Hc1 & Hm1 & _);
              cbn [length]; split; [lia | done]|].
      split; [intros _ Hd; discriminate|]. intros code Hc; discriminate.
    + exists (Crash e), st1, [r'], (first_run ++ evs).
      split; [done|]. split; [done|]. split; [cbn; by rewrite Hbn|]. split; [cbn; lia|].
      split; [intros Hd; discriminate|]. split; [done|]. split; [exact Honly|].
      split; [cbn [length]; lia|].
      split; [intros Hnf; destruct (Hsame (or_introl Hnf)) as (Hc1 & Hm1 & _);
              cbn [length]; split; [lia | done]|].
      split; [intros _ Hd; discriminate|]. intros code Hc; discriminate.
Qed.

End WithTool.
End ControllerFacts.

(** ** Properties of the controller loop *)

Module ControllerProperties.
Import Classifier Supervisor Orchestrator Notions Examples OrchestratorFacts ControllerFacts.

Section WithTool.
Context `{PyRepr} {D : Disk} (tool : nat -> tool_run).

(** X1: the loop records exactly one outcome per batch it runs, in order,
    each under its batch number i + 1 (also when a fallback candidate's
    outcome took the place of the first one, and for the batch that halts
    the run): however the loop ends, the recorded outcomes are those of
    the first indices of the range, in order, and the batch numbers the
    tool was invoked for are exactly the batch numbers recorded.  When the
    loop ends normally there is one outcome per index; when it ends by
    [sys.exit] at least one is recorded. *)
Theorem loop_records_one_outcome_per_batch {A} (a : args) (batches : list (list A))
    (end_idx : Z) (idxs : list Z) (st : run_state) :
  exists o st' rs' evs,
    for_each idxs (process_batch tool a batches end_idx) st = (o, st') /\
    results st' = results st ++ rs' /\
    trace st' = trace st ++ evs /\
    map batch_num rs' = map (fun i => (i + 1)%Z) (take (length rs') idxs) /\
    (forall bn, bn ∈ runs_of evs <-> bn ∈ map batch_num rs') /\
    (length rs' <= length idxs)%nat /\
    (o = Done tt -> length rs' = length idxs) /\
    (forall code, o = Exit code -> rs' <> []).
Proof.
  destruct (for_each_summary tool a batches end_idx idxs st)
    as (o & st' & rs' & evs & Hrun & Hres & Hbn & Hlen & Hdone & Htr & Hruns & _ & _ & _
        & Hexit).
  exists o, st', rs', evs. do 7 (split; [done|]).
  intros code Hcode. destruct (Hexit code Hcode) as (_ & rs0 & r & _ & _ & -> & _).
  by destruct rs0.
Qed.

(** X2: whenever the loop stops by [sys.exit], the exit code is 1 and the
    last two things done are writing the partial summary, which holds every
    outcome recorded so far including the halting batch's, and printing the
    resume hint for the halting batch: the batch of the last recorded
    outcome, which is the batch of the index the loop had come to. *)
Theorem halt_saves_partial_summary {A} (a : args) (batches : list (list A))
    (end_idx : Z) (idxs : list Z) (st st' : run_state) (code : Z) :
  for_each idxs (process_batch tool a batches end_idx) st = (Exit code, st') ->
  code = 1%Z /\
  exists rs0 r i evs0,
    results st' = results st ++ rs0 ++ [r] /\
    idxs !! length rs0 = Some i /\
    batch_num r = (i + 1)%Z /\
    trace st' = trace st ++ evs0 ++ [WritePartialSummary (results st');
                                     PrintResumeHint (i + 1) (config a)].
Proof.
  intros Hrun.
  destruct (for_each_summary tool a batches end_idx idxs st)
    as (o & st1 & rs' & evs & Hrun' & Hres & _ & _ & _ & Htr & _ & _ & _ & _ & Hexit).
  rewrite Hrun in Hrun'. injection Hrun' as <- <-.
  destruct (Hexit code eq_refl) as (-> & rs0 & r & i & evs0 & -> & Hi & Hbn & ->).
  split; [done|]. exists rs0, r, i, evs0. done.
Qed.

(** X3: the circuit breaker.  From a counter of 0, two consecutive batches
    whose failures get no fallback (error outcomes, or timeouts and
    overloads with fallback disabled) halt the run after the second: the
    tool has been invoked exactly twice, both outcomes are recorded, and no
    further batch is started.  The batches are ones that are run: their
    configuration gets written. *)
Theorem breaker_halts_on_second_failure {A} (a : args) (batches : list (list A))
    (end_idx i j : Z) (rest : list Z) (st : run_state) (bi bj : list A) :
  Py.index batches i = Ok bi ->
  Py.index batches j = Ok bj ->
  writable (current_model st) = true ->
  consecutive_api_errors st = 0%Z ->
  unresolved a (report (i + 1) (tool (tool_calls st))) ->
  unresolved a (report (j + 1) (tool (S (tool_calls st)))) ->
  exists st',
    for_each (i :: j :: rest) (process_batch tool a batches end_idx) st = (Exit 1, st') /\
    tool_calls st' = S (S (tool_calls st)) /\
    results st' = results st ++ [report (i + 1) (tool (tool_calls st));
                                 report (j + 1) (tool (S (tool_calls st)))] /\
    consecutive_api_errors st' = 2%Z.
Proof.
  intros Hi Hj Hw Hc Hui Huj.
  assert (forall r, unresolved a r ->
            no_fallback a = true
            \/ (status r <> Status.timeout /\ status r <> Status.service_overloaded))
    as Hside.
  { intros r [Herr | [_ Hnf]]; [right; rewrite Herr; split; discriminate | by left]. }
  destruct (process_batch_summary tool a batches end_idx i st bi Hi Hw)
    as (o1 & st1 & r1 & evs1 & Hrun1 & Hres1 & _ & _ & _ & _ & _ & Hsame1 & _ & _ & _
        & Hbrk1).
  cbv zeta in *.
  destruct (Hsame1 (Hside _ Hui)) as (Hcalls1 & Hm1 & ->).
  destruct (Hbrk1 Hui) as (Hc1 & _ & Hdone1). rewrite Hc in Hc1, Hdone1.
  specialize (Hdone1 ltac:(lia)). subst o1.
  assert (writable (current_model st1) = true) as Hw1 by (by rewrite Hm1).
  destruct (process_batch_summary tool a batches end_idx j st1 bj Hj Hw1)
    as (o2 & st2 & r2 & evs2 & Hrun2 & Hres2 & _ & _ & _ & _ & _ & Hsame2 & _ & _ & _
        & Hbrk2).
  cbv zeta in *. rewrite Hcalls1 in Hsame2, Hbrk2.
  destruct (Hsame2 (Hside _ Huj)) as (Hcalls2 & _ & ->).
  destruct (Hbrk2 Huj) as (Hc2 & Hexit2 & _). rewrite Hc1 in Hc2, Hexit2.
  specialize (Hexit2 ltac:(lia)). subst o2.
  exists st2. split.
  - cbn [for_each]. rewrite bind_eq, Hrun1, bind_eq, Hrun2. reflexivity.
  - split; [done|]. split; [|rewrite Hc2; lia].
    rewrite Hres2, Hres1, <- app_assoc. reflexivity.
Qed.

(** X4: one batch costs at most one tool invocation plus one per roster
    entry; with fallback disabled, or when the first run does not end in a
    timeout or overload, it costs exactly one.  The batch is one that is
    run: its configuration gets written. *)
Theorem tool_invocations_per_batch {A} (a : args) (batches : list (list A))
    (end_idx i : Z) (st : run_state) (batch : list A) :
  Py.index batches i = Ok batch ->
  writable (current_model st) = true ->
  exists o st',
    process_batch tool a batches end_idx i st = (o, st') /\
    (S (tool_calls st) <= tool_calls st'
     <= tool_calls st + 1 + length FALLBACK_MODELS)%nat /\
    (no_fallback a = true
     \/ (status (report (i + 1) (tool (tool_calls st))) <> Status.timeout /\
         status (report (i + 1) (tool (tool_calls st))) <> Status.service_overloaded) ->
     tool_calls st' = S (tool_calls st)).
Proof.
  intros Hidx Hw.
  destruct (process_batch_summary tool a batches end_idx i st batch Hidx Hw)
    as (o & st' & r' & evs & Hrun & _ & _ & _ & _ & _ & Hcalls & Hsame & _).
  cbv zeta in *. pose proof (candidates_length (current_model st)).
  exists o, st'. split; [done|]. split; [lia|].
  intros Hpre. by destruct (Hsame Hpre).
Qed.

(** X5: the current model changes only by adoption: after a batch it is
    either what it was, or an id of the roster other than the previous
    model, and then fallback is enabled, the first run was a timeout or an
    overload, the recorded outcome of the batch is success or failed and the
    counter is 0.  The batch is one that is run: its configuration gets
    written. *)
Theorem model_changes_only_by_adoption {A} (a : args) (batches : list (list A))
    (end_idx i : Z) (st : run_state) (batch : list A) :
  Py.index batches i = Ok batch ->
  writable (current_model st) = true ->
  exists o st' r',
    process_batch tool a batches end_idx i st = (o, st') /\
    results st' = results st ++ [r'] /\
    (current_model st' = current_model st
     \/ (exists id,
            id ∈ map fst FALLBACK_MODELS /\ Some id <> current_model st /\
            current_model st' = Some id /\
            no_fallback a = false /\
            (status (report (i + 1) (tool (tool_calls st))) = Status.timeout \/
             status (report (i + 1) (tool (tool_calls st))) = Status.service_overloaded) /\
            adopted r' = true /\ consecutive_api_errors st' = 0%Z /\ o = Done tt)).
Proof.
  intros Hidx Hw.
  destruct (process_batch_summary tool a batches end_idx i st batch Hidx Hw)
    as (o & st' & r' & evs & Hrun & Hres & _ & _ & _ & _ & _ & Hsame & Hmodel & _).
  cbv zeta in *. exists o, st', r'. split; [done|]. split; [done|].
  destruct Hmodel as [[Hm _] | (id & Hin & Hm & Had & Hc & Hnf & Hd)]; [by left|].
  right. exists id. apply list_elem_of_filter in Hin as [Hne Hin].
  split; [done|]. split; [done|]. split; [done|]. split; [done|]. split; [|done].
  set (s0 := status (report (i + 1) (tool (tool_calls st)))) in *.
  assert (s0 = Status.timeout \/ s0 = Status.service_overloaded
          \/ (s0 <> Status.timeout /\ s0 <> Status.service_overloaded))
    as [Ht | [Ho | Hn]]
    by (destruct s0; first [by left | by right; left | right; right; split; discriminate]).
  - by left.
  - by right.
  - exfalso. destruct (Hsame (or_intror Hn)) as (_ & Hm' & _).
    rewrite Hm' in Hm. by apply Hne.
Qed.

(** X6: with fallback disabled the loop invokes the tool exactly once per
    recorded batch and never changes the current model. *)
Theorem no_fallback_one_run_per_batch {A} (a : args) (batches : list (list A))
    (end_idx : Z) (idxs : list Z) (st : run_state) :
  no_fallback a = true ->
  exists o st' rs',
    for_each idxs (process_batch tool a batches end_idx) st = (o, st') /\
    results st' = results st ++ rs' /\
    tool_calls st' = (tool_calls st + length rs')%nat /\
    current_model st' = current_model st.
Proof.
  intros Hnf.
  destruct (for_each_summary tool a batches end_idx idxs st)
    as (o & st' & rs' & evs & Hrun & Hres & _ & _ & _ & _ & _ & _ & Hsame & _).
  destruct (Hsame Hnf) as [Hcalls Hm]. exists o, st', rs'. done.
Qed.

(** X7: the failure counter never reaches the threshold while the loop
    runs: if it is 0 or 1 before the loop and the loop ends normally, it is
    0 or 1 after. *)
Theorem counter_stays_below_threshold {A} (a : args) (batches : list (list A))
    (end_idx : Z) (idxs : list Z) (st st' : run_state) :
  (0 <= consecutive_api_errors st < MAX_CONSECUTIVE_FAILURES)%Z ->
  for_each idxs (process_batch tool a batches end_idx) st = (Done tt, st') ->
  (0 <= consecutive_api_errors st' < MAX_CONSECUTIVE_FAILURES)%Z.
Proof.
  intros Hc Hrun. change MAX_CONSECUTIVE_FAILURES with 2%Z in *.
  destruct (for_each_summary tool a batches end_idx idxs st)
    as (o & st1 & rs' & evs & Hrun' & _ & _ & _ & _ & _ & _ & _ & _ & Hinv & _).
  rewrite Hrun in Hrun'. injection Hrun' as <- <-. by apply Hinv.
Qed.

End WithTool.
End ControllerProperties.

Module ControllerExamples.
Import Classifier Supervisor Orchestrator Notions Examples ControllerProperties.

(** Unless another disk is named, the runs are on [usual_disk]. *)
#[local] Existing Instance usual_disk.

Lemma halt_saves_partial_summary_witness :
  exists rs0 r i evs0,
    results state_after_rate_limit = [] ++ rs0 ++ [r] /\
    [0; 1]%Z !! length rs0 = Some i /\
    batch_num r = (i + 1)%Z /\
    trace state_after_rate_limit
    = [] ++ evs0 ++ [WritePartialSummary (results state_after_rate_limit);
                     PrintResumeHint (i + 1) (config default_args)].
Proof.
  exact (proj2 (halt_saves_partial_summary (H:=plain_repr) (D:=usual_disk)
                  rate_limited_first default_args
                  [[1; 2]; [3]]%nat 2 [0; 1]%Z (initial_state default_args false)
                  state_after_rate_limit 1 eq_refl)).
Defined.

Lemma breaker_halts_on_second_failure_witness :
  exists st',
    for_each [0; 1; 2]%Z
      (process_batch (H:=plain_repr) always_timeout no_fallback_args
         [[1; 2]; [3; 4]; [5]]%nat 3)
      (initial_state no_fallback_args false) = (Exit 1, st') /\
    tool_calls st' = 2%nat.
Proof.
  destruct (breaker_halts_on_second_failure (H:=plain_repr) (D:=usual_disk)
              always_timeout no_fallback_args
              [[1; 2]; [3; 4]; [5]]%nat 3 0 1 [2%Z] (initial_state no_fallback_args false)
              [1; 2]%nat [3; 4]%nat eq_refl eq_refl eq_refl eq_refl
              (or_intror (conj (or_introl eq_refl) eq_refl))
              (or_intror (conj (or_introl eq_refl) eq_refl)))
    as (st' & Hrun & Hcalls & _).
  exists st'. split; [exact Hrun | exact Hcalls].
Defined.

Lemma tool_invocations_per_batch_witness :
  exists o st',
    process_batch (H:=plain_repr) second_candidate_works default_args
      [[1; 2]; [3]]%nat 2 0 (initial_state default_args false) = (o, st') /\
    (1 <= tool_calls st' <= 4)%nat.
Proof.
  destruct (tool_invocations_per_batch (H:=plain_repr) (D:=usual_disk)
              second_candidate_works default_args
              [[1; 2]; [3]]%nat 2 0 (initial_state default_args false) [1; 2]%nat
              eq_refl eq_refl)
    as (o & st' & Hrun & Hcalls & _).
  exists o, st'. split; [exact Hrun | exact Hcalls].
Defined.

Lemma model_changes_only_by_adoption_witness :
  exists o st' r',
    process_batch (H:=plain_repr) second_candidate_works default_args
      [[1; 2]; [3]]%nat 2 0 (initial_state default_args false) = (o, st') /\
    results st' = [] ++ [r'].
Proof.
  destruct (model_changes_only_by_adoption (H:=plain_repr) (D:=usual_disk)
              second_candidate_works
              default_args [[1; 2]; [3]]%nat 2 0 (initial_state default_args false)
              [1; 2]%nat eq_refl eq_refl)
    as (o & st' & r' & Hrun & Hres & _).
  exists o, st', r'. split; [exact Hrun | exact Hres].
Defined.

Lemma no_fallback_one_run_per_batch_witness :
  exists o st' rs',
    for_each [0; 1]%Z
      (process_batch (H:=plain_repr) timeout_once no_fallback_args [[1; 2]; [3]]%nat 2)
      (initial_state no_fallback_args false) = (o, st') /\
    results st' = [] ++ rs' /\
    tool_calls st' = (0 + length rs')%nat /\
    current_model st' = None.
Proof.
  exact (no_fallback_one_run_per_batch (H:=plain_repr) (D:=usual_disk)
           timeout_once no_fallback_args
           [[1; 2]; [3]]%nat 2 [0; 1]%Z (initial_state no_fallback_args false) eq_refl).
Defined.

Lemma counter_stays_below_threshold_witness :
  (0 <= consecutive_api_errors state_after_clean_loop < MAX_CONSECUTIVE_FAILURES)%Z.
Proof.
  apply (counter_stays_below_threshold (H:=plain_repr) (D:=usual_disk)
           always_clean default_args
           [[1; 2]; [3]]%nat 2 [0; 1]%Z (initial_state default_args false)
           state_after_clean_loop).
  - vm_compute. split; [discriminate | reflexivity].
  - unfold state_after_clean_loop. apply OrchestratorFacts.run_pair. reflexivity.
Defined.

End ControllerExamples.

(** ** Properties of [main] *)

Module MainFacts.
Import Classifier Supervisor Orchestrator Notions OrchestratorFacts ControllerFacts.

Lemma load_and_check_state {A} (a : args) (source : loaded A) (st : run_state) :
  snd (load_and_check a source st) = st.
Proof.
  unfold load_and_check. destruct (truthy_str (tests a)); destruct source as [|[|t ts]];
    reflexivity.
Qed.

Lemma range_up_elem (fuel : nat) (i stop x : Z) :
  (i <= x < stop)%Z -> (stop - i <= Z.of_nat fuel)%Z ->
  x ∈ Py.range_up fuel i stop 1.
Proof.
  revert i. induction fuel as [|fuel IH]; intros i Hx Hfuel; [lia|].
  cbn [Py.range_up]. destruct (Z.ltb_spec i stop); [|lia].
  destruct (Z.eq_dec x i) as [->|Hne]; [apply list_elem_of_here|].
  apply list_elem_of_further. apply IH; lia.
Qed.



Lemma index_out_of_range {A} (l : list A) (i : Z) :
  (Z.of_nat (length l) <= i \/ i < - Z.of_nat (length l))%Z ->
  Py.index l i = Raise IndexError.
Proof.
  intros Hi. unfold Py.index.
  destruct (Z.ltb_spec i 0).
  - destruct (Z.leb_spec 0 (i + Z.of_nat (length l))); [|reflexivity]. lia.
  - destruct (Z.leb_spec 0 i); [|reflexivity].
    destruct (Z.ltb_spec i (Z.of_nat (length l))); [lia | reflexivity].
Qed.

Section WithTool.
Context `{PyRepr} {D : Disk} (tool : nat -> tool_run).

(** A loop that meets an index with no batch does not end normally. *)
Lemma for_each_bad_index {A} (a : args) (batches : list (list A)) (end_idx : Z)
    (idxs : list Z) (i : Z) (st : run_state) :
  i ∈ idxs -> Py.index batches i = Raise IndexError ->
  fst (for_each idxs (process_batch tool a batches end_idx) st) <> Done tt.
Proof.
  intros Hin Hbad. revert st. induction idxs as [|j idxs IH]; intros st;
    [by apply elem_of_nil in Hin|].
  cbn [for_each]. rewrite bind_eq.
  destruct (process_batch tool a batches end_idx j st) as [[[]|code|e] st1] eqn:Hrun;
    [|discriminate|discriminate].
  apply elem_of_cons in Hin as [->|Hin]; [|by apply IH].
  rewrite (process_batch_bad_index tool a batches end_idx j st IndexError Hbad) in Hrun.
  discriminate.
Qed.










End WithTool.
End MainFacts.

Module MainProperties.
Import Classifier Supervisor Orchestrator Notions Examples.
Import OrchestratorFacts ControllerFacts MainFacts.

Section WithTool.
Context `{PyRepr} {D : Disk} (tool : nat -> tool_run).

(** X8: whenever [main] ends normally, the last thing it wrote is the full
    summary of the recorded outcomes, followed by the merge exactly when at
    least one recorded outcome is a success and the [glob] finds a result
    artifact (a run whose batches all ended as failed is never merged, and
    neither is a run that left no artifact where none was before). *)
Theorem summary_written_on_completion {A} (a : args) (source : loaded A)
    (st st' : run_state) :
  main tool a source st = (Done tt, st') ->
  exists evs,
    trace st' = trace st ++ evs
                ++ WriteSummary (results st')
                   :: (if (0 <? count_status Status.success (results st'))%Z
                          && batch_files_found
                       then [MergeBatchResults] else []).
Proof.
  unfold main. rewrite bind_eq.
  pose proof (load_and_check_state a source st) as Hst.
  destruct (load_and_check a source st) as [[ts|c|e] s0]; cbn in Hst; subst s0;
    [|discriminate|discriminate].
  destruct (Splitter.split_into_batches ts (batch_size a)) as [batches|e];
    cbn [lift]; rewrite bind_eq; cbn [mret M_ret crash]; [|discriminate].
  rewrite bind_modify.
  set (st0 := with_model (model a) (with_counter 0 (with_results [] st))).
  set (start_idx := if truthy_int (start a) then _ else _).
  set (end_idx := if truthy_int (end_ a) then _ else _).
  destruct (Py.range start_idx end_idx 1) as [idxs|e];
    cbn [lift]; rewrite bind_eq; cbn [mret M_ret crash]; [|discriminate].
  rewrite bind_eq.
  destruct (for_each_summary tool a batches end_idx idxs st0)
    as (o & st1 & rs' & evs & Hrun & _ & _ & _ & _ & Htr & _).
  rewrite Hrun. destruct o as [[]|c|e]; [|discriminate|discriminate].
  rewrite !bind_eq. cbn [gets]. rewrite bind_eq. cbn [gets].
  destruct (batches_dir st1); rewrite bind_eq; cbn [emit modify crash]; [|discriminate].
  destruct (0 <? count_status Status.success (results st1))%Z eqn:Hcount;
    [destruct batch_files_found eqn:Hfound|];
    intros [= <-]; exists evs; cbn; rewrite Hcount, Htr; cbn;
    rewrite <- !app_assoc; reflexivity.
Qed.

(** X9: an [--end] beyond the number of batches (with the default start)
    makes the loop ask for a batch that does not exist: [main] never ends
    normally, so the final summary is never reached. *)
Theorem end_beyond_batches_never_completes {A} (a : args) (source : loaded A)
    (st : run_state) (ts : list A) (batches : list (list A)) (e : Z) :
  load_and_check a source st = (Done ts, st) ->
  Splitter.split_into_batches ts (batch_size a) = Ok batches ->
  start a = None ->
  end_ a = Some e ->
  (Z.of_nat (length batches) < e)%Z ->
  fst (main tool a source st) <> Done tt.
Proof.
  intros Hload Hsplit Hstart Hend He.
  unfold main. rewrite bind_eq, Hload, Hsplit. cbn [lift]. rewrite bind_eq.
  cbn [mret M_ret]. rewrite bind_modify, Hstart, Hend.
  cbn [truthy_int from_option id].
  destruct (Z.eqb_spec e 0) as [->|_]; [lia|]. cbn [negb].
  unfold Py.range. cbn [Z.eqb Z.ltb Z.compare lift]. rewrite bind_eq. cbn [mret M_ret].
  rewrite bind_eq.
  set (st0 := with_model (model a) (with_counter 0 (with_results [] st))).
  set (idxs := Py.range_up (Z.to_nat (e - 0)) 0 e 1).
  assert (Z.of_nat (length batches) ∈ idxs) as Hin by (apply range_up_elem; lia).
  assert (Py.index batches (Z.of_nat (length batches)) = Raise IndexError) as Hraise
    by (apply index_out_of_range; lia).
  pose proof (for_each_bad_index tool a batches e idxs _ st0 Hin Hraise) as Hbad.
  destruct (for_each idxs (process_batch tool a batches e) st0) as [[[]|c|x] st1];
    cbn in Hbad; [done | cbn; discriminate | cbn; discriminate].
Qed.


(** X11: [--start 0] and [--end 0] count as not given: the run is the same
    as with no [--start] (or [--start 1]) and with no [--end]. *)
Theorem zero_start_and_end_are_ignored {A} (a : args) (source : loaded A)
    (st : run_state) :
  main tool (with_start (Some 0%Z) a) source st = main tool (with_start None a) source st /\
  main tool (with_start (Some 1%Z) a) source st = main tool (with_start None a) source st /\
  main tool (with_end (Some 0%Z) a) source st = main tool (with_end None a) source st.
Proof. repeat split; reflexivity. Qed.


End WithTool.
End MainProperties.

Module MainExamples.
Import Classifier Supervisor Orchestrator Notions Examples MainProperties.

(** Unless another disk is named, the runs are on [usual_disk]. *)
#[local] Existing Instance usual_disk.

Lemma summary_written_on_completion_witness :
  exists evs,
    trace state_after_clean_main
    = [] ++ evs
      ++ WriteSummary (results state_after_clean_main)
         :: (if (0 <? count_status Status.success (results state_after_clean_main))%Z
                && true
             then [MergeBatchResults] else []).
Proof.
  apply (summary_written_on_completion (H:=plain_repr) (D:=usual_disk)
           always_clean default_args
           (Loaded [1; 2; 3]%nat) (initial_state default_args false)
           state_after_clean_main).
  vm_compute. reflexivity.
Defined.

(** When the tool exits with code 0 and leaves no artifact, every outcome
    is a success and nothing is merged: the summary is the last thing
    written. *)
Example clean_run_without_artifacts :
  exists st' evs,
    main (H:=plain_repr) (D:=disk_without_artifacts) (fun _ => Exits 0 1500 FileAbsent)
      default_args (Loaded [1; 2; 3]%nat) (initial_state default_args false)
    = (Done tt, st') /\
    map status (results st') = [Status.success; Status.success] /\
    trace st' = evs ++ [WriteSummary (results st')].
Proof.
  eexists _, [_; _; _; _; _; _; _]. split; [vm_compute; reflexivity|].
  split; reflexivity.
Qed.

Lemma end_beyond_batches_never_completes_witness :
  fst (main (H:=plain_repr) always_clean end_beyond_args (Loaded [1; 2; 3]%nat)
         (initial_state end_beyond_args false)) <> Done tt.
Proof.
  exact (end_beyond_batches_never_completes (H:=plain_repr) (D:=usual_disk)
           always_clean end_beyond_args
           (Loaded [1; 2; 3]%nat) (initial_state end_beyond_args false)
           [1; 2; 3]%nat [[1; 2]; [3]]%nat 5 eq_refl eq_refl eq_refl eq_refl eq_refl).
Defined.



End MainExamples.

(** ** Properties of the classifier and the supervisor *)

Module ClassifierProperties.
Import Classifier Supervisor Notions ClassifierFacts.

Section WithRepr.
Context `{PyRepr}.

Lemma scan_step_text (counts : Z * Z) (result : pyval) :
  scan_step counts result =
  text ← error_text_of result;
  mret (if is_rate_limit text then (fst counts + 1, snd counts)%Z
        else if is_overloaded text then (fst counts, snd counts + 1)%Z
        else counts).
Proof.
  unfold scan_step, error_text_of.
  destruct (py_get result "response" (PyDict [])) as [response|e]; [|reflexivity].
  cbn [mbind pyres_bind].
  destruct (py_get response "error" (PyStr "")) as [err|e]; [|reflexivity].
  cbn [mbind pyres_bind mret pyres_ret].
  destruct (is_rate_limit (py_str err)); [reflexivity|].
  destruct (is_overloaded (py_str err)); reflexivity.
Qed.

Lemma scan_texts (results : list pyval) (texts : list string) (counts : Z * Z) :
  error_texts results = Ok texts ->
  scan results counts =
  Ok (fst counts + count_where is_rate_limit texts,
      snd counts + count_where counts_as_overload texts)%Z.
Proof.
  revert texts counts. unfold count_where, counts_as_overload.
  induction results as [|x results IH]; intros texts [r o]; cbn [error_texts scan].
  - intros [= <-]. cbn. f_equal. f_equal; lia.
  - rewrite scan_step_text.
    destruct (error_text_of x) as [t|e]; [|discriminate]. cbn [mbind pyres_bind].
    destruct (error_texts results) as [ts|e]; [|discriminate].
    cbn [mbind pyres_bind mret pyres_ret]. intros [= <-].
    rewrite (IH ts _ eq_refl). rewrite !filter_cons.
    destruct (is_rate_limit t) eqn:Hr; cbn [fst snd negb andb].
    + rewrite decide_True by done. rewrite decide_False by done.
      cbn [length]. f_equal. f_equal; lia.
    + destruct (is_overloaded t) eqn:Ho; cbn [fst snd].
      * rewrite decide_False by done. rewrite decide_True by done.
        cbn [length]. f_equal. f_equal; lia.
      * rewrite !decide_False by done. reflexivity.
Qed.

Lemma scan_raises (results : list pyval) (x : pyval) (e : exn) (counts : Z * Z) :
  x ∈ results -> error_text_of x = Raise e ->
  exists e', scan results counts = Raise e'.
Proof.
  intros Hin Hx. revert counts.
  induction results as [|y results IH]; intros counts; [by apply elem_of_nil in Hin|].
  cbn [scan]. rewrite scan_step_text.
  destruct (error_text_of y) as [t|e'] eqn:Hy; [|by exists e'].
  cbn [mbind pyres_bind mret pyres_ret].
  apply elem_of_cons in Hin as [->|Hin]; [congruence|]. by apply IH.
Qed.

Lemma scan_bounds (results : list pyval) (counts counts' : Z * Z) :
  scan results counts = Ok counts' ->
  (fst counts <= fst counts' /\ snd counts <= snd counts' /\
   fst counts' + snd counts' <= fst counts + snd counts + Z.of_nat (length results))%Z.
Proof.
  revert counts. induction results as [|x results IH]; intros counts; cbn [scan].
  - intros [= <-]. cbn. lia.
  - rewrite scan_step_text.
    destruct (error_text_of x) as [t|e]; [|discriminate].
    cbn [mbind pyres_bind mret pyres_ret]. intros Hscan.
    apply IH in Hscan. cbn [length]. rewrite Nat2Z.inj_succ.
    destruct (is_rate_limit t); [cbn in Hscan; lia|].
    destruct (is_overloaded t); cbn in Hscan; lia.
Qed.

Lemma check_of_records (data : pyval) (results : list pyval) :
  records_of data = Ok results ->
  check_api_errors_try (FileJson data) =
  counts ← scan results (0, 0)%Z;
  let '(rate_limit_count, service_unavailable_count) := counts in
  if (0 <? rate_limit_count)%Z
  then mret (Some "429_rate_limit", rate_limit_count, 0%Z)
  else if (0 <? service_unavailable_count)%Z
  then mret (Some "503_overloaded", 0%Z, service_unavailable_count)
  else mret (None, 0, 0)%Z.
Proof.
  unfold records_of, check_api_errors_try.
  destruct (py_get data "results" (PyDict [])) as [outer|e]; [|discriminate].
  cbn [mbind pyres_bind].
  destruct (py_get outer "results" (PyList [])) as [inner|e]; [|discriminate].
  cbn [mbind pyres_bind]. intros ->. reflexivity.
Qed.

(** X13: on an artifact in which every record has an error text, the
    answer depends on the texts alone: rate limited, with the number of
    rate-limit texts, if there is one; otherwise overloaded, with the number
    of overload texts, if there is one; otherwise clean.  A text is counted
    at most once, as a rate limit first. *)
Theorem classification_by_texts (data : pyval) (results : list pyval)
    (texts : list string) :
  records_of data = Ok results ->
  error_texts results = Ok texts ->
  check_api_errors (FileJson data) =
  if (0 <? count_where is_rate_limit texts)%Z
  then (Some "429_rate_limit", count_where is_rate_limit texts, 0%Z)
  else if (0 <? count_where counts_as_overload texts)%Z
  then (Some "503_overloaded", 0%Z, count_where counts_as_overload texts)
  else (None, 0, 0)%Z.
Proof.
  intros Hrec Htexts. unfold check_api_errors.
  rewrite (check_of_records data results Hrec), (scan_texts results texts _ Htexts).
  cbn [mbind pyres_bind fst snd]. rewrite !Z.add_0_l.
  destruct (0 <? count_where is_rate_limit texts)%Z; [reflexivity|].
  destruct (0 <? count_where counts_as_overload texts)%Z; reflexivity.
Qed.

(** X14: one record with the wrong shape (not a dict, or with a response
    that is not a dict) makes the whole artifact answer clean, whatever the
    other records say: the exception is caught and every count is dropped. *)
Theorem ill_shaped_record_drops_all_counts (data : pyval) (results : list pyval)
    (x : pyval) (e : exn) :
  records_of data = Ok results ->
  x ∈ results ->
  error_text_of x = Raise e ->
  check_api_errors (FileJson data) = (None, 0, 0)%Z.
Proof.
  intros Hrec Hin Hx. unfold check_api_errors.
  rewrite (check_of_records data results Hrec).
  destruct (scan_raises results x e (0, 0)%Z Hin Hx) as [e' ->]. reflexivity.
Qed.

(** X15: the rate-limit test comes down to two markers: a text is counted
    as rate limited exactly when it contains "429" or "Too Many Requests";
    the test for the phrase "Rate limit" in the lowered text never holds. *)
Theorem rate_limit_test_is_two_markers (text : string) :
  contains "Rate limit" (lower text) = false /\
  is_rate_limit text = contains "429" text || contains "Too Many Requests" text.
Proof.
  split; [apply rate_limit_phrase_dead | apply is_rate_limit_markers].
Qed.

(** X16: the count the classifier reports never exceeds the number of
    per-test records of the artifact, and is positive whenever a kind is
    reported. *)
Theorem reported_count_bounded (data : pyval) (results : list pyval) :
  records_of data = Ok results ->
  exists kind n m,
    check_api_errors (FileJson data) = (kind, n, m) /\
    (0 <= n /\ 0 <= m /\ n + m <= Z.of_nat (length results))%Z /\
    (kind <> None -> (0 < n + m)%Z).
Proof.
  intros Hrec. unfold check_api_errors.
  rewrite (check_of_records data results Hrec).
  destruct (scan results (0, 0)%Z) as [[r o]|e] eqn:Hscan; cbn [mbind pyres_bind].
  - apply scan_bounds in Hscan. cbn in Hscan.
    destruct (Z.ltb_spec 0 r).
    + exists (Some "429_rate_limit"), r, 0%Z. split; [done|]. split; [lia|]. intros; lia.
    + destruct (Z.ltb_spec 0 o).
      * exists (Some "503_overloaded"), 0%Z, o. split; [done|]. split; [lia|]. intros; lia.
      * exists None, 0%Z, 0%Z. split; [done|]. split; [lia|]. done.
  - exists None, 0%Z, 0%Z. split; [done|]. split; [lia|]. done.
Qed.

(** X17: where each status of an outcome comes from.  It is error exactly
    when the process could not be started or could not be killed; timeout
    exactly when the wait timed out and the kill went through; and success
    only when the process exited with code 0 and the artifact is answered
    clean, so markers in the artifact override an exit code of 0. *)
Theorem outcome_status_sources (bn : Z) (run : tool_run) :
  (status (report bn run) = Status.error <->
   (exists m, run = SpawnFails m) \/ (exists t m, run = TimesOut t (Some m))) /\
  (status (report bn run) = Status.timeout <-> exists t, run = TimesOut t None) /\
  (status (report bn run) = Status.success ->
   exists t f, run = Exits 0 t f /\ check_api_errors f = (None, 0, 0)%Z).
Proof.
  destruct run as [m | t [m|] | rc t f]; cbn.
  - split; [split; [eauto | done]|]. split; [|discriminate].
    split; [discriminate | intros [t Ht]; discriminate].
  - split; [split; [eauto | done]|]. split; [|discriminate].
    split; [discriminate | intros [t' Ht]; discriminate].
  - split; [split; [discriminate | intros [[m Hm] | (t' & m & Hm)]; discriminate]|].
    split; [split; [eauto | done] | discriminate].
  - destruct (check_api_errors_answers f) as [Hc | [(n & Hn & Hc) | (n & Hn & Hc)]];
      rewrite Hc; cbn.
    + destruct (Z.eqb_spec rc 0) as [->|Hrc]; cbn.
      * split; [split; [discriminate | intros [[m Hm] | (t' & m & Hm)]; discriminate]|].
        split; [split; [discriminate | intros [t' Ht]; discriminate]|]. eauto.
      * split; [split; [discriminate | intros [[m Hm] | (t' & m & Hm)]; discriminate]|].
        split; [split; [discriminate | intros [t' Ht]; discriminate] | discriminate].
    + split; [split; [discriminate | intros [[m Hm] | (t' & m & Hm)]; discriminate]|].
      split; [split; [discriminate | intros [t' Ht]; discriminate] | discriminate].
    + split; [split; [discriminate | intros [[m Hm] | (t' & m & Hm)]; discriminate]|].
      split; [split; [discriminate | intros [t' Ht]; discriminate] | discriminate].
Qed.

End WithRepr.
End ClassifierProperties.

Module ClassifierExamples.
Import Classifier Supervisor Notions Examples ClassifierProperties.

Lemma classification_by_texts_witness :
  check_api_errors (H:=plain_repr)
    (FileJson (artifact_with_errors ["429 Too Many Requests"; "503 overloaded"; ""]))
  = (Some "429_rate_limit", 1%Z, 0%Z).
Proof.
  exact (classification_by_texts (H:=plain_repr)
           (artifact_with_errors ["429 Too Many Requests"; "503 overloaded"; ""])
           (map record_with_error ["429 Too Many Requests"; "503 overloaded"; ""])
           ["429 Too Many Requests"; "503 overloaded"; ""] eq_refl eq_refl).
Defined.

Lemma ill_shaped_record_drops_all_counts_witness :
  check_api_errors (H:=plain_repr) (FileJson artifact_with_null_response)
  = (None, 0, 0)%Z.
Proof.
  apply (ill_shaped_record_drops_all_counts (H:=plain_repr) artifact_with_null_response
           [record_with_error "429 Too Many Requests"; PyDict [("response", PyNone)]]
           (PyDict [("response", PyNone)]) AttributeError eq_refl).
  - apply list_elem_of_further, list_elem_of_here.
  - reflexivity.
Defined.

Lemma reported_count_bounded_witness :
  exists kind n m,
    check_api_errors (H:=plain_repr)
      (FileJson (artifact_with_errors ["429 Too Many Requests"; "503 overloaded"; ""]))
    = (kind, n, m) /\
    (0 <= n /\ 0 <= m /\ n + m <= 3)%Z /\
    (kind <> None -> (0 < n + m)%Z).
Proof.
  exact (reported_count_bounded (H:=plain_repr)
           (artifact_with_errors ["429 Too Many Requests"; "503 overloaded"; ""])
           (map record_with_error ["429 Too Many Requests"; "503 overloaded"; ""])
           eq_refl).
Defined.

End ClassifierExamples.

(** ** Properties of the splitter *)

Module SplitterProperties.
Import Splitter SplitterFacts.

Lemma range_up_step_lookup (b : Z) (fuel : nat) (i stop : Z) (k : nat) :
  (0 < b)%Z -> (stop - i <= Z.of_nat fuel)%Z ->
  (i + Z.of_nat k * b < stop)%Z ->
  Py.range_up fuel i stop b !! k = Some (i + Z.of_nat k * b)%Z.
Proof.
  intros Hb. revert i k. induction fuel as [|fuel IH]; intros i k Hfuel Hk.
  - nia.
  - cbn [Py.range_up]. destruct (Z.ltb_spec i stop); [|nia].
    destruct k as [|k]; cbn.
    + f_equal. lia.
    + rewrite IH by nia. f_equal. lia.
Qed.

Lemma range_up_step_length (b : Z) (fuel : nat) (i stop : Z) (k : nat) :
  (0 < b)%Z ->
  (k < length (Py.range_up fuel i stop b))%nat -> (i + Z.of_nat k * b < stop)%Z.
Proof.
  intros Hb. revert i k. induction fuel as [|fuel IH]; intros i k; cbn [Py.range_up].
  - cbn. lia.
  - destruct (Z.ltb_spec i stop); [|cbn; lia].
    destruct k as [|k]; cbn [length]; [lia|].
    intros Hk. specialize (IH (i + b)%Z k ltac:(lia)). lia.
Qed.

(** X18: for a positive batch size, batch number k (counting from 0) is
    the slice of the tests from position k*b, of b elements or as many as
    are left; so the test at position j is in batch j / b at position
    j mod b.  No batch is empty and none has more than b elements. *)
Theorem batch_is_the_kth_slice {A} (tests : list A) (b : Z) :
  (0 < b)%Z ->
  exists batches,
    split_into_batches tests b = Ok batches /\
    (forall (k : nat) (batch : list A),
        batches !! k = Some batch ->
        batch = take (Z.to_nat b) (drop (Z.to_nat (Z.of_nat k * b)) tests) /\
        batch <> [] /\ (Z.of_nat (length batch) <= b)%Z) /\
    (forall (j : nat) (x : A),
        tests !! j = Some x ->
        exists batch,
          batches !! (Z.to_nat (Z.of_nat j / b)) = Some batch /\
          batch !! (Z.to_nat (Z.of_nat j mod b)) = Some x).
Proof.
  intros Hb. unfold split_into_batches, Py.range.
  destruct (Z.eqb_spec b 0) as [Hz|_]; [lia|].
  destruct (Z.ltb_spec 0 b) as [_|Hneg]; [|lia].
  eexists. split; [reflexivity|].
  set (n := Z.of_nat (length tests)).
  set (fuel := Z.to_nat (n - 0)).
  assert (forall k : nat, (Z.of_nat k * b < n)%Z ->
            map (fun i => Py.slice tests i (i + b)) (Py.range_up fuel 0 n b) !! k
            = Some (take (Z.to_nat b) (drop (Z.to_nat (Z.of_nat k * b)) tests)))
    as Hslice.
  { intros k Hk. rewrite list_lookup_fmap.
    rewrite (range_up_step_lookup b fuel 0 n k Hb) by lia. cbn.
    rewrite slice_window by lia. reflexivity. }
  split.
  - intros k batch Hk.
    assert (Z.of_nat k * b < n)%Z as Hlt.
    { apply lookup_lt_Some in Hk. rewrite length_map in Hk.
      pose proof (range_up_step_length b fuel 0 n k Hb Hk). lia. }
    rewrite (Hslice k Hlt) in Hk. injection Hk as <-.
    split; [reflexivity|].
    assert (length (take (Z.to_nat b) (drop (Z.to_nat (Z.of_nat k * b)) tests))
            = Nat.min (Z.to_nat b) (length tests - Z.to_nat (Z.of_nat k * b))) as Hlen
      by (rewrite length_take, length_drop; reflexivity).
    split.
    + intros Hnil. rewrite Hnil in Hlen. cbn in Hlen. subst n. lia.
    + rewrite Hlen. lia.
  - intros j x Hj.
    assert (Z.of_nat j < n)%Z as Hjn by (apply lookup_lt_Some in Hj; subst n; lia).
    pose proof (Z.div_mod (Z.of_nat j) b ltac:(lia)) as Hdm.
    pose proof (Z.mod_pos_bound (Z.of_nat j) b Hb) as Hmod.
    assert (0 <= Z.of_nat j / b)%Z as Hq by (apply Z.div_pos; lia).
    eexists. split.
    + rewrite <- (Z2Nat.id (Z.of_nat j / b)) in Hdm by lia.
      apply Hslice. rewrite Z2Nat.id by lia. nia.
    + rewrite Z2Nat.id by lia.
      rewrite lookup_take_lt by lia. rewrite lookup_drop.
      rewrite <- Hj. f_equal. nia.
Qed.

(** X19: a batch size that is not positive is not refused by a check: 0
    makes [range] raise a ValueError, whatever the tests (even none), and a
    negative size gives no batch at all, so every test is dropped without
    an error. *)
Theorem nonpositive_batch_size {A} (tests : list A) (b : Z) :
  (b <= 0)%Z ->
  split_into_batches tests b = (if (b =? 0)%Z then Raise ValueError else Ok []).
Proof.
  intros Hb. destruct (Z.eqb_spec b 0) as [->|Hne].
  - reflexivity.
  - unfold split_into_batches, Py.range.
    destruct (Z.eqb_spec b 0); [lia|]. destruct (Z.ltb_spec 0 b); [lia|].
    replace (Z.to_nat (0 - Z.of_nat (length tests))) with 0%nat by lia. reflexivity.
Qed.

Lemma batch_is_the_kth_slice_witness :
  exists batches,
    split_into_batches [10; 20; 30; 40; 50]%nat 2 = Ok batches /\
    exists batch,
      batches !! (Z.to_nat (Z.of_nat 4 / 2)) = Some batch /\
      batch !! (Z.to_nat (Z.of_nat 4 mod 2)) = Some 50%nat.
Proof.
  destruct (batch_is_the_kth_slice [10; 20; 30; 40; 50]%nat 2 eq_refl)
    as (batches & Hsplit & _ & Hpos).
  exists batches. split; [exact Hsplit|]. exact (Hpos 4%nat 50%nat eq_refl).
Defined.

Lemma nonpositive_batch_size_witness :
  split_into_batches [10; 20; 30]%nat (-2) = Ok [].
Proof.
  exact (nonpositive_batch_size [10; 20; 30]%nat (-2) ltac:(discriminate)).
Defined.

End SplitterProperties.

(** ** Properties of the merger *)

Module MergerProperties.
Import Merger MergerFacts Notions.

Section WithNumbers.
Context {num : Type} `{PyNumber num}.

(** Grouping never forgets a prompt it has seen. *)
Lemma group_keeps_keys (rs : list (test_record num)) (bp : gmap string (metrics num))
    (pid : string) :
  is_Some (bp !! pid) -> is_Some (foldl group_step bp rs !! pid).
Proof.
  revert bp. induction rs as [|r rs IH]; intros bp Hbp; [done|].
  cbn [foldl]. apply IH. unfold group_step.
  destruct (promptId r) as [q|]; [|done].
  destruct (String.eqb q ""); [done|].
  destruct (decide (q = pid)) as [->|Hne];
    [rewrite lookup_insert_eq; eauto | by rewrite lookup_insert_ne].
Qed.

(** Grouping is a fold over each prompt's own records. *)
Lemma group_by_prompt (rs : list (test_record num)) (bp : gmap string (metrics num))
    (pid : string) :
  pid <> "" ->
  foldl group_step bp rs !! pid =
  match records_of_prompt pid rs with
  | [] => bp !! pid
  | matching =>
      Some (foldl add_result (from_option id fresh_metrics (bp !! pid)) matching)
  end.
Proof.
  intros Hpid. revert bp. unfold records_of_prompt.
  induction rs as [|r rs IH]; intros bp; [reflexivity|].
  cbn [foldl]. rewrite IH, filter_cons. unfold group_step.
  destruct (promptId r) as [q|] eqn:Hq.
  - destruct (String.eqb_spec q "") as [->|Hq0].
    + rewrite decide_False by congruence. reflexivity.
    + destruct (decide (q = pid)) as [->|Hne].
      * rewrite decide_True by done. rewrite lookup_insert_eq. cbn [from_option id].
        destruct (filter _ rs); reflexivity.
      * rewrite decide_False by congruence. rewrite lookup_insert_ne by done.
        reflexivity.
  - rewrite decide_False by congruence. reflexivity.
Qed.

Lemma add_result_counts (l : list (test_record num)) (m : metrics num) :
  let m' := foldl add_result m l in
  testPassCount m' = (testPassCount m + count_records success l)%Z /\
  testErrorCount m' = (testErrorCount m + count_records (fun r => truthy (error r)) l)%Z /\
  testFailCount m'
  = (testFailCount m
     + count_records (fun r => negb (success r) && negb (truthy (error r))) l)%Z /\
  assertPassCount m' = assertPassCount m /\
  assertFailCount m' = assertFailCount m.
Proof.
  revert m. unfold count_records.
  induction l as [|r l IH]; intros m; cbn [foldl].
  - cbn. repeat split; lia.
  - destruct (IH (add_result m r)) as (Hp & He & Hf & Hap & Haf).
    cbv zeta. rewrite Hp, He, Hf, Hap, Haf. rewrite !filter_cons.
    cbn [add_result testPassCount testErrorCount testFailCount
         assertPassCount assertFailCount].
    destruct (success r), (truthy (error r)); cbn [negb andb];
      repeat (case_decide; try congruence);
      cbn [length]; repeat split; lia.
Qed.

(** X20: the per-prompt metrics the merger recomputes are, for each prompt
    id, a fold over the merged records of that prompt in order: the pass,
    error and fail counts are the numbers of such records that succeeded,
    that carry an error, and that did neither; the assertion counts stay 0;
    a prompt with no record gets no entry, and records without a prompt id
    (or with an empty one) are left out. *)
Theorem per_prompt_counts (rs : list (test_record num)) (pid : string) :
  pid <> "" ->
  let matching := records_of_prompt pid rs in
  (foldl group_step ∅ rs !! pid = None <-> matching = []) /\
  (forall m,
      foldl group_step ∅ rs !! pid = Some m ->
      m = foldl add_result fresh_metrics matching /\
      testPassCount m = count_records success matching /\
      testErrorCount m = count_records (fun r => truthy (error r)) matching /\
      testFailCount m
      = count_records (fun r => negb (success r) && negb (truthy (error r))) matching /\
      assertPassCount m = 0%Z /\ assertFailCount m = 0%Z) /\
  foldl group_step ∅ rs !! "" = None.
Proof.
  intros Hpid matching.
  pose proof (group_by_prompt rs ∅ pid Hpid) as Hg. fold matching in Hg.
  rewrite lookup_empty in Hg. cbn [from_option id] in Hg.
  split; [|split].
  - rewrite Hg. destruct matching; split; done.
  - intros m Hm. rewrite Hg in Hm.
    destruct matching as [|r l] eqn:Hmatch; [discriminate|]. injection Hm as <-.
    split; [reflexivity|].
    destruct (add_result_counts (r :: l) fresh_metrics) as (Hp & He & Hf & Hap & Haf).
    cbv zeta in *. cbn [foldl] in Hp, He, Hf, Hap, Haf.
    rewrite Hp, He, Hf, Hap, Haf. cbn. repeat split; lia.
  - clear. generalize (∅ : gmap string (metrics num)) (lookup_empty (M:=gmap string)
                                                          (A:=metrics num) "").
    induction rs as [|r rs IH]; intros bp Hbp; [done|].
    cbn [foldl]. apply IH. unfold group_step.
    destruct (promptId r) as [q|]; [|done].
    destruct (String.eqb_spec q "") as [->|Hq]; [done|].
    by rewrite lookup_insert_ne.
Qed.

Lemma last_default_irrelevant {X} (x : X) (l : list X) (d d' : X) :
  List.last (x :: l) d = List.last (x :: l) d'.
Proof.
  revert x. induction l as [|y l IH]; intros x; [reflexivity|].
  change (List.last (y :: l) d = List.last (y :: l) d'). apply IH.
Qed.

Lemma last_batch_of_loop (others : list (artifact num)) (acc : merge_acc num) :
  last_batch_data (foldl merge_step acc others) = List.last others (last_batch_data acc).
Proof.
  revert acc. induction others as [|b others IH]; intros acc; [reflexivity|].
  cbn [foldl]. rewrite IH. cbn [merge_step last_batch_data].
  destruct others as [|c others]; [reflexivity|].
  change (List.last (b :: c :: others) (last_batch_data acc))
    with (List.last (c :: others) (last_batch_data acc)).
  apply last_default_irrelevant.
Qed.

Lemma update_prompt_id (bp : gmap string (metrics num)) (p : prompt num) :
  prompt_id (update_prompt bp p) = prompt_id p.
Proof.
  unfold update_prompt. destruct (prompt_id p) as [pid|] eqn:Hp; [|done].
  destruct (bp !! pid); [reflexivity | done].
Qed.

(** X21: what the merged artifact takes from where: its evalId is the
    base's with "merged-" in front, its exportedAt is the last artifact's,
    and its prompts block is the base's, entry by entry with the same ids
    (prompt entries that only later artifacts have are not carried over). *)
Theorem merged_identity_fields (base : artifact num) (others : list (artifact num)) :
  exists m,
    merge_results (base :: others) = Some m /\
    evalId m = ("merged-" ++ evalId base)%string /\
    exportedAt m = exportedAt (List.last others base) /\
    map prompt_id (prompts m) = map prompt_id (prompts base).
Proof.
  eexists. split; [reflexivity|].
  destruct (merge_loop others (start_acc base)) as (_ & _ & _ & _ & _ & _ & Hid & Hp).
  cbv zeta in *. cbn [finish evalId exportedAt prompts].
  rewrite Hid, Hp, last_batch_of_loop. cbn [start_acc merged last_batch_data].
  split; [reflexivity|]. split; [reflexivity|].
  rewrite <- list_fmap_compose. apply list_fmap_ext. intros i p _. cbn.
  apply update_prompt_id.
Qed.

Lemma merge_token_usage_absent (mine theirs : gmap string Z) (key : string) :
  mine !! key = None -> theirs !! key = None ->
  merge_token_usage mine theirs !! key = None.
Proof.
  intros Hm Ht. unfold merge_token_usage.
  rewrite (fold_token_keys theirs TOKEN_KEYS token_keys_nodup).
  rewrite Ht. by destruct (decide (key ∈ TOKEN_KEYS)).
Qed.

(** X22: token counters outside the four listed keys are never summed: the
    merged artifact keeps the base's value for them, whatever the other
    artifacts hold; and a counter that no input has is absent from the
    merged artifact. *)
Theorem token_counters_outside_the_list (base : artifact num)
    (others : list (artifact num)) :
  exists m,
    merge_results (base :: others) = Some m /\
    (forall key, key ∉ TOKEN_KEYS ->
       tokenUsage (stats_of m) !! key = tokenUsage (stats_of base) !! key) /\
    (forall key,
       Forall (fun x => tokenUsage (stats_of x) !! key = None) (base :: others) ->
       tokenUsage (stats_of m) !! key = None).
Proof.
  eexists. split; [reflexivity|]. split.
  - intros key Hnin.
    destruct (merge_loop others (start_acc base)) as (_ & _ & _ & _ & _ & Ho & _).
    exact (Ho key Hnin).
  - intros key Hall. apply Forall_cons in Hall as [Hbase Hothers].
    cbn [finish stats_of tokenUsage].
    assert (forall acc : merge_acc num,
               tokenUsage (stats_of (merged acc)) !! key = None ->
               tokenUsage (stats_of (merged (foldl merge_step acc others))) !! key = None)
      as Hloop.
    { induction Hothers as [|b others Hb _ IH]; intros acc Hacc; [done|].
      cbn [foldl]. apply IH. cbn [merge_step merged stats_of tokenUsage].
      by apply merge_token_usage_absent. }
    by apply Hloop.
Qed.


Lemma same_totals_start (acc : merge_acc num) : same_totals (start_acc (finish acc)) acc.
Proof. repeat split. Qed.

Lemma same_totals_loop (cs : list (artifact num)) (acc acc' : merge_acc num) :
  same_totals acc acc' ->
  same_totals (foldl merge_step acc cs) (foldl merge_step acc' cs).
Proof.
  revert acc acc'. induction cs as [|c cs IH]; intros acc acc' Hsame; [done|].
  cbn [foldl]. apply IH.
  destruct Hsame as (Hr & Hu & Hs & Hf & He & Hx).
  unfold same_totals.
  cbn [merge_step merged results stats_of tokenUsage total_successes total_failures
       total_errors last_batch_data].
  rewrite Hr, Hu, Hs, Hf, He. repeat split.
Qed.

Lemma update_prompt_twice (bp1 bp2 : gmap string (metrics num)) (p : prompt num) :
  (forall pid, is_Some (bp1 !! pid) -> is_Some (bp2 !! pid)) ->
  update_prompt bp2 (update_prompt bp1 p) = update_prompt bp2 p.
Proof.
  intros Hmono. unfold update_prompt at 2.
  destruct (prompt_id p) as [pid|] eqn:Hp; [|reflexivity].
  destruct (bp1 !! pid) as [m1|] eqn:H1; [|reflexivity].
  destruct (Hmono pid ltac:(eauto)) as [m2 H2].
  unfold update_prompt. cbn [prompt_id]. rewrite Hp, H2. reflexivity.
Qed.

(** X23: merging in two passes gives the same totals as merging in one:
    merging the artifacts a, bs and then merging the result with cs gives
    the same records, the same stats block, the same exportedAt and the same
    prompts block as merging a, bs, cs at once; only the evalId differs, the
    prefix "merged-" being put in front a second time. *)
Theorem merge_in_two_passes (a : artifact num) (bs cs : list (artifact num)) :
  exists m m2 m3,
    merge_results (a :: bs) = Some m /\
    merge_results (m :: cs) = Some m2 /\
    merge_results (a :: bs ++ cs) = Some m3 /\
    results m2 = results m3 /\
    stats_of m2 = stats_of m3 /\
    exportedAt m2 = exportedAt m3 /\
    prompts m2 = prompts m3 /\
    evalId m2 = ("merged-" ++ evalId m3)%string.
Proof.
  set (acc1 := foldl merge_step (start_acc a) bs).
  set (acc2 := foldl merge_step (start_acc (finish acc1)) cs).
  set (acc3 := foldl merge_step acc1 cs).
  exists (finish acc1), (finish acc2), (finish acc3).
  split; [reflexivity|]. split; [reflexivity|].
  split; [cbn [merge_results]; by rewrite foldl_app|].
  destruct (same_totals_loop cs _ _ (same_totals_start acc1))
    as (Hr & Hu & Hs & Hf & He & Hx).
  fold acc2 acc3 in Hr, Hu, Hs, Hf, He, Hx.
  destruct (merge_loop cs (start_acc (finish acc1))) as (_ & _ & _ & _ & _ & _ & Hid2 & Hp2).
  destruct (merge_loop cs acc1) as (Hr3 & _ & _ & _ & _ & _ & Hid3 & Hp3).
  cbv zeta in *. fold acc2 in Hid2, Hp2. fold acc3 in Hr3, Hid3, Hp3.
  split; [exact Hr|].
  split; [cbn [finish stats_of]; by rewrite Hs, Hf, He, Hu|].
  split; [exact Hx|]. split.
  - cbn [finish prompts]. rewrite Hr, Hp2, Hp3.
    cbn [start_acc merged finish prompts].
    rewrite <- list_fmap_compose. apply list_fmap_ext. intros i p _. cbn.
    apply update_prompt_twice. intros pid Hsome.
    rewrite Hr3, foldl_app. by apply group_keeps_keys.
  - cbn [finish evalId]. rewrite Hid2, Hid3. reflexivity.
Qed.

End WithNumbers.
End MergerProperties.

Module MergerExamples.
Import Merger Notions Examples MergerProperties.

Lemma per_prompt_counts_witness :
  foldl (group_step (H:=Z_number)) ∅ (results batch_two) !! "" = None /\
  exists m,
    foldl (group_step (H:=Z_number)) ∅ (results batch_two) !! "p1" = Some m /\
    testPassCount m = 1%Z /\ testFailCount m = 1%Z /\ testErrorCount m = 0%Z.
Proof.
  destruct (per_prompt_counts (H:=Z_number) (results batch_two) "p1" ltac:(discriminate))
    as (_ & Hcounts & Hempty).
  split; [exact Hempty|].
  eexists. split; [vm_compute; reflexivity|].
  destruct (Hcounts _ ltac:(vm_compute; reflexivity)) as (_ & Hp & He & Hf & _).
  rewrite Hp, He, Hf. vm_compute. repeat split.
Defined.

End MergerExamples.

(** ** The batch configuration: properties *)

Module MaterializerProperties.
Import Classifier Materializer Notions Examples MaterializerFacts.


(** X25: when [create_batch_config] gets to write a configuration: exactly
    when the loaded value is a dict, its prompts (if any) can be iterated,
    and, when a fallback model is given, its providers (if any) can be
    iterated and hold no dict whose id is not a str.  In particular an
    empty configuration file (loaded as [None]) and a top-level list are
    refused. *)
Theorem config_is_written_iff (config : pyval) (config_dir batch_file_abs : string)
  (fallback_model : option string) :
  (exists out,
      create_batch_config config config_dir batch_file_abs fallback_model = Ok out) <->
  (exists items,
      config = PyDict items /\
      from_option iterable true (assoc "prompts" items) = true /\
      (truthy_model fallback_model = true ->
       from_option providers_usable true (assoc "providers" items) = true)).
Proof.
  split.
  - intros [out Hout]. destruct config as [| | | | | |items]; try discriminate.
    exists items. split; [done|].
    pose proof (create_batch_config_stages items config_dir batch_file_abs fallback_model)
      as Hst. cbv zeta in Hst. rewrite Hout in Hst.
    destruct Hst as (with_prompts & with_providers & Hp & Hv & _). split.
    + destruct (assoc "prompts" items) as [prompts|]; [|done].
      destruct Hp as (xs & Hiter & _). cbn [from_option].
      pose proof (py_iter_iterable prompts) as Hi. by rewrite Hiter in Hi.
    + intros Htruthy. rewrite Htruthy in Hv.
      destruct (assoc "providers" items) as [providers|]; [|done].
      destruct Hv as (providers' & Hsw & _). cbn [from_option].
      pose proof (switch_providers_spec (default "" fallback_model) providers) as Hs.
      rewrite Hsw in Hs. by destruct Hs.
  - intros (items & -> & Hprompts & Hproviders).
    pose proof (create_batch_config_stages items config_dir batch_file_abs fallback_model)
      as Hst. cbv zeta in Hst.
    destruct (create_batch_config _ _ _ _) as [out|e]; [by eexists|].
    destruct Hst as [Hbad|[Htruthy Hbad]]; [congruence|].
    specialize (Hproviders Htruthy). congruence.
Qed.


(** X27: a run without fallback model ([None] or the empty str) never
    looks at the providers: if the prompts can be iterated, the
    configuration is written and its providers entry is the loaded one,
    also when it holds entries the switch would raise on. *)
Theorem without_fallback_providers_untouched (items : list (string * pyval))
  (config_dir batch_file_abs : string) (fallback_model : option string) :
  truthy_model fallback_model = false ->
  from_option iterable true (assoc "prompts" items) = true ->
  exists out_items,
    create_batch_config (PyDict items) config_dir batch_file_abs fallback_model
    = Ok (PyDict out_items) /\
    assoc "providers" out_items = assoc "providers" items.
Proof.
  intros Hfalsy Hprompts.
  pose proof (create_batch_config_stages items config_dir batch_file_abs fallback_model)
    as Hst. cbv zeta in Hst.
  destruct (create_batch_config _ _ _ _) as [out|e].
  - destruct Hst as (with_prompts & with_providers & Hp & Hv & ->).
    eexists. split; [reflexivity|].
    rewrite assoc_dict_set_ne by done.
    assert (with_providers = with_prompts) as ->.
    { destruct (assoc "providers" items); [|done]. by rewrite Hfalsy in Hv. }
    destruct (assoc "prompts" items) as [prompts|].
    + destruct Hp as (xs & _ & ->). rewrite assoc_dict_set_ne by done.
      by apply assoc_dict_pop_ne.
    + subst. by apply assoc_dict_pop_ne.
  - destruct Hst as [Hbad|[Htruthy _]]; congruence.
Qed.

(** X28: a prompts entry given as one str, not as a list, is taken apart:
    the written configuration has as prompts the list of the characters of
    the str (the pieces its iteration gives; put together they give the
    str back), none of them rewritten, so the path is neither kept nor
    made absolute. *)
Theorem single_prompt_string_is_split (items : list (string * pyval))
  (config_dir batch_file_abs : string) (fallback_model : option string)
  (s : string) (out : pyval) :
  assoc "prompts" items = Some (PyStr s) ->
  create_batch_config (PyDict items) config_dir batch_file_abs fallback_model = Ok out ->
  exists out_items pieces,
    out = PyDict out_items /\
    py_iter (PyStr s) = Ok (map PyStr pieces) /\
    foldr String.append EmptyString pieces = s /\
    assoc "prompts" out_items = Some (PyList (map PyStr pieces)).
Proof.
  intros Hprompts Hout.
  pose proof (create_batch_config_stages items config_dir batch_file_abs fallback_model)
    as Hst. cbv zeta in Hst. rewrite Hout, Hprompts in Hst.
  destruct Hst as (with_prompts & with_providers & (xs & Hiter & ->) & Hv & ->).
  eexists _, (chars s). split; [reflexivity|]. split; [reflexivity|].
  split; [apply chars_join|].
  cbn [py_iter] in Hiter. injection Hiter as <-.
  rewrite assoc_dict_set_ne by done.
  assert (assoc "prompts" with_providers
          = assoc "prompts"
              (dict_set "prompts"
                 (PyList (map (rewrite_entry config_dir) (map PyStr (chars s))))
                 (dict_pop "tests" items))) as ->.
  { destruct (assoc "providers" items); [|by subst].
    destruct (truthy_model fallback_model); [|by subst].
    destruct Hv as (providers' & _ & ->). by apply assoc_dict_set_ne. }
  rewrite assoc_dict_set. cbn [String.eqb Ascii.eqb Bool.eqb]. do 2 f_equal.
  rewrite <- list_fmap_compose. apply list_fmap_ext. intros i piece Hi. cbn.
  apply (character_kept config_dir s). by apply list_elem_of_lookup_2 in Hi.
Qed.

(** X29: both branches of the prompt rewriting do one thing: a str prompt
    starting with "file://prompts/" or "file://tests/prompts/" gets the
    configuration directory and a slash put in after "file://", and any
    other str prompt is left as it is. *)
Theorem rewrite_prompt_rule (config_dir prompt : string) :
  rewrite_prompt config_dir prompt =
  if startswith prompt "file://prompts/" || startswith prompt "file://tests/prompts/"
  then ("file://" ++ config_dir ++ "/" ++ str_drop (String.length "file://") prompt)%string
  else prompt.
Proof. exact (rewrite_prompt_inserts config_dir prompt). Qed.

(** X30: with an absolute configuration directory (as [os.path.abspath]
    gives), a rewritten prompt is not rewritten again: the rewriting is
    idempotent. *)
Theorem rewrite_prompt_idempotent (config_dir prompt : string) :
  startswith config_dir "/" = true ->
  rewrite_prompt config_dir (rewrite_prompt config_dir prompt)
  = rewrite_prompt config_dir prompt.
Proof.
  intros Habs. rewrite (rewrite_prompt_inserts config_dir prompt).
  destruct (startswith prompt "file://prompts/" || startswith prompt "file://tests/prompts/")
    eqn:Hmatch.
  - rewrite rewrite_prompt_inserts.
    by rewrite (rewritten_matches_no_prefix config_dir _ Habs).
  - rewrite rewrite_prompt_inserts. by rewrite Hmatch.
Qed.

End MaterializerProperties.

Module MaterializerExamples.
Import Classifier Materializer Notions Examples MaterializerProperties.



Lemma without_fallback_providers_untouched_witness :
  exists out_items,
    create_batch_config (PyDict one_prompt_items) "/work"
      "/work/_generated/batch_01_temp.yaml" None
    = Ok (PyDict out_items) /\
    assoc "providers" out_items = Some (PyList [PyDict [("id", PyInt 7)]]) /\
    create_batch_config (PyDict one_prompt_items) "/work"
      "/work/_generated/batch_01_temp.yaml" (Some "google:gemini-2.5-pro")
    = Raise AttributeError.
Proof.
  destruct (without_fallback_providers_untouched one_prompt_items "/work"
              "/work/_generated/batch_01_temp.yaml" None eq_refl eq_refl)
    as (out_items & Hout & Hproviders).
  exists out_items. split; [exact Hout|]. split; [|reflexivity].
  rewrite Hproviders. reflexivity.
Defined.

Lemma single_prompt_string_is_split_witness :
  exists out_items,
    create_batch_config (PyDict one_prompt_items) "/work"
      "/work/_generated/batch_01_temp.yaml" None
    = Ok (PyDict out_items) /\
    assoc "prompts" out_items
    = Some (PyList (map PyStr ["f"; "i"; "l"; "e"; ":"; "/"; "/"; "p"; "r"; "o"; "m";
                               "p"; "t"; "s"; "/"; "a"; "."; "t"; "x"; "t"])).
Proof.
  destruct (single_prompt_string_is_split one_prompt_items "/work"
              "/work/_generated/batch_01_temp.yaml" None "file://prompts/a.txt" _
              eq_refl eq_refl)
    as (out_items & pieces & Hout & Hiter & Hjoin & Hprompts).
  exists out_items. injection Hout as <-.
  split; [reflexivity|]. rewrite Hprompts.
  cbn [py_iter] in Hiter. injection Hiter as <-. reflexivity.
Defined.

Lemma rewrite_prompt_idempotent_witness :
  rewrite_prompt "/work" (rewrite_prompt "/work" "file://prompts/a.txt")
  = "file:///work/prompts/a.txt".
Proof.
  rewrite (rewrite_prompt_idempotent "/work" "file://prompts/a.txt" eq_refl).
  reflexivity.
Defined.

End MaterializerExamples.
